(** * FPL analytics: the squad and transfer engine and the fixture predictor

    A shallow embedding of [analyze_my_team.py] (class [FPLPlayerAnalyzer])
    and of [advanced_fixture_predictor.py] (class [AdvancedFixturePredictor]),
    with the properties the specification states about them.

    Conventions of the embedding.
    - A Python float is an exact rational ([Q]); rounding error is not
      modelled.  Division is used at non-zero divisors only where a
      statement depends on it.
    - A pandas table is its column index together with its rows.  A row
      carries the columns the fetcher types by construction ([id], the
      names, [price], the integer counters) as fields, and every other
      column (the text metrics of the API and the columns the analyzer
      adds) in a finite map from column label to cell.
    - A Python exception is a value of [exn]; a function that can raise
      returns a [result].
    - The sort under pandas' [sort_values] is a parameter, [argsort]: it
      is not stable, so nothing is assumed of the order it gives to
      equal scores; what is assumed of it, where a statement needs it,
      is that it sorts ([sorts]).  Python's [sorted] is stable and is
      written out. *)

From Stdlib Require Import QArith Qminmax Qround Qabs Lqa Lia ZArith.
From Stdlib Require Import Ascii String.
From stdpp Require Import gmap strings list fin_maps sorting.

(** ** Exceptions and results *)

Inductive exn : Type :=
  | KeyError (key : string)
  | ValueError (msg : string).

Definition exn_class (e : exn) : string :=
  match e with
  | KeyError _ => "KeyError"
  | ValueError _ => "ValueError"
  end.

Inductive result (A : Type) : Type :=
  | Ok (a : A)
  | Raise (e : exn).
Arguments Ok {A} a.
Arguments Raise {A} e.

#[global] Instance result_ret : MRet result := fun A a => Ok a.
#[global] Instance result_bind : MBind result := fun A B f r =>
  match r with
  | Ok a => f a
  | Raise e => Raise e
  end.

(** ** Cells, rows and tables *)

Inductive cell : Type :=
  | Num (q : Q)
  | Str (s : string)
  | NaN.

#[global] Instance cell_inhabited : Inhabited cell := populate NaN.

(** The float a cell of a float column holds. *)
Definition float_of (c : cell) : Q :=
  match c with
  | Num q => q
  | _ => 0%Q
  end.

Record Player : Type := mkPlayer {
  id : Z;
  web_name : string;
  team_short : string;
  position : string;
  status : string;
  price : Q;
  minutes : Z;
  total_points : Z;
  clean_sheets : Z;
  goals_conceded : Z;
  chance_of_playing_next_round : option Q;
  cols : gmap string cell
}.

Definition set_cols (p : Player) (m : gmap string cell) : Player :=
  {| id := id p; web_name := web_name p; team_short := team_short p;
     position := position p; status := status p; price := price p;
     minutes := minutes p; total_points := total_points p;
     clean_sheets := clean_sheets p; goals_conceded := goals_conceded p;
     chance_of_playing_next_round := chance_of_playing_next_round p;
     cols := m |}.

Definition set_chance (p : Player) (c : option Q) : Player :=
  {| id := id p; web_name := web_name p; team_short := team_short p;
     position := position p; status := status p; price := price p;
     minutes := minutes p; total_points := total_points p;
     clean_sheets := clean_sheets p; goals_conceded := goals_conceded p;
     chance_of_playing_next_round := c;
     cols := cols p |}.

(** [player[c]] for a float column [c]. *)
Definition getf (p : Player) (c : string) : Q := float_of (cols p !!! c).

Definition value_score (p : Player) : Q := getf p "value_score".

Record DataFrame : Type := mkFrame {
  columns : list string;
  rows : list Player
}.

Definition has_column (df : DataFrame) (c : string) : bool :=
  bool_decide (c ∈ columns df).

(** [df[c]] raises [KeyError(c)] when the label is not in the index. *)
Definition getitem (df : DataFrame) (c : string) : result unit :=
  if has_column df c then Ok tt else Raise (KeyError c).

Definition add_column (df : DataFrame) (c : string) : list string :=
  if has_column df c then columns df else columns df ++ [c].

(** [df[c] = f(row)] for a float column. *)
Definition assign (c : string) (f : Player -> Q) (df : DataFrame) : DataFrame :=
  {| columns := add_column df c;
     rows := map (fun p => set_cols p (<[c := Num (f p)]> (cols p))) (rows df) |}.

(** ** MinMaxScaler (scikit-learn), feature range (0, 1) *)

Module MinMaxScaler.
Local Open Scope Q_scope.

Definition data_min (xs : list Q) : Q := foldr Qmin (hd 0 xs) xs.
Definition data_max (xs : list Q) : Q := foldr Qmax (hd 0 xs) xs.

Definition handle_zeros_in_scale (r : Q) : Q :=
  if Qeq_bool r 0 then 1 else r.

Definition scale_ (xs : list Q) : Q :=
  1 / handle_zeros_in_scale (data_max xs - data_min xs).

Definition min_ (xs : list Q) : Q := 0 - data_min xs * scale_ xs.

Definition transform (xs : list Q) (x : Q) : Q := x * scale_ xs + min_ xs.

Definition no_samples : exn :=
  ValueError "Found array with 0 sample(s) (shape=(0, 1)) while a minimum of 1 is required by MinMaxScaler.".

Definition fit_transform (xs : list Q) : result (list Q) :=
  match xs with
  | [] => Raise no_samples
  | _ => Ok (map (transform xs) xs)
  end.
End MinMaxScaler.

(** ** Loops and sorting *)

(** A [for] loop whose body can raise. *)
Fixpoint foldM {A B : Type} (f : B -> A -> result B) (l : list A) (b : B)
    : result B :=
  match l with
  | [] => mret b
  | a :: l' => b' ← f b a; foldM f l' b'
  end.

(** Sorting by a float key, largest first, elements of equal key keeping
    their order: Python's [sorted(..., reverse=True)], which is stable,
    and the order in which [nlargest] picks among more rows than it
    returns ([keep='first']). *)
Fixpoint insert_desc {A : Type} (key : A -> Q) (x : A) (l : list A) : list A :=
  match l with
  | [] => [x]
  | y :: l' =>
      if Qlt_le_dec (key x) (key y) then y :: insert_desc key x l'
      else x :: y :: l'
  end.

Definition sort_desc {A : Type} (key : A -> Q) (l : list A) : list A :=
  foldr (insert_desc key) [] l.

(** ** Transfer recommendations *)

(** One entry of [position_recommendations]; the key ['in'] is [in_]. *)
Module Rec.
Record t : Type := mk {
  position : string;
  out : string;
  out_team : string;
  out_price : Q;
  out_score : Q;
  out_form : cell;
  in_ : string;
  in_team : string;
  in_price : Q;
  in_score : Q;
  in_form : cell;
  price_change : Q;
  score_improvement : Q;
  team_count_after : nat
}.
End Rec.

(** ** FPLPlayerAnalyzer *)

Section Analyzer.
Local Open Scope Q_scope.

(** How pandas reads the text of a cell as a number; [None] where
    [errors='coerce'] yields NaN. *)
Variable to_float : string -> option Q.

Definition to_numeric (c : cell) : cell :=
  match c with
  | Num q => Num q
  | Str s => match to_float s with Some q => Num q | None => NaN end
  | NaN => NaN
  end.

(** [df[c] = pd.to_numeric(df[c], errors='coerce')] *)
Definition to_numeric_column (c : string) (df : DataFrame) : result DataFrame :=
  _ ← getitem df c;
  mret {| columns := columns df;
          rows := map (fun p => set_cols p (alter to_numeric c (cols p))) (rows df) |}.

Definition fillna0 (c : cell) : cell :=
  match c with
  | NaN => Num 0
  | _ => c
  end.

(** [df.fillna(0, inplace=True)] *)
Definition fillna (df : DataFrame) : DataFrame :=
  {| columns := columns df;
     rows := map (fun p =>
               set_chance (set_cols p (fillna0 <$> cols p))
                 (Some (default 0 (chance_of_playing_next_round p))))
             (rows df) |}.

Definition metrics : list string :=
  ["points_per_game"; "form"; "points_per_million"; "ict_index";
   "expected_involvement"].

Definition normalized (metric : string) : string := metric +:+ "_normalized".

Definition weights : list (string * Q) :=
  [("points_per_game_normalized", 0.25);
   ("form_normalized", 0.25);
   ("points_per_million_normalized", 0.20);
   ("ict_index_normalized", 0.15);
   ("expected_involvement_normalized", 0.15)].

(** The body of the loop [for metric in metrics]. *)
Definition normalize_metric (df : DataFrame) (metric : string) : result DataFrame :=
  if has_column df metric then
    let xs := map (fun p => getf p metric) (rows df) in
    _ ← MinMaxScaler.fit_transform xs;
    mret (assign (normalized metric)
                 (fun p => MinMaxScaler.transform xs (getf p metric)) df)
  else mret df.

Fixpoint normalize_metrics (ms : list string) (df : DataFrame) : result DataFrame :=
  match ms with
  | [] => mret df
  | metric :: ms' => df' ← normalize_metric df metric; normalize_metrics ms' df'
  end.

(** [sum(df[col] * weight for col, weight in weights.items())] on one row. *)
Definition weighted_sum (p : Player) : Q :=
  fold_left (fun acc cw => acc + getf p (fst cw) * snd cw) weights 0.

Fixpoint getitems (df : DataFrame) (cs : list string) : result unit :=
  match cs with
  | [] => mret tt
  | c :: cs' => _ ← getitem df c; getitems df cs'
  end.

(** Lines 26 to 65: the table with the composite score, before the
    availability penalties. *)
Definition composite_score (players_df : DataFrame) : result DataFrame :=
  _ ← getitem players_df "minutes";
  let df := {| columns := columns players_df;
               rows := filter (fun p => (0 < minutes p)%Z) (rows players_df) |} in
  df ← to_numeric_column "selected_by_percent" df;
  df ← to_numeric_column "form" df;
  df ← to_numeric_column "points_per_game" df;
  df ← to_numeric_column "ict_index" df;
  df ← to_numeric_column "expected_goals" df;
  df ← to_numeric_column "expected_assists" df;
  let df := fillna df in
  _ ← getitem df "total_points";
  _ ← getitem df "price";
  let df := assign "points_per_million"
              (fun p => inject_Z (total_points p) / price p) df in
  _ ← getitem df "form";
  _ ← getitem df "price";
  let df := assign "form_per_million" (fun p => getf p "form" / price p) df in
  _ ← getitem df "expected_goals";
  _ ← getitem df "expected_assists";
  let df := assign "expected_involvement"
              (fun p => getf p "expected_goals" + getf p "expected_assists") df in
  df ← normalize_metrics metrics df;
  _ ← getitems df (map fst weights);
  mret (assign "value_score" weighted_sum df).

Definition chance_below_100 (p : Player) : bool :=
  match chance_of_playing_next_round p with
  | Some c => if Qlt_le_dec c 100 then true else false
  | None => false
  end.

Definition not_available (p : Player) : bool :=
  negb (String.eqb (status p) "a").

(** [df.loc[mask, 'value_score'] *= factor] *)
Definition scale_where (mask : Player -> bool) (factor : Q) (df : DataFrame) : DataFrame :=
  {| columns := columns df;
     rows := map (fun p =>
               if mask p
               then set_cols p (<["value_score" := Num (value_score p * factor)]> (cols p))
               else p)
             (rows df) |}.

(** Lines 68 and 69. *)
Definition penalise (df : DataFrame) : result DataFrame :=
  _ ← getitem df "chance_of_playing_next_round";
  _ ← getitem df "value_score";
  let df := scale_where chance_below_100 0.5 df in
  _ ← getitem df "status";
  _ ← getitem df "value_score";
  mret (scale_where not_available 0.3 df).

(** [calculate_value_score]: the returned table, which is also the new
    [self.players_df]. *)
Definition calculate_value_score (players_df : DataFrame) : result DataFrame :=
  df ← composite_score players_df;
  penalise df.

(** [if 'value_score' not in self.players_df.columns:
       self.calculate_value_score()], giving the table the method
    then works on. *)
Definition ensure_scored (players_df : DataFrame) : result DataFrame :=
  if has_column players_df "value_score" then mret players_df
  else calculate_value_score players_df.

(** *** The order of pandas' sorts *)

(** The sort under [sort_values]: [argsort keys] lists the positions of
    the column [keys] from the largest key to the smallest.  It is
    numpy's default sort, which is not stable: the order it gives to
    equal keys is not specified, and it sees nothing but the keys. *)
Variable argsort : list Q -> list nat.

(** [df.sort_values('value_score', ascending=False)] *)
Definition sort_values (l : list Player) : list Player :=
  omap (fun i => l !! i) (argsort (map value_score l)).

(** [df.nlargest(n, 'value_score')]: no row for [n] below 1; for a table
    of no more than [n] rows, [sort_values(ascending=False).head(n)];
    for a longer one its [n] rows of largest score, largest first, rows
    of equal score in the order of the table ([keep='first']). *)
Definition nlargest (n : Z) (l : list Player) : list Player :=
  if (n <=? 0)%Z then []
  else if (Z.of_nat (length l) <=? n)%Z then take (Z.to_nat n) (sort_values l)
  else take (Z.to_nat n) (sort_desc value_score l).

(** *** build_optimal_squad *)

Record Builder : Type := mkBuilder {
  squad : list Player;
  remaining_budget : Q;
  team_counts : gmap string nat
}.

Definition formation : list (string * nat) :=
  [("GK", 2%nat); ("DEF", 5%nat); ("MID", 5%nat); ("FWD", 3%nat)].

(** The rows of one position that are available, best score first. *)
Definition position_players (df : DataFrame) (pos : string) : result (list Player) :=
  _ ← getitem df "position";
  _ ← getitem df "status";
  _ ← getitem df "value_score";
  mret (sort_values
          (filter (fun p => position p = pos ∧ status p = "a") (rows df))).

(** The loop [for _, player in position_players.iterrows()]. *)
Fixpoint select_players (df : DataFrame) (count : nat) (players : list Player)
    (selected : nat) (st : Builder) : result Builder :=
  match players with
  | [] => mret st
  | player :: rest =>
      if decide (count ≤ selected)%nat then mret st
      else
        _ ← getitem df "team_short";
        let player_team := team_short player in
        let current_team_count := default 0%nat (team_counts st !! player_team) in
        if decide (3 ≤ current_team_count)%nat
        then select_players df count rest selected st
        else
          _ ← getitem df "price";
          if Qle_bool (price player) (remaining_budget st)
          then select_players df count rest (S selected)
                 {| squad := squad st ++ [player];
                    remaining_budget := remaining_budget st - price player;
                    team_counts :=
                      <[player_team := S current_team_count]> (team_counts st) |}
          else select_players df count rest selected st
  end.

(** The loop [for position, count in formation.items()]. *)
Definition fill_position (df : DataFrame) (st : Builder) (pc : string * nat)
    : result Builder :=
  players ← position_players df (fst pc);
  select_players df (snd pc) players 0 st.

Definition display_cols : list string :=
  ["web_name"; "team_short"; "position"; "price"; "total_points"; "form";
   "value_score"].

(** [pd.DataFrame(squad)]: a list of rows keeps their labels, an empty
    list gives a table without columns. *)
Definition frame_of_rows (df : DataFrame) (l : list Player) : DataFrame :=
  {| columns := match l with [] => [] | _ => columns df end; rows := l |}.

Definition total_cost (l : list Player) : Q :=
  foldr (fun p acc => price p + acc) 0 l.

(** The returned [squad_df].  The report is printed from the table, so
    its column look-ups come before the return; where several display
    labels are missing the exception carries the first of them. *)
Definition build_optimal_squad (players_df : DataFrame) (budget : Q)
    : result DataFrame :=
  df ← ensure_scored players_df;
  st ← foldM (fill_position df) formation
             {| squad := []; remaining_budget := budget; team_counts := ∅ |};
  let squad_df := frame_of_rows df (squad st) in
  _ ← getitem squad_df "price";
  _ ← getitems squad_df display_cols;
  mret squad_df.

(** *** recommend_transfers *)

(** [current_team['team_short'].value_counts().to_dict()] *)
Definition value_counts (l : list Player) : gmap string nat :=
  foldr (fun p m => <[team_short p := S (default 0%nat (m !! team_short p))]> m)
        ∅ l.

Definition mk_rec (pos : string) (current_player replacement : Player)
    (team_count_after : nat) : Rec.t :=
  {| Rec.position := pos;
     Rec.out := web_name current_player;
     Rec.out_team := team_short current_player;
     Rec.out_price := price current_player;
     Rec.out_score := value_score current_player;
     Rec.out_form := cols current_player !!! "form";
     Rec.in_ := web_name replacement;
     Rec.in_team := team_short replacement;
     Rec.in_price := price replacement;
     Rec.in_score := value_score replacement;
     Rec.in_form := cols replacement !!! "form";
     Rec.price_change := price replacement - price current_player;
     Rec.score_improvement := value_score replacement - value_score current_player;
     Rec.team_count_after := team_count_after |}.

(** The end of the inner loop body, from [if team_count_after <= 3]. *)
Definition append_if_allowed (df : DataFrame) (pos : string)
    (current_player replacement : Player) (team_count_after : nat)
    (position_recommendations : list Rec.t) : result (list Rec.t) :=
  if decide (team_count_after ≤ 3)%nat then
    _ ← getitems df ["value_score"; "web_name"; "team_short"; "price"; "form"];
    mret (position_recommendations
            ++ [mk_rec pos current_player replacement team_count_after])
  else mret position_recommendations.

(** The body of [for _, replacement in replacements.iterrows()]. *)
Definition consider_replacement (df : DataFrame) (team_counts : gmap string nat)
    (pos : string) (current_player : Player)
    (position_recommendations : list Rec.t) (replacement : Player)
    : result (list Rec.t) :=
  _ ← getitem df "team_short";
  let replacement_team := team_short replacement in
  let current_player_team := team_short current_player in
  match team_counts !! replacement_team with
  | Some n =>
      if decide (replacement_team = current_player_team) then
        append_if_allowed df pos current_player replacement n
          position_recommendations
      else if decide (3 ≤ n)%nat then mret position_recommendations
      else append_if_allowed df pos current_player replacement (n + 1)
             position_recommendations
  | None =>
      append_if_allowed df pos current_player replacement 1
        position_recommendations
  end.

Definition is_replacement (current_player p : Player) : bool :=
  Qle_bool (price current_player - 1.5) (price p)
  && Qle_bool (price p) (price current_player + 1.5)
  && (if Qlt_le_dec (value_score current_player) (value_score p)
      then true else false)
  && String.eqb (status p) "a".

(** The body of [for _, current_player in current_pos.iterrows()]. *)
Definition replace_player (df : DataFrame) (team_counts : gmap string nat)
    (pos : string) (available_pos : list Player)
    (position_recommendations : list Rec.t) (current_player : Player)
    : result (list Rec.t) :=
  _ ← getitems df ["price"; "value_score"; "status"];
  let replacements :=
    nlargest 100 (List.filter (is_replacement current_player) available_pos) in
  foldM (consider_replacement df team_counts pos current_player)
        replacements position_recommendations.

(** The body of [for position in ['GK', 'DEF', 'MID', 'FWD']]. *)
Definition recommend_position (df : DataFrame) (team_counts : gmap string nat)
    (current_team available : list Player)
    (all_recommendations : list Rec.t) (pos : string) : result (list Rec.t) :=
  _ ← getitem df "position";
  let current_pos := filter (fun p => position p = pos) current_team in
  let available_pos := filter (fun p => position p = pos) available in
  position_recommendations ←
    foldM (replace_player df team_counts pos available_pos) current_pos [];
  let position_recommendations :=
    take 3 (sort_desc Rec.score_improvement position_recommendations) in
  mret (all_recommendations ++ position_recommendations).

(** [l[:k]] *)
Definition slice_to {A : Type} (k : Z) (l : list A) : list A :=
  if (0 <=? k)%Z then take (Z.to_nat k) l
  else take (Z.to_nat (Z.of_nat (length l) + k)) l.

Definition current_team_of (df : DataFrame) (current_team_ids : list Z)
    : list Player :=
  filter (fun p => id p ∈ current_team_ids) (rows df).

Definition available_of (df : DataFrame) (current_team_ids : list Z)
    : list Player :=
  filter (fun p => id p ∉ current_team_ids) (rows df).

(** The rows of the returned table, best improvement first; the empty
    list is the empty table of the last branch. *)
Definition recommend_transfers (players_df : DataFrame)
    (current_team_ids : list Z) (transfers_available : Z)
    : result (list Rec.t) :=
  df ← ensure_scored players_df;
  _ ← getitem df "id";
  let current_team := current_team_of df current_team_ids in
  _ ← getitem df "team_short";
  let team_counts := value_counts current_team in
  let available := available_of df current_team_ids in
  all_recommendations ←
    foldM (recommend_position df team_counts current_team available)
          ["GK"; "DEF"; "MID"; "FWD"] [];
  match all_recommendations with
  | [] => mret []
  | _ =>
      let top_overall :=
        slice_to (transfers_available * 3)
          (sort_desc Rec.score_improvement all_recommendations) in
      (* [recommendations_df.drop('team_count_after', axis=1)]: a table
         built from no rows has no such label *)
      match top_overall with
      | [] => Raise (KeyError "['team_count_after'] not found in axis")
      | _ => mret top_overall
      end
  end.

(** *** get_fixture_difficulty *)

(** A row of [fixtures_df] as [get_fixtures_df] builds it, with the
    columns the methods read; [event] is null for a fixture without a
    gameweek. *)
Record Fixture : Type := mkFixture {
  event : option Z;
  finished : bool;
  home_team : string;
  away_team : string;
  team_h_difficulty : Z;
  team_a_difficulty : Z
}.

(** [fixtures_df[(fixtures_df['finished'] == False)
      & ((fixtures_df['home_team'] == team)
         | (fixtures_df['away_team'] == team))].head(n)] *)
Definition upcoming_fixtures (fixtures_df : list Fixture) (team : string)
    (n : Z) : list Fixture :=
  slice_to n
    (filter (fun f => finished f = false
                      /\ (home_team f = team \/ away_team f = team))
            fixtures_df).

(** [series.mean()]: NaN, here [None], for a series without rows. *)
Definition mean (xs : list Q) : option Q :=
  match xs with
  | [] => None
  | _ => Some (foldr Qplus 0 xs / inject_Z (Z.of_nat (length xs)))
  end.

(** [np.nanmean]: the mean of the values that are not NaN. *)
Definition nanmean (xs : list (option Q)) : option Q :=
  mean (omap (fun x => x) xs).

Definition get_fixture_difficulty (fixtures_df : list Fixture)
    (team_name : string) (next_n_games : Z) : Q :=
  let upcoming := upcoming_fixtures fixtures_df team_name next_n_games in
  match upcoming with
  | [] => 3
  | _ =>
      let home_fdr :=
        mean (map (fun f => inject_Z (team_h_difficulty f))
                  (filter (fun f => home_team f = team_name) upcoming)) in
      let away_fdr :=
        mean (map (fun f => inject_Z (team_a_difficulty f))
                  (filter (fun f => away_team f = team_name) upcoming)) in
      default 3 (nanmean [home_fdr; away_fdr])
  end.

(** *** recommend_best_players *)

Definition best_display_cols : list string :=
  ["web_name"; "team_short"; "position"; "price"; "total_points";
   "points_per_game"; "form"; "points_per_million"; "selected_by_percent";
   "value_score"; "status"; "news"].

(** [if position: df = df[df['position'] == position]]: [None] and the
    empty text select every row. *)
Definition position_filter (df : DataFrame) (pos : option string)
    : result DataFrame :=
  match pos with
  | None => mret df
  | Some s =>
      if decide (s = "") then mret df
      else
        _ ← getitem df "position";
        mret {| columns := columns df;
                rows := filter (fun p => position p = s) (rows df) |}
  end.

(** The returned table has the display labels only; where several of
    them are missing the exception carries the first. *)
Definition recommend_best_players (players_df : DataFrame)
    (pos : option string) (top_n : Z) : result DataFrame :=
  df ← ensure_scored players_df;
  df ← position_filter df pos;
  _ ← getitem df "value_score";
  let best_players :=
    {| columns := columns df; rows := nlargest top_n (rows df) |} in
  _ ← getitems best_players best_display_cols;
  mret {| columns := best_display_cols; rows := rows best_players |}.

End Analyzer.

(** ** AdvancedFixturePredictor *)

Record TeamStats : Type := mkStats {
  attack : Q;
  defense : Q;
  overall : Q;
  avg_points : Q
}.

Record Outcome : Type := mkOutcome {
  home_win : Q;
  draw : Q;
  away_win : Q
}.

Record Goals : Type := mkGoals {
  home_goals : Q;
  away_goals : Q;
  total_goals : Q
}.

Record AdvancedFixturePredictor : Type := mkPredictor {
  analyzer_players_df : DataFrame;
  team_strength : gmap string TeamStats
}.

(** One row of the table [calculate_advanced_fdr] returns. *)
Module Analysis.
Record t : Type := mk {
  gameweek : option Z;
  opponent : string;
  venue : string;
  fdr : Z;
  win_prob : Q;
  draw_prob : Q;
  loss_prob : Q;
  expected_goals : Q;
  expected_conceded : Q;
  total_goals : Q;
  clean_sheet_prob : Q;
  btts_prob : Q;
  over_05 : Q;
  over_15 : Q;
  over_25 : Q;
  over_35 : Q;
  zero_zero_prob : Q
}.
End Analysis.

(** The dictionary [get_detailed_fixture_analysis] returns. *)
Module Detail.
Record t : Type := mk {
  outcome : Outcome;
  goals : Goals;
  clean_sheets_home : Q;
  clean_sheets_away : Q;
  btts : Q;
  over_05 : Q;
  over_15 : Q;
  over_25 : Q;
  over_35 : Q
}.
End Detail.

Section Predictor.
Local Open Scope Q_scope.

(** Python's [float(text)]; [None] where it raises. *)
Variable py_float : string -> option Q.

(** One cell under [astype(float)], as [sum()] then counts it: NaN is
    skipped by the sum. *)
Definition astype_float (c : cell) : result Q :=
  match c with
  | Num q => mret q
  | NaN => mret 0
  | Str s =>
      match py_float s with
      | Some q => mret q
      | None => Raise (ValueError ("could not convert string to float: '" +:+ s +:+ "'"))
      end
  end.

(** [series.astype(float).sum()] for the column [c] of the rows [l]. *)
Definition float_sum (c : string) (l : list Player) : result Q :=
  foldM (fun acc p => x ← astype_float (cols p !!! c); mret (acc + x)) l 0.

Definition int_sum (f : Player -> Z) (l : list Player) : Z :=
  foldr (fun p acc => (f p + acc)%Z) 0%Z l.

(** [players_df['team_short'].unique()]: the clubs in order of first
    appearance. *)
Definition unique_teams (l : list Player) : list string :=
  remove_dups (map team_short l).

Definition is_attacker (p : Player) : Prop :=
  position p = "MID" ∨ position p = "FWD".
Definition is_defender (p : Player) : Prop :=
  position p = "GK" ∨ position p = "DEF".

(** The body of [for team in players_df['team_short'].unique()]. *)
Definition team_entry (players_df : DataFrame)
    (team_stats : gmap string TeamStats) (team : string)
    : result (gmap string TeamStats) :=
  let team_players := filter (fun p => team_short p = team) (rows players_df) in
  _ ← getitem players_df "position";
  let attackers := filter is_attacker team_players in
  _ ← getitem players_df "expected_goals";
  xg ← float_sum "expected_goals" attackers;
  _ ← getitem players_df "expected_assists";
  xa ← float_sum "expected_assists" attackers;
  _ ← getitem players_df "total_points";
  let attack_strength :=
    xg + xa + inject_Z (int_sum total_points attackers) / 100 in
  let defenders := filter is_defender team_players in
  _ ← getitem players_df "clean_sheets";
  _ ← getitem players_df "goals_conceded";
  let defense_strength :=
    inject_Z (int_sum clean_sheets defenders) * 2
    + inject_Z (int_sum total_points defenders) / 100
    - inject_Z (int_sum goals_conceded defenders) / 10 in
  mret (<[team := {| attack := attack_strength;
                     defense := defense_strength;
                     overall := attack_strength + defense_strength;
                     avg_points :=
                       inject_Z (int_sum total_points team_players)
                       / inject_Z (Z.of_nat (length team_players)) |}]>
          team_stats).

Definition calculate_team_strength (players_df : DataFrame)
    : result (gmap string TeamStats) :=
  _ ← getitem players_df "team_short";
  foldM (team_entry players_df) (unique_teams (rows players_df)) ∅.

(** [if not self.team_strength: self.calculate_team_strength()], giving
    the table the predictions read (and the new [self.team_strength]). *)
Definition strengths (self : AdvancedFixturePredictor)
    : result (gmap string TeamStats) :=
  if decide (size (team_strength self) = 0%nat)
  then calculate_team_strength (analyzer_players_df self)
  else mret (team_strength self).

Definition HOME_ADVANTAGE : Q := 0.15.

(** The dictionaries given to [.get] as defaults.  A key a default
    lacks is never read by the method that uses it; its field is 0
    here. *)
Definition default_outcome_stats : TeamStats :=
  {| attack := 50; defense := 50; overall := 100; avg_points := 0 |}.
Definition default_goals_stats : TeamStats :=
  {| attack := 50; defense := 50; overall := 0; avg_points := 0 |}.
Definition default_defense_stats : TeamStats :=
  {| attack := 0; defense := 50; overall := 0; avg_points := 0 |}.
Definition default_attack_stats : TeamStats :=
  {| attack := 50; defense := 0; overall := 0; avg_points := 0 |}.

(** [max(lo, min(hi, x))] *)
Definition clamp (lo hi x : Q) : Q := Qmax lo (Qmin hi x).

(** The probabilities before the clamps of the return statement. *)
Definition raw_outcome (strength_diff : Q) : Outcome :=
  if Qlt_le_dec 50 strength_diff then
    let home_win := 0.60 + Qmin (strength_diff / 500) 0.25 in
    let draw := 0.25 in
    {| home_win := home_win; draw := draw; away_win := 1 - home_win - draw |}
  else if Qlt_le_dec 0 strength_diff then
    let home_win := 0.45 + strength_diff / 200 in
    let draw := 0.30 in
    {| home_win := home_win; draw := draw; away_win := 1 - home_win - draw |}
  else if Qlt_le_dec (-50) strength_diff then
    let away_win := 0.35 + Qabs strength_diff / 200 in
    let draw := 0.30 in
    {| home_win := 1 - away_win - draw; draw := draw; away_win := away_win |}
  else
    let away_win := 0.50 + Qmin (Qabs strength_diff / 500) 0.25 in
    let draw := 0.25 in
    {| home_win := 1 - away_win - draw; draw := draw; away_win := away_win |}.

Definition match_outcome (home_stats away_stats : TeamStats) : Outcome :=
  let home_total := overall home_stats * (1 + HOME_ADVANTAGE) in
  let away_total := overall away_stats in
  let strength_diff := home_total - away_total in
  let o := raw_outcome strength_diff in
  {| home_win := clamp 0.05 0.85 (home_win o);
     draw := clamp 0.15 0.40 (draw o);
     away_win := clamp 0.05 0.85 (away_win o) |}.

Definition predict_match_outcome (self : AdvancedFixturePredictor)
    (home_team away_team : string) : result Outcome :=
  ts ← strengths self;
  let home_stats := default default_outcome_stats (ts !! home_team) in
  let away_stats := default default_outcome_stats (ts !! away_team) in
  mret (match_outcome home_stats away_stats).

(** [round(x, 2)]: to the nearest hundredth, an exact tie to the even
    one. *)
Definition round_half_even (x : Q) : Z :=
  let f := Qfloor x in
  let r := x - inject_Z f in
  if Qlt_le_dec r (1 # 2) then f
  else if Qlt_le_dec (1 # 2) r then (f + 1)%Z
  else if Z.even f then f else (f + 1)%Z.

Definition round2 (x : Q) : Q := inject_Z (round_half_even (x * 100)) / 100.

Definition goals (home_stats away_stats : TeamStats) : Goals :=
  let home_goals := (attack home_stats / 30) * (1 - defense away_stats / 150) * 1.3 in
  let away_goals := (attack away_stats / 30) * (1 - defense home_stats / 150) * 1.1 in
  let home_goals := clamp 0.3 3.5 home_goals in
  let away_goals := clamp 0.2 3.0 away_goals in
  {| home_goals := round2 home_goals;
     away_goals := round2 away_goals;
     total_goals := round2 (home_goals + away_goals) |}.

Definition predict_goals (self : AdvancedFixturePredictor)
    (home_team away_team : string) : result Goals :=
  ts ← strengths self;
  let home_stats := default default_goals_stats (ts !! home_team) in
  let away_stats := default default_goals_stats (ts !! away_team) in
  mret (goals home_stats away_stats).

Definition clean_sheet (team_stats opp_stats : TeamStats) (is_home : bool) : Q :=
  let defense_factor := defense team_stats / 100 in
  let attack_factor := 1 - attack opp_stats / 100 in
  let cs_prob := (defense_factor + attack_factor) / 2 in
  let cs_prob := if is_home then cs_prob * 1.1 else cs_prob in
  clamp 0.05 0.65 cs_prob.

Definition predict_clean_sheet (self : AdvancedFixturePredictor)
    (team opponent : string) (is_home : bool) : result Q :=
  ts ← strengths self;
  let team_stats := default default_defense_stats (ts !! team) in
  let opp_stats := default default_attack_stats (ts !! opponent) in
  mret (clean_sheet team_stats opp_stats is_home).

(** *** calculate_advanced_fdr *)

(** [np.exp] *)
Variable exp : Q -> Q.

(** [round(x, 1)] *)
Definition round1 (x : Q) : Q := inject_Z (round_half_even (x * 10)) / 10.

(** The body of [for _, fixture in upcoming.iterrows()].  Every
    prediction reads the table of strengths the first one has left in
    [self.team_strength]; [strengths self] is that table each time. *)
Definition analyse_fixture (self : AdvancedFixturePredictor) (team : string)
    (fixture : Fixture) : result Analysis.t :=
  let is_home := bool_decide (home_team fixture = team) in
  let opponent := if is_home then away_team fixture else home_team fixture in
  outcome ← (if is_home then predict_match_outcome self team opponent
             else predict_match_outcome self opponent team);
  goals ← (if is_home then predict_goals self team opponent
           else predict_goals self opponent team);
  let team_goals_exp := if is_home then home_goals goals else away_goals goals in
  let opp_goals_exp := if is_home then away_goals goals else home_goals goals in
  cs_prob ← predict_clean_sheet self team opponent is_home;
  cs_opp ← predict_clean_sheet self opponent team (negb is_home);
  let btts_prob := 1 - cs_prob * cs_opp in
  let total_goals := total_goals goals in
  let over_05 := 1 - exp (- total_goals * 0.8) in
  let over_15 := 1 - exp (- total_goals * 0.5) in
  let over_25 := 1 - exp (- total_goals * 0.35) in
  let over_35 := 1 - exp (- total_goals * 0.25) in
  let win_prob := if is_home then home_win outcome else away_win outcome in
  let fdr :=
    if Qlt_le_dec 0.55 win_prob then 2%Z
    else if Qlt_le_dec 0.40 win_prob then 3%Z
    else if Qlt_le_dec 0.25 win_prob then 4%Z
    else 5%Z in
  mret {| Analysis.gameweek := event fixture;
          Analysis.opponent := opponent;
          Analysis.venue := if is_home then "H" else "A";
          Analysis.fdr := fdr;
          Analysis.win_prob := round1 (win_prob * 100);
          Analysis.draw_prob := round1 (draw outcome * 100);
          Analysis.loss_prob :=
            round1 ((if is_home then away_win outcome else home_win outcome) * 100);
          Analysis.expected_goals := team_goals_exp;
          Analysis.expected_conceded := opp_goals_exp;
          Analysis.total_goals := total_goals;
          Analysis.clean_sheet_prob := round1 (cs_prob * 100);
          Analysis.btts_prob := round1 (btts_prob * 100);
          Analysis.over_05 := round1 (over_05 * 100);
          Analysis.over_15 := round1 (over_15 * 100);
          Analysis.over_25 := round1 (over_25 * 100);
          Analysis.over_35 := round1 (over_35 * 100);
          Analysis.zero_zero_prob := round1 ((1 - over_05) * 100) |}.

(** The rows of the returned table; [fixtures_df] is
    [self.analyzer.fixtures_df]. *)
Definition calculate_advanced_fdr (self : AdvancedFixturePredictor)
    (fixtures_df : list Fixture) (team : string) (next_n_fixtures : Z)
    : result (list Analysis.t) :=
  let upcoming := upcoming_fixtures fixtures_df team next_n_fixtures in
  foldM (fun fixture_analysis fixture =>
           a ← analyse_fixture self team fixture;
           mret (fixture_analysis ++ [a]))
        upcoming [].

(** *** get_detailed_fixture_analysis *)


End Predictor.

(** * Notions used in the statements *)

(** What is known of the order [sort_values] sorts in: every position of
    the column is listed once, and the keys at the positions listed
    never increase. *)
Definition sorts (argsort : list Q -> list nat) : Prop :=
  forall keys,
    argsort keys ≡ₚ seq 0 (length keys)
    /\ StronglySorted (fun x y => (y <= x)%Q)
         (omap (fun i => keys !! i) (argsort keys)).

(** One such order, for the examples: equal keys stay in the order of
    the column. *)
Definition argsort_stable (keys : list Q) : list nat :=
  (sort_desc snd (imap (fun i k => (i, k)) keys)).*1.

(** The number of rows of a club. *)
Definition club_count (club : string) (l : list Player) : nat :=
  length (filter (fun p => team_short p = club) l).

(** What the loops of [build_optimal_squad] keep true of the squad, the
    budget left and the dictionary of club counts. *)
Definition builder_inv (budget : Q) (st : Builder) : Prop :=
  (forall t, club_count t (squad st) = default 0%nat (team_counts st !! t))
  /\ (forall t, (club_count t (squad st) <= 3)%nat)
  /\ (total_cost (squad st) + remaining_budget st == budget)%Q
  /\ (0 <= remaining_budget st)%Q.

(** The strengths the predictor takes for a club: its entry of the table,
    or attack 50, defense 50, overall 100. *)
Definition unknown_club_stats : TeamStats :=
  {| attack := 50; defense := 50; overall := 100; avg_points := 0 |}.

Definition stats_of (ts : gmap string TeamStats) (club : string) : TeamStats :=
  default unknown_club_stats (ts !! club).

Definition outcome_sum (o : Outcome) : Q := (home_win o + draw o + away_win o)%Q.

(** A predictor whose table is computed: overall strengths 120 and 80. *)
Definition strong_and_weak : AdvancedFixturePredictor :=
  {| analyzer_players_df := {| columns := []; rows := [] |};
     team_strength :=
       <["MCI" := {| attack := 55; defense := 65; overall := 120; avg_points := 60 |}]>
       (<["BUR" := {| attack := 35; defense := 45; overall := 80; avg_points := 40 |}]> ∅) |}.

#[global] Instance Qeq_decision (x y : Q) : Decision (x == y)%Q := Qeq_dec x y.

(** Largest key first. *)
Definition sorted_desc {A : Type} (key : A -> Q) (l : list A) : Prop :=
  StronglySorted (fun x y => (key y <= key x)%Q) l.

(** The labels a table has once it is scored: those of the fetcher and
    those [calculate_value_score] adds. *)
Definition scored_columns : list string :=
  ["id"; "web_name"; "team_name"; "team_short"; "element_type"; "now_cost";
   "total_points"; "points_per_game"; "selected_by_percent"; "form";
   "minutes"; "clean_sheets"; "goals_conceded"; "ict_index";
   "expected_goals"; "expected_assists"; "news";
   "chance_of_playing_next_round"; "status"; "price"; "position";
   "points_per_million"; "form_per_million"; "expected_involvement";
   "points_per_game_normalized"; "form_normalized";
   "points_per_million_normalized"; "ict_index_normalized";
   "expected_involvement_normalized"; "value_score"].

(** A row of a scored table, for the examples: an available or
    unavailable player with the given price and score. *)
Definition scored_player (i : Z) (name team pos st : string) (pr score : Q)
    : Player :=
  {| id := i; web_name := name; team_short := team; position := pos;
     status := st; price := pr; minutes := 90; total_points := 10;
     clean_sheets := 0; goals_conceded := 0;
     chance_of_playing_next_round := Some 100%Q;
     cols := <["value_score" := Num score]> (<["form" := Num 1]> ∅) |}.

(** The labels [build_optimal_squad] reads. *)
Definition squad_labels : list string :=
  ["value_score"; "position"; "status"; "team_short"; "price"; "web_name";
   "total_points"; "form"].

Definition has_columns (df : DataFrame) (cs : list string) : Prop :=
  Forall (fun c => has_column df c = true) cs.

(** Some available player of a formation position costs no more than
    the budget. *)
Definition affordable_candidate (df : DataFrame) (budget : Q) : Prop :=
  exists p, p ∈ rows df /\ status p = "a"
            /\ position p ∈ map fst formation /\ (price p <= budget)%Q.




(** Two goalkeepers of equal score, the dearer one first in the table,
    and the same table with the two rows exchanged. *)
Definition keeper_a : Player := scored_player 1 "Raya" "ARS" "GK" "a" 6.0 0.5.
Definition keeper_b : Player := scored_player 2 "Sels" "NFO" "GK" "a" 5.0 0.5.
Definition tied_keepers : DataFrame :=
  {| columns := scored_columns; rows := [keeper_a; keeper_b] |}.

(** A scored table whose only player is injured. *)
Definition injured_only : DataFrame :=
  {| columns := scored_columns;
     rows := [scored_player 1 "Raya" "ARS" "GK" "i" 6.0 0.5] |}.

(** A reading of decimal text ("5.2", "12", "0.35") for the examples;
    any other text is not a number. *)
Definition digit (a : ascii) : option Z :=
  let n := (Z.of_nat (nat_of_ascii a) - 48)%Z in
  if ((0 <=? n) && (n <=? 9))%Z then Some n else None.

Fixpoint fraction (s : string) (acc : Z) (scale : positive) : option Q :=
  match s with
  | EmptyString => Some (acc # scale)
  | String a s' =>
      match digit a with
      | Some d => fraction s' (10 * acc + d)%Z (10 * scale)%positive
      | None => None
      end
  end.

Fixpoint whole (s : string) (acc : Z) (seen : bool) : option Q :=
  match s with
  | EmptyString => if seen then Some (acc # 1) else None
  | String a s' =>
      if Ascii.eqb a "."%char then
        (if seen then fraction s' acc 1 else None)
      else
        match digit a with
        | Some d => whole s' (10 * acc + d)%Z true
        | None => None
        end
  end.

Definition decimal (s : string) : option Q := whole s 0 false.

(** A table with one available goalkeeper and nobody else. *)
Definition lone_keeper : DataFrame :=
  {| columns := scored_columns; rows := [keeper_a] |}.



(** The record the inner loop of [recommend_transfers] appends for an
    outgoing player and a replacement, if the club rule lets it. *)
Definition candidate (team_counts : gmap string nat) (pos : string)
    (current_player replacement : Player) : option Rec.t :=
  let team_count_after :=
    match team_counts !! team_short replacement with
    | Some n =>
        if decide (team_short replacement = team_short current_player)
        then n else (n + 1)%nat
    | None => 1%nat
    end in
  if decide (team_count_after ≤ 3)%nat
  then Some (mk_rec pos current_player replacement team_count_after)
  else None.

(** The surviving candidates of a position: for each squad player of the
    position, in the order of the table, the better available players
    of the position in the price window of that player (the 100 best of
    them at most, best first) that the club rule lets in. *)
Definition position_candidates (argsort : list Q -> list nat) (df : DataFrame)
    (ids : list Z) (pos : string) : list Rec.t :=
  let current_team := current_team_of df ids in
  let available_pos :=
    filter (fun p => position p = pos) (available_of df ids) in
  concat
    (map (fun current_player =>
            omap (candidate (value_counts current_team) pos current_player)
              (nlargest argsort 100
                 (List.filter (is_replacement current_player) available_pos)))
         (filter (fun p => position p = pos) current_team)).

(** The three candidates of largest improvement, largest first. *)
Definition top3 (l : list Rec.t) : list Rec.t :=
  take 3 (sort_desc Rec.score_improvement l).

(** The candidates kept over the four positions. *)
Definition kept_candidates (argsort : list Q -> list nat) (df : DataFrame)
    (ids : list Z) : list Rec.t :=
  top3 (position_candidates argsort df ids "GK")
  ++ top3 (position_candidates argsort df ids "DEF")
  ++ top3 (position_candidates argsort df ids "MID")
  ++ top3 (position_candidates argsort df ids "FWD").

(** A scored table with two squad midfielders: three better players in
    the price window of the first, one in that of the second. *)
Definition rice : Player := scored_player 1 "Rice" "ARS" "MID" "a" 10.0 0.2.
Definition gomes : Player := scored_player 2 "Gomes" "WOL" "MID" "a" 5.0 0.2.
Definition two_midfielders : DataFrame :=
  {| columns := scored_columns;
     rows := [rice; gomes;
              scored_player 3 "Salah" "LIV" "MID" "a" 10.0 0.9;
              scored_player 4 "Foden" "MCI" "MID" "a" 10.0 0.8;
              scored_player 5 "Palmer" "CHE" "MID" "a" 10.0 0.7;
              scored_player 6 "Kudus" "TOT" "MID" "a" 5.0 0.3] |}.

(** The labels of a table as the fetcher builds it. *)
Definition fetched_columns : list string :=
  ["id"; "web_name"; "team_name"; "team_short"; "element_type"; "now_cost";
   "total_points"; "points_per_game"; "selected_by_percent"; "form";
   "minutes"; "clean_sheets"; "goals_conceded"; "ict_index";
   "expected_goals"; "expected_assists"; "news";
   "chance_of_playing_next_round"; "status"; "price"; "position"].

(** A row as the fetcher builds it: the metrics are text, the chance of
    playing is null. *)
Definition fetched_player (i : Z) (name team pos st : string) (pr : Q)
    (mins points : Z) (ppg form ict xg xa : string) : Player :=
  {| id := i; web_name := name; team_short := team; position := pos;
     status := st; price := pr; minutes := mins; total_points := points;
     clean_sheets := 0; goals_conceded := 0;
     chance_of_playing_next_round := None;
     cols := <["points_per_game" := Str ppg]>
             (<["form" := Str form]>
             (<["ict_index" := Str ict]>
             (<["expected_goals" := Str xg]>
             (<["expected_assists" := Str xa]>
             (<["selected_by_percent" := Str "5.0"]> ∅))))) |}.

(** A loaded table, not yet scored, holding a squad of fifteen and one
    more midfielder.  The squad has three Arsenal players; one of them,
    the reserve goalkeeper, has not played a minute.  One midfielder of
    the squad is injured. *)
Definition squad_with_unused_keeper : DataFrame :=
  {| columns := fetched_columns;
     rows :=
       [fetched_player 1 "Raya" "ARS" "GK" "a" 5.5 900 50 "5.0" "5.0" "4.0" "0.0" "0.1";
        fetched_player 2 "Hein" "ARS" "GK" "a" 4.0 0 0 "0.0" "0.0" "0.0" "0.0" "0.0";
        fetched_player 3 "Saliba" "ARS" "DEF" "a" 6.0 900 45 "4.5" "4.0" "5.0" "0.5" "0.2";
        fetched_player 4 "Virgil" "LIV" "DEF" "a" 6.0 900 48 "4.8" "5.0" "6.0" "1.0" "0.3";
        fetched_player 5 "Gvardiol" "MCI" "DEF" "a" 6.0 900 40 "4.0" "3.0" "5.5" "1.2" "0.6";
        fetched_player 6 "Porro" "TOT" "DEF" "a" 5.5 900 38 "3.8" "3.5" "6.5" "0.6" "1.5";
        fetched_player 7 "Munoz" "CRY" "DEF" "a" 5.5 900 42 "4.2" "4.5" "5.8" "1.1" "0.9";
        fetched_player 8 "Enzo" "CHE" "MID" "a" 5.0 900 20 "2.0" "1.0" "3.0" "0.5" "0.5";
        fetched_player 9 "Salah" "LIV" "MID" "a" 12.5 900 80 "8.0" "7.0" "12.0" "6.0" "3.0";
        fetched_player 10 "Mbeumo" "MUN" "MID" "a" 8.0 900 55 "5.5" "5.0" "8.0" "3.0" "1.5";
        fetched_player 11 "Semenyo" "BOU" "MID" "a" 8.0 900 58 "5.8" "6.5" "8.5" "3.5" "1.2";
        fetched_player 12 "Eze" "CRY" "MID" "i" 8.0 900 50 "5.0" "4.0" "7.5" "2.5" "1.8";
        fetched_player 13 "Haaland" "MCI" "FWD" "a" 14.0 900 90 "9.0" "9.0" "11.0" "8.0" "1.0";
        fetched_player 14 "Watkins" "AVL" "FWD" "a" 9.0 900 45 "4.5" "3.0" "7.0" "3.5" "1.0";
        fetched_player 15 "Isak" "NEW" "FWD" "a" 10.5 900 52 "5.2" "4.0" "8.0" "4.5" "0.8";
        fetched_player 16 "Nwaneri" "ARS" "MID" "a" 5.5 900 60 "5.0" "6.0" "8.0" "3.0" "2.0"] |}.

Definition fifteen_ids : list Z := [1; 2; 3; 4; 5; 6; 7; 8; 9; 10; 11; 12; 13; 14; 15]%Z.

(** The rows of the squad [ids] of a table, and of that squad once the
    player [out_id] has been exchanged for the player [in_id]. *)
Definition squad_rows (table : DataFrame) (ids : list Z) : list Player :=
  filter (fun p => id p ∈ ids) (rows table).

Definition squad_after_swap (table : DataFrame) (ids : list Z)
    (out_id in_id : Z) : list Player :=
  filter (fun p => (id p ∈ ids /\ id p <> out_id) \/ id p = in_id) (rows table).

(** The labels [calculate_value_score] looks up in the loaded table
    before it computes anything from them, in the order of the look-ups,
    and the first of a list of labels that a table lacks. *)
Definition required_columns : list string :=
  ["minutes"; "selected_by_percent"; "form"; "points_per_game"; "ict_index";
   "expected_goals"; "expected_assists"; "total_points"; "price"].

Fixpoint first_missing (df : DataFrame) (cs : list string) : option string :=
  match cs with
  | [] => None
  | c :: cs' => if has_column df c then first_missing df cs' else Some c
  end.

(** The metric columns of the composite score: the three read as they
    are, the two summed into the expected involvement, and the two
    divided into the points per million. *)
Definition metric_columns : list string :=
  ["points_per_game"; "form"; "ict_index"; "expected_goals";
   "expected_assists"; "total_points"; "price"].

(** The loaded table without its [form] column. *)
Definition table_without_form : DataFrame :=
  {| columns := List.filter (fun c => negb (String.eqb c "form")) fetched_columns;
     rows := rows squad_with_unused_keeper |}.

(** The stages of [calculate_value_score] on a table that has the
    required columns: the six text columns read as numbers, and the three
    derived columns added after [fillna]. *)
Definition numeric (to_float : string -> option Q) (df : DataFrame) : DataFrame :=
  let step c d :=
    {| columns := columns d;
       rows := map (fun p => set_cols p (alter (to_numeric to_float) c (cols p)))
                   (rows d) |} in
  step "expected_assists" (step "expected_goals" (step "ict_index"
    (step "points_per_game" (step "form" (step "selected_by_percent"
      {| columns := columns df;
         rows := filter (fun p => (0 < minutes p)%Z) (rows df) |}))))).

Definition derived (to_float : string -> option Q) (df : DataFrame) : DataFrame :=
  assign "expected_involvement"
    (fun p => (getf p "expected_goals" + getf p "expected_assists")%Q)
    (assign "form_per_million" (fun p => (getf p "form" / price p)%Q)
       (assign "points_per_million"
          (fun p => (inject_Z (total_points p) / price p)%Q)
          (fillna (numeric to_float df)))).

(** A column whose cells are all in the unit interval. *)
Definition unit_column (c : string) (df : DataFrame) : Prop :=
  forall p, p ∈ rows df -> (0 <= getf p c <= 1)%Q.

(** The factor the two availability penalties apply to a row. *)
Definition penalty (p : Player) : Q :=
  ((if chance_below_100 p then 0.5 else 1)
   * (if not_available p then 0.3 else 1))%Q.

(** *** Tables on which the steps of the score model change nothing *)

(** A change of rows that at most writes a number at the label [c]. *)
Definition updates (c : string) (h : Player -> Player) : Prop :=
  forall p, h p = p \/ exists v, h p = set_cols p (<[c := Num v]> (cols p)).

(** A value computed from a row and the rows of its table, not looking
    at the label [c]. *)
Definition ignores (F : list Player -> Player -> Q) (c : string) : Prop :=
  forall h, updates c h -> forall L p, F (map h L) (h p) = F L p.

(** The column [c] holds the value [F] in every row. *)
Definition fixed (c : string) (F : list Player -> Player -> Q)
    (L : list Player) : Prop :=
  forall p, p ∈ L -> cols p !! c = Some (Num (F L p)).

Definition F_points_per_million (L : list Player) (p : Player) : Q :=
  (inject_Z (total_points p) / price p)%Q.
Definition F_form_per_million (L : list Player) (p : Player) : Q :=
  (getf p "form" / price p)%Q.
Definition F_expected_involvement (L : list Player) (p : Player) : Q :=
  (getf p "expected_goals" + getf p "expected_assists")%Q.
Definition F_normalized (metric : string) (L : list Player) (p : Player) : Q :=
  MinMaxScaler.transform (map (fun q => getf q metric) L) (getf p metric).
Definition F_weighted_sum (L : list Player) (p : Player) : Q := weighted_sum p.

Definition text_columns : list string :=
  ["selected_by_percent"; "form"; "points_per_game"; "ict_index";
   "expected_goals"; "expected_assists"].

Definition no_text (c : string) (L : list Player) : Prop :=
  forall p s, p ∈ L -> cols p !! c <> Some (Str s).

Definition filled (L : list Player) : Prop :=
  forall p, p ∈ L ->
    (forall k, cols p !! k <> Some NaN)
    /\ is_Some (chance_of_playing_next_round p).

(** The columns the method adds before the score, each with its value. *)
Definition column_values : list (string * (list Player -> Player -> Q)) :=
  [("points_per_million", F_points_per_million);
   ("form_per_million", F_form_per_million);
   ("expected_involvement", F_expected_involvement);
   ("points_per_game_normalized", F_normalized "points_per_game");
   ("form_normalized", F_normalized "form");
   ("points_per_million_normalized", F_normalized "points_per_million");
   ("ict_index_normalized", F_normalized "ict_index");
   ("expected_involvement_normalized", F_normalized "expected_involvement")].

(** Rows that filtering, the reading of text and [fillna] leave as they
    are, and in which the columns [done] are fixed. *)
Definition settled_for (done : list (string * (list Player -> Player -> Q)))
    (L : list Player) : Prop :=
  (forall p, p ∈ L -> (0 < minutes p)%Z)
  /\ (forall c, c ∈ text_columns -> no_text c L)
  /\ filled L
  /\ Forall (fun cF => fixed (fst cF) (snd cF) L) done.

Definition settled (L : list Player) : Prop := settled_for column_values L.

(** A write at the label [c] leaves the columns [done] fixed. *)
Definition apart (c : string)
    (done : list (string * (list Player -> Player -> Q))) : Prop :=
  Forall (fun cF => fst cF <> c /\ ignores (snd cF) c) done.

(** The labels a scored table has beyond those of the loaded one. *)
Definition derived_columns : list string :=
  ["points_per_million"; "form_per_million"; "expected_involvement";
   "points_per_game_normalized"; "form_normalized";
   "points_per_million_normalized"; "ict_index_normalized";
   "expected_involvement_normalized"; "value_score"].

(** The labels of a table that is normalized but not yet scored. *)
Definition settled_columns : list string :=
  required_columns ++ map fst column_values.

(** That table once scored. *)
Definition scored_squad : DataFrame :=
  Eval vm_compute in
    match calculate_value_score decimal squad_with_unused_keeper with
    | Ok df => df
    | Raise _ => {| columns := []; rows := [] |}
    end.

(** The table of strengths computed from the loaded example table. *)
Definition squad_strengths : gmap string TeamStats :=
  Eval vm_compute in
    match calculate_team_strength decimal squad_with_unused_keeper with
    | Ok ts => ts
    | Raise _ => ∅
    end.

(** What holds of every row of the table [calculate_advanced_fdr]
    returns: the rating is one of 2, 3, 4 and 5 and agrees with the win
    percentage shown beside it, and the percentages are within the
    bounds the clamps of the predictions leave. *)
Definition analysis_in_range (a : Analysis.t) : Prop :=
  (2 <= Analysis.fdr a <= 5)%Z
  /\ (Analysis.fdr a = 2%Z -> 55 <= Analysis.win_prob a)%Q
  /\ (Analysis.fdr a = 3%Z -> 40 <= Analysis.win_prob a <= 55)%Q
  /\ (Analysis.fdr a = 4%Z -> 25 <= Analysis.win_prob a <= 40)%Q
  /\ (Analysis.fdr a = 5%Z -> Analysis.win_prob a <= 25)%Q
  /\ (5 <= Analysis.win_prob a <= 85)%Q
  /\ (Analysis.draw_prob a == 25 \/ Analysis.draw_prob a == 30)%Q
  /\ (5 <= Analysis.loss_prob a <= 85)%Q
  /\ (5 <= Analysis.clean_sheet_prob a <= 65)%Q
  /\ (57.7 <= Analysis.btts_prob a <= 99.8)%Q.

(** Fixtures for the examples: one played, two to come for MCI, one
    between two other clubs. *)
Definition example_fixtures : list Fixture :=
  [{| event := Some 1%Z; finished := true; home_team := "MCI";
      away_team := "BUR"; team_h_difficulty := 2; team_a_difficulty := 5 |};
   {| event := Some 2%Z; finished := false; home_team := "BUR";
      away_team := "MCI"; team_h_difficulty := 5; team_a_difficulty := 2 |};
   {| event := Some 3%Z; finished := false; home_team := "MCI";
      away_team := "LIV"; team_h_difficulty := 3; team_a_difficulty := 4 |};
   {| event := Some 4%Z; finished := false; home_team := "ARS";
      away_team := "LIV"; team_h_difficulty := 3; team_a_difficulty := 3 |}].

(** A rational function standing for [np.exp] in the examples. *)
Definition exp_approx (x : Q) : Q := (1 / (1 - x))%Q.

(** The analysis of the fixtures of MCI in the example. *)
Definition mci_analysis : list Analysis.t :=
  Eval vm_compute in
    match calculate_advanced_fdr (fun _ => None) exp_approx strong_and_weak
            example_fixtures "MCI" 5 with
    | Ok l => l
    | Raise _ => []
    end.

(** The row [q] has the fields of the row [p], whatever its float
    cells; and the row [q] of a scored table comes from the row [p] of
    the loaded one: the same fields, a null chance of playing filled
    with 0. *)
Definition same_fields (p q : Player) : Prop := q = set_cols p (cols q).

Definition scored_from (p q : Player) : Prop :=
  q = set_chance (set_cols p (cols q))
        (Some (default 0%Q (chance_of_playing_next_round p))).

(** The rows [calculate_value_score] keeps. *)
Definition with_minutes (l : list Player) : list Player :=
  filter (fun p => (0 < minutes p)%Z) l.

(** A loaded table before the first gameweek: nobody has played. *)
Definition preseason_table : DataFrame :=
  {| columns := fetched_columns;
     rows :=
       [fetched_player 1 "Raya" "ARS" "GK" "a" 5.5 0 0 "0.0" "0.0" "0.0" "0.0" "0.0";
        fetched_player 2 "Saliba" "ARS" "DEF" "a" 6.0 0 0 "0.0" "0.0" "0.0" "0.0" "0.0"] |}.

(** The rows [recommend_best_players] chooses from: every row, or the
    rows of the position asked for. *)
Definition candidates_for (pos : option string) (l : list Player) : list Player :=
  match pos with
  | None => l
  | Some s => if decide (s = "") then l else filter (fun p => position p = s) l
  end.

(** The three best midfielders of the example. *)
Definition best_midfielders : DataFrame :=
  Eval vm_compute in
    match recommend_best_players decimal argsort_stable two_midfielders
            (Some "MID") 3 with
    | Ok df => df
    | Raise _ => {| columns := []; rows := [] |}
    end.

(** The number of players the formation asks for at a position. *)
Definition quota (pos : string) : nat :=
  sum_list (map snd (filter (fun pc => fst pc = pos) formation)).

(** The available rows of a position. *)
Definition available_at (df : DataFrame) (pos : string) : list Player :=
  filter (fun p => position p = pos /\ status p = "a") (rows df).


(** A small loaded table: a goalkeeper who has played, one who has not,
    and an injured defender; none has a recorded chance of playing. *)
Definition three_players : DataFrame :=
  {| columns := fetched_columns;
     rows :=
       [fetched_player 1 "Raya" "ARS" "GK" "a" 5.5 900 50 "5.0" "5.0" "4.0" "0.0" "0.1";
        fetched_player 2 "Hein" "ARS" "GK" "a" 4.0 0 0 "0.0" "0.0" "0.0" "0.0" "0.0";
        fetched_player 3 "Saliba" "ARS" "DEF" "i" 6.0 900 45 "4.5" "4.0" "5.0" "0.5" "0.2"] |}.

Definition three_players_scored : DataFrame :=
  Eval vm_compute in
    match calculate_value_score decimal three_players with
    | Ok df => df
    | Raise _ => {| columns := []; rows := [] |}
    end.

(** * Properties *)

(** ** Results and loops *)

Lemma bind_Ok {A B : Type} (r : result A) (f : A -> result B) (b : B) :
  r ≫= f = Ok b -> exists a, r = Ok a /\ f a = Ok b.
Proof. destruct r as [a|e]; [eauto | discriminate]. Qed.

Lemma getitem_Ok (df : DataFrame) (c : string) :
  getitem df c = Ok tt <-> has_column df c = true.
Proof. unfold getitem. destruct (has_column df c); split; congruence. Qed.

Lemma getitem_present (df : DataFrame) (c : string) :
  has_column df c = true -> getitem df c = Ok tt.
Proof. apply getitem_Ok. Qed.

Lemma getitem_cases (df : DataFrame) (c : string) :
  (has_column df c = true /\ getitem df c = Ok tt)
  \/ (has_column df c = false /\ getitem df c = Raise (KeyError c)).
Proof. unfold getitem. destruct (has_column df c); auto. Qed.

Lemma foldM_cons {A B : Type} (f : B -> A -> result B) (a : A) (l : list A)
    (b : B) :
  foldM f (a :: l) b = f b a ≫= foldM f l.
Proof. reflexivity. Qed.

(** One step of a computation in [result]. *)
Ltac monad_step := cbn [mbind mret result_bind result_ret].

(** Membership in a list that is written out, by position. *)
Ltac in_list :=
  repeat first [apply list_elem_of_here | apply list_elem_of_further].

(** Membership of a label in a list of labels that is written out. *)
Ltac in_labels := apply (bool_decide_unpack _); vm_compute; exact I.



(** ** The squad builder keeps the club cap and the budget *)

Section SquadInvariant.
Local Open Scope Q_scope.
Variable to_float : string -> option Q.
Variable argsort : list Q -> list nat.

Lemma club_count_snoc (club : string) (l : list Player) (p : Player) :
  club_count club (l ++ [p])
  = (club_count club l + (if decide (team_short p = club) then 1 else 0))%nat.
Proof.
  unfold club_count. rewrite filter_app, length_app. f_equal.
  rewrite filter_cons, filter_nil. destruct (decide _); reflexivity.
Qed.

Lemma total_cost_snoc (l : list Player) (p : Player) :
  total_cost (l ++ [p]) == total_cost l + price p.
Proof.
  induction l as [|q l IH]; simpl.
  - unfold total_cost; simpl. ring.
  - unfold total_cost in *; simpl. rewrite IH. ring.
Qed.

Lemma builder_inv_init (budget : Q) :
  0 <= budget ->
  builder_inv budget {| squad := []; remaining_budget := budget; team_counts := ∅ |}.
Proof.
  intros Hb. repeat split; simpl; try done.
  - intros t. unfold club_count. simpl. lia.
  - unfold total_cost; simpl. ring.
Qed.

Lemma select_players_inv (df : DataFrame) (budget : Q) (count : nat)
    (players : list Player) :
  forall (selected : nat) (st st' : Builder),
    builder_inv budget st ->
    select_players df count players selected st = Ok st' ->
    builder_inv budget st'.
Proof.
  induction players as [|player rest IH]; intros selected st st' Hinv Hrun;
    simpl in Hrun.
  - injection Hrun as <-. exact Hinv.
  - destruct (decide (count ≤ selected)%nat).
    { injection Hrun as <-. exact Hinv. }
    apply bind_Ok in Hrun as ([] & _ & Hrun).
    destruct (decide (3 ≤ default 0%nat (team_counts st !! team_short player))%nat)
      as [Hfull|Hroom].
    { eauto. }
    apply bind_Ok in Hrun as ([] & _ & Hrun).
    destruct (Qle_bool (price player) (remaining_budget st)) eqn:Hprice;
      [|eauto].
    apply Qle_bool_iff in Hprice.
    refine (IH _ _ _ _ Hrun).
    destruct Hinv as (Hcounts & Hcap & Hcost & Hleft).
    repeat split; simpl.
    + intros t. rewrite club_count_snoc, Hcounts.
      destruct (decide (team_short player = t)) as [->|Hne].
      * rewrite lookup_insert_eq. simpl. lia.
      * rewrite lookup_insert_ne by done. lia.
    + intros t. rewrite club_count_snoc.
      destruct (decide (team_short player = t)) as [<-|Hne].
      * rewrite Hcounts. lia.
      * specialize (Hcap t). lia.
    + rewrite total_cost_snoc, <- Hcost. ring.
    + lra.
Qed.


Lemma build_optimal_squad_Ok (players_df squad_df : DataFrame) (budget : Q) :
  build_optimal_squad to_float argsort players_df budget = Ok squad_df ->
  exists df st,
    ensure_scored to_float players_df = Ok df
    /\ foldM (fill_position argsort df) formation
             {| squad := []; remaining_budget := budget; team_counts := ∅ |} = Ok st
    /\ squad_df = frame_of_rows df (squad st).
Proof.
  unfold build_optimal_squad. intros Hrun.
  apply bind_Ok in Hrun as (df & Hdf & Hrun).
  apply bind_Ok in Hrun as (st & Hst & Hrun).
  apply bind_Ok in Hrun as ([] & _ & Hrun).
  apply bind_Ok in Hrun as ([] & _ & Hrun).
  injection Hrun as <-. eauto.
Qed.


End SquadInvariant.

(** ** The fixture predictor *)

Section PredictorFacts.
Local Open Scope Q_scope.
Variable py_float : string -> option Q.

(** Division by a literal, in the form linear arithmetic reads. *)
Lemma Qdiv_literal (x : Q) (n : positive) : x / (Z.pos n # 1) == x * (1 # n).
Proof. reflexivity. Qed.

Lemma clamp_bounds (lo hi x : Q) : lo <= hi -> lo <= clamp lo hi x <= hi.
Proof.
  intros Hlh. unfold clamp. split.
  - apply Q.le_max_l.
  - apply Q.max_lub; [exact Hlh | apply Q.le_min_l].
Qed.

Lemma clamp_inside (lo hi x : Q) : lo <= x <= hi -> clamp lo hi x == x.
Proof.
  intros [Hl Hh]. unfold clamp.
  rewrite (Q.min_r hi x) by exact Hh. apply Q.max_r. exact Hl.
Qed.

Lemma clamp_below (lo hi x : Q) : lo <= hi -> x <= lo -> clamp lo hi x == lo.
Proof.
  intros Hlh Hx. unfold clamp.
  rewrite (Q.min_r hi x) by lra. apply Q.max_l. exact Hx.
Qed.

(** The part of the documented behaviour the code keeps: each returned
    probability is inside its clamp bounds. *)
Lemma match_outcome_within_bounds (home_stats away_stats : TeamStats) :
  let o := match_outcome home_stats away_stats in
  0.05 <= home_win o <= 0.85 /\ 0.15 <= draw o <= 0.40
  /\ 0.05 <= away_win o <= 0.85.
Proof.
  simpl. repeat split; apply clamp_bounds; lra.
Qed.

(** Before the clamps the three values add up to 1. *)
Lemma raw_outcome_sum (strength_diff : Q) :
  outcome_sum (raw_outcome strength_diff) == 1.
Proof.
  unfold raw_outcome, outcome_sum.
  repeat destruct (Qlt_le_dec _ _); simpl; ring.
Qed.

(** In the band [strength_diff > 50] the away-win value is below 0.05
    before the clamp, so the returned values always add up to more than
    1. *)
Lemma match_outcome_sum_above_50 (home_stats away_stats : TeamStats) :
  50 < overall home_stats * (1 + HOME_ADVANTAGE) - overall away_stats ->
  1 < outcome_sum (match_outcome home_stats away_stats).
Proof.
  intros Hd. unfold match_outcome, outcome_sum, raw_outcome.
  destruct (Qlt_le_dec _ _) as [_|Hle]; [|lra]. simpl.
  set (d := overall home_stats * (1 + HOME_ADVANTAGE) - overall away_stats) in *.
  assert (Hm : 0.1 < Qmin (d / 500) 0.25 <= 0.25).
  { destruct (Q.min_spec (d / 500) 0.25) as [[? Hq]|[? Hq]]; rewrite Hq;
      rewrite ?Qdiv_literal in *; lra. }
  rewrite (clamp_inside 0.05 0.85 (0.60 + Qmin (d / 500) 0.25)) by lra.
  rewrite (clamp_inside 0.15 0.40 0.25) by lra.
  rewrite (clamp_below 0.05 0.85 (1 - (0.60 + Qmin (d / 500) 0.25) - 0.25)) by lra.
  lra.
Qed.

(** C3, at the strengths 120 and 80 of the specification's example: the
    returned values are 0.716, 0.25 and 0.05, inside their bounds, and
    they add up to 1.016, not to 1; nothing is renormalized after the
    clamps. *)
Theorem predict_match_outcome_sum_not_one :
  exists o,
    predict_match_outcome py_float strong_and_weak "MCI" "BUR" = Ok o
    /\ home_win o == 0.716 /\ draw o == 0.25 /\ away_win o == 0.05
    /\ outcome_sum o == 1.016
    /\ ~ outcome_sum o == 1.
Proof.
  eexists. split; [vm_compute; reflexivity|].
  repeat split; try (vm_compute; reflexivity).
  vm_compute. discriminate.
Qed.

Lemma strengths_computed (self : AdvancedFixturePredictor) :
  size (team_strength self) <> 0%nat ->
  strengths py_float self = Ok (team_strength self).
Proof. intros Hne. unfold strengths. destruct (decide _); [done|reflexivity]. Qed.

(** C10.  With the strength table computed, a club that has no entry in
    it makes none of the three predictions fail: each is computed with
    attack 50, defense 50 and overall 100 for that club, whichever side
    the club is on. *)
Theorem unknown_club_gets_default_strengths
    (self : AdvancedFixturePredictor) (ts : gmap string TeamStats)
    (club other : string) (is_home : bool) :
  strengths py_float self = Ok ts ->
  ts !! club = None ->
  predict_match_outcome py_float self club other
    = Ok (match_outcome unknown_club_stats (stats_of ts other))
  /\ predict_match_outcome py_float self other club
    = Ok (match_outcome (stats_of ts other) unknown_club_stats)
  /\ predict_goals py_float self club other
    = Ok (goals unknown_club_stats (stats_of ts other))
  /\ predict_goals py_float self other club
    = Ok (goals (stats_of ts other) unknown_club_stats)
  /\ predict_clean_sheet py_float self club other is_home
    = Ok (clean_sheet unknown_club_stats (stats_of ts other) is_home)
  /\ predict_clean_sheet py_float self other club is_home
    = Ok (clean_sheet (stats_of ts other) unknown_club_stats is_home).
Proof.
  intros Hts Hnone.
  unfold predict_match_outcome, predict_goals, predict_clean_sheet, stats_of.
  rewrite Hts. simpl. rewrite Hnone. simpl.
  repeat split; destruct (ts !! other); reflexivity.
Qed.

End PredictorFacts.

Lemma unknown_club_gets_default_strengths_witness :
  predict_match_outcome (fun _ => None) strong_and_weak "XYZ" "MCI"
    = Ok (match_outcome unknown_club_stats
            (stats_of (team_strength strong_and_weak) "MCI"))
  /\ predict_goals (fun _ => None) strong_and_weak "XYZ" "MCI"
    = Ok (goals unknown_club_stats
            (stats_of (team_strength strong_and_weak) "MCI"))
  /\ predict_clean_sheet (fun _ => None) strong_and_weak "XYZ" "MCI" true
    = Ok (clean_sheet unknown_club_stats
            (stats_of (team_strength strong_and_weak) "MCI") true).
Proof.
  destruct (unknown_club_gets_default_strengths (fun _ => None) strong_and_weak
              (team_strength strong_and_weak) "XYZ" "MCI" true)
    as (H1 & _ & H3 & _ & H5 & _).
  - vm_compute. reflexivity.
  - vm_compute. reflexivity.
  - exact (conj H1 (conj H3 H5)).
Defined.

(** ** Sorting *)

Section Sorting.
Local Open Scope Q_scope.
Context {A : Type} (key : A -> Q).

Lemma insert_desc_perm (x : A) (l : list A) : insert_desc key x l ≡ₚ x :: l.
Proof.
  induction l as [|y l IH]; simpl; [done|].
  destruct (Qlt_le_dec _ _); [|done].
  rewrite IH. apply Permutation_swap.
Qed.

Lemma sort_desc_perm (l : list A) : sort_desc key l ≡ₚ l.
Proof.
  induction l as [|x l IH]; simpl; [done|].
  unfold sort_desc in *. simpl. rewrite insert_desc_perm. by rewrite IH.
Qed.

Lemma elem_of_sort_desc (x : A) (l : list A) : x ∈ sort_desc key l <-> x ∈ l.
Proof. by rewrite sort_desc_perm. Qed.

Lemma insert_desc_sorted (x : A) (l : list A) :
  sorted_desc key l -> sorted_desc key (insert_desc key x l).
Proof.
  unfold sorted_desc. induction l as [|y l IH]; intros Hs; simpl.
  - repeat constructor.
  - inversion Hs as [|? ? Hl Hy]; subst.
    destruct (Qlt_le_dec (key x) (key y)) as [Hlt|Hle].
    + constructor; [by apply IH|].
      rewrite insert_desc_perm. constructor; [lra | exact Hy].
    + constructor; [exact Hs|].
      constructor; [exact Hle|].
      eapply Forall_impl; [exact Hy|]. simpl. intros z Hz. lra.
Qed.

Lemma sort_desc_sorted (l : list A) : sorted_desc key (sort_desc key l).
Proof.
  induction l as [|x l IH]; simpl; [constructor|].
  by apply insert_desc_sorted.
Qed.

(** The sort is stable: the elements of one key are in the order they
    had. *)
Lemma insert_desc_stable (s : Q) (x : A) (l : list A) :
  sorted_desc key l ->
  filter (fun y => key y == s) (insert_desc key x l)
  = filter (fun y => key y == s) (x :: l).
Proof.
  unfold sorted_desc. induction l as [|y l IH]; intros Hs; simpl; [done|].
  inversion Hs as [|? ? Hl Hy]; subst.
  destruct (Qlt_le_dec (key x) (key y)) as [Hlt|Hle]; [|done].
  rewrite (filter_cons _ y), IH by done.
  rewrite !(filter_cons _ x), (filter_cons _ y).
  destruct (decide (key x == s)) as [Hx|Hx]; [|done].
  destruct (decide (key y == s)) as [Hy'|Hy']; [|done].
  exfalso. rewrite Hx, Hy' in Hlt. lra.
Qed.

Lemma sort_desc_stable (s : Q) (l : list A) :
  filter (fun y => key y == s) (sort_desc key l)
  = filter (fun y => key y == s) l.
Proof.
  induction l as [|x l IH]; simpl; [done|].
  unfold sort_desc in *. simpl.
  rewrite insert_desc_stable by apply sort_desc_sorted.
  by rewrite !(filter_cons _ x), IH.
Qed.

End Sorting.

(** ** The order of [sort_values] and [nlargest] *)

Section SortValues.
Local Open Scope Q_scope.
Variable argsort : list Q -> list nat.


Lemma omap_lookup_seq {A : Type} (l1 l2 : list A) :
  omap (fun i => (l1 ++ l2) !! i) (seq (length l1) (length l2)) = l2.
Proof.
  revert l1. induction l2 as [|x l2 IH]; intros l1; [done|].
  cbn [length seq omap list_omap].
  rewrite list_lookup_middle by done.
  f_equal. specialize (IH (l1 ++ [x])).
  rewrite <- app_assoc, length_app in IH. cbn [length app] in IH.
  by rewrite Nat.add_1_r in IH.
Qed.

Lemma omap_lookup_all {A : Type} (l : list A) :
  omap (fun i => l !! i) (seq 0 (length l)) = l.
Proof. exact (omap_lookup_seq [] l). Qed.

Lemma omap_lookup_fmap {A B : Type} (f : A -> B) (l : list A) (idxs : list nat) :
  f <$> omap (fun i => l !! i) idxs = omap (fun i => (f <$> l) !! i) idxs.
Proof.
  rewrite list_fmap_omap. induction idxs as [|i idxs IH]; [done|].
  cbn [omap list_omap]. rewrite list_lookup_fmap.
  destruct (l !! i); cbn [fmap option_fmap option_map]; by rewrite IH.
Qed.

Lemma StronglySorted_of_fmap {A B : Type} (f : A -> B) (R : relation B)
    (l : list A) :
  StronglySorted R (f <$> l) -> StronglySorted (fun x y => R (f x) (f y)) l.
Proof.
  induction l as [|x l IH]; intros Hs; [constructor|].
  rewrite fmap_cons in Hs. apply StronglySorted_inv in Hs as [Hs Hx].
  constructor; [by apply IH|].
  rewrite Forall_fmap in Hx. exact Hx.
Qed.

Hypothesis argsort_sorts : sorts argsort.

Lemma sort_values_perm (l : list Player) : sort_values argsort l ≡ₚ l.
Proof.
  unfold sort_values.
  destruct (argsort_sorts (map value_score l)) as [Hperm _].
  rewrite Hperm, length_fmap. by rewrite omap_lookup_all.
Qed.

Lemma elem_of_sort_values (l : list Player) (p : Player) :
  p ∈ sort_values argsort l <-> p ∈ l.
Proof. by rewrite sort_values_perm. Qed.

Lemma sort_values_sorted (l : list Player) :
  sorted_desc value_score (sort_values argsort l).
Proof.
  unfold sorted_desc, sort_values.
  destruct (argsort_sorts (map value_score l)) as [_ Hsorted].
  apply (StronglySorted_of_fmap value_score (fun x y => y <= x)).
  by rewrite omap_lookup_fmap.
Qed.

(** What [nlargest] returns: as many rows as asked for when there are
    that many, in descending order of score, and no row left out has a
    higher score than a row returned. *)
Lemma nlargest_top (n : Z) (l : list Player) :
  length (nlargest argsort n l) = Nat.min (Z.to_nat n) (length l)
  /\ sorted_desc value_score (nlargest argsort n l)
  /\ exists rest,
       nlargest argsort n l ++ rest ≡ₚ l
       /\ forall p q, p ∈ nlargest argsort n l -> q ∈ rest ->
                      value_score q <= value_score p.
Proof.
  assert (Hgen : forall s : list Player,
            s ≡ₚ l -> sorted_desc value_score s ->
            length (take (Z.to_nat n) s) = Nat.min (Z.to_nat n) (length l)
            /\ sorted_desc value_score (take (Z.to_nat n) s)
            /\ exists rest,
                 take (Z.to_nat n) s ++ rest ≡ₚ l
                 /\ forall p q, p ∈ take (Z.to_nat n) s -> q ∈ rest ->
                                value_score q <= value_score p).
  { intros s Hperm Hsorted. unfold sorted_desc in *.
    rewrite <- (take_drop (Z.to_nat n) s) in Hsorted.
    split; [by rewrite length_take, (Permutation_length Hperm)|].
    split; [by apply StronglySorted_app_1_l in Hsorted|].
    exists (drop (Z.to_nat n) s). split; [by rewrite take_drop|].
    intros p q Hp Hq.
    exact (StronglySorted_app_1_elem_of _ _ _ _ _ Hsorted Hp Hq). }
  unfold nlargest. destruct (n <=? 0)%Z eqn:Hn.
  - apply Z.leb_le in Hn. replace (Z.to_nat n) with 0%nat by lia.
    split; [done|]. split; [constructor|]. exists l. split; [done|].
    intros p q Hp. by apply elem_of_nil in Hp.
  - destruct (Z.of_nat (length l) <=? n)%Z.
    + apply Hgen; [apply sort_values_perm|apply sort_values_sorted].
    + apply Hgen; [apply sort_desc_perm|apply sort_desc_sorted].
Qed.

End SortValues.


Lemma imap_pair_fst {A : Type} (l : list A) (j : nat) :
  (imap (fun i k => (j + i, k)%nat) l).*1 = seq j (length l).
Proof.
  revert j. induction l as [|x l IH]; intros j; [done|].
  cbn [imap fmap list_fmap fst length seq]. rewrite Nat.add_0_r. f_equal.
  rewrite <- (IH (S j)). f_equal. apply imap_ext. intros i y _. simpl.
  f_equal. lia.
Qed.

Lemma argsort_stable_sorts : sorts argsort_stable.
Proof.
  intros keys. unfold argsort_stable.
  set (pairs := imap (fun i k => (i, k)) keys).
  assert (Hfst : pairs.*1 = seq 0 (length keys))
    by apply (imap_pair_fst keys 0).
  assert (Hpairs : forall ik, ik ∈ pairs -> keys !! ik.1 = Some ik.2).
  { intros ik Hik. apply list_elem_of_lookup in Hik as (j & Hj).
    unfold pairs in Hj. rewrite list_lookup_imap in Hj.
    destruct (keys !! j) as [k|] eqn:Hk; [|done].
    injection Hj as <-. exact Hk. }
  split.
  - rewrite <- Hfst. by rewrite (sort_desc_perm snd pairs).
  - assert (Hsnd : omap (fun i => keys !! i) (sort_desc snd pairs).*1
                   = (sort_desc snd pairs).*2).
    { assert (Hin : forall ik, ik ∈ sort_desc snd pairs ->
                      keys !! ik.1 = Some ik.2).
      { intros ik Hik. apply Hpairs. by apply elem_of_sort_desc in Hik. }
      induction (sort_desc snd pairs) as [|ik s IH]; [done|].
      cbn [fmap list_fmap omap list_omap].
      rewrite (Hin ik) by apply list_elem_of_here. f_equal.
      apply IH. intros ik' Hik'. apply Hin. by apply list_elem_of_further. }
    rewrite Hsnd.
    apply (StronglySorted_fmap snd (fun x y => (snd y <= snd x)%Q));
      [done|apply sort_desc_sorted].
Qed.

(** ** The squad builder: order of the candidates, partial squads *)

Section SquadBuilder.
Local Open Scope Q_scope.
Variable to_float : string -> option Q.
Variable argsort : list Q -> list nat.
Hypothesis argsort_sorts : sorts argsort.

Lemma has_columns_getitem (df : DataFrame) (cs : list string) (c : string) :
  has_columns df cs -> c ∈ cs -> getitem df c = Ok tt.
Proof.
  intros Hcs Hc. apply getitem_Ok.
  unfold has_columns in Hcs. rewrite Forall_forall in Hcs. by apply Hcs.
Qed.

Lemma getitems_Ok (df : DataFrame) (cs : list string) :
  has_columns df cs -> getitems df cs = Ok tt.
Proof.
  induction cs as [|c cs IH]; intros Hcs; simpl; [done|].
  inversion Hcs as [|? ? Hc Hrest]; subst.
  apply getitem_Ok in Hc. rewrite Hc. simpl. by apply IH.
Qed.

Lemma position_players_Ok (df : DataFrame) (pos : string) :
  has_columns df squad_labels ->
  position_players argsort df pos
  = Ok (sort_values argsort
          (filter (fun p => position p = pos /\ status p = "a") (rows df))).
Proof.
  intros Hcs. unfold position_players.
  rewrite !(has_columns_getitem df squad_labels) by (done || in_labels).
  reflexivity.
Qed.



Lemma select_players_total (df : DataFrame) (count : nat) (players : list Player) :
  has_columns df squad_labels ->
  forall selected st, exists st', select_players df count players selected st = Ok st'.
Proof.
  intros Hcs. induction players as [|player rest IH]; intros selected st; simpl.
  - eauto.
  - destruct (decide _); [eauto|].
    rewrite !(has_columns_getitem df squad_labels) by (done || in_labels).
    simpl. destruct (decide _); [eauto|].
    destruct (Qle_bool _ _); eauto.
Qed.

Lemma select_players_grows (df : DataFrame) (count : nat) (players : list Player) :
  forall selected st st',
    select_players df count players selected st = Ok st' ->
    exists l, squad st' = squad st ++ l.
Proof.
  induction players as [|player rest IH]; intros selected st st' Hrun;
    simpl in Hrun.
  - injection Hrun as <-. exists []. by rewrite app_nil_r.
  - destruct (decide _).
    { injection Hrun as <-. exists []. by rewrite app_nil_r. }
    apply bind_Ok in Hrun as ([] & _ & Hrun).
    destruct (decide _); [eauto|].
    apply bind_Ok in Hrun as ([] & _ & Hrun).
    destruct (Qle_bool _ _); [|eauto].
    apply IH in Hrun as (l & ->). simpl. exists (player :: l).
    by rewrite <- app_assoc.
Qed.

Lemma select_players_picks (df : DataFrame) (budget : Q) (count : nat)
    (players : list Player) :
  forall st st',
    builder_inv budget st -> squad st = [] -> (0 < count)%nat ->
    (exists p, p ∈ players /\ price p <= budget) ->
    select_players df count players 0 st = Ok st' ->
    squad st' <> [].
Proof.
  induction players as [|player rest IH];
    intros st st' Hinv Hempty Hcount (p & Hp & Hprice) Hrun.
  { by apply elem_of_nil in Hp. }
  simpl in Hrun. destruct (decide (count ≤ 0)%nat); [lia|].
  apply bind_Ok in Hrun as ([] & _ & Hrun).
  destruct Hinv as (Hcounts & Hcap & Hcost & Hleft).
  destruct (decide _) as [Hfull|_].
  { rewrite <- Hcounts, Hempty in Hfull. unfold club_count in Hfull.
    simpl in Hfull. lia. }
  apply bind_Ok in Hrun as ([] & _ & Hrun).
  destruct (Qle_bool (price player) (remaining_budget st)) eqn:Hfit.
  - apply select_players_grows in Hrun as (l & ->). simpl.
    rewrite Hempty. simpl. discriminate.
  - apply (IH st st'); try done.
    exists p. split; [|done].
    apply elem_of_cons in Hp as [->|Hp]; [|done].
    exfalso. rewrite Hempty in Hcost. unfold total_cost in Hcost.
    simpl in Hcost.
    assert (Hle : Qle_bool (price player) (remaining_budget st) = true).
    { apply Qle_bool_iff. lra. }
    congruence.
Qed.

Lemma fill_positions_picks (df : DataFrame) (budget : Q)
    (fm : list (string * nat)) :
  has_columns df squad_labels ->
  Forall (fun pc => (0 < snd pc)%nat) fm ->
  forall st, builder_inv budget st ->
    exists st',
      foldM (fill_position argsort df) fm st = Ok st'
      /\ (squad st <> []
          \/ (exists p, p ∈ rows df /\ status p = "a"
                        /\ position p ∈ map fst fm /\ price p <= budget) ->
          squad st' <> []).
Proof.
  intros Hcs. induction fm as [|[pos count] fm IH]; intros Hpos st Hinv.
  - exists st. split; [done|]. intros [Hne|(p & _ & _ & Hin & _)]; [done|].
    by apply elem_of_nil in Hin.
  - inversion Hpos as [|? ? Hcount Hrest]; subst. simpl in Hcount.
    destruct (select_players_total df count
                (sort_values argsort
                   (filter (fun p => position p = pos /\ status p = "a") (rows df)))
                Hcs 0%nat st) as (st1 & Hst1).
    assert (Hstep : fill_position argsort df st (pos, count) = Ok st1).
    { unfold fill_position. cbn [fst snd].
      rewrite position_players_Ok by done. exact Hst1. }
    rewrite foldM_cons, Hstep. cbn [mbind result_bind].
    pose proof (select_players_inv df budget _ _ _ _ _ Hinv Hst1) as Hinv1.
    destruct (IH Hrest st1 Hinv1) as (st' & Hst' & Hne).
    exists st'. split; [done|]. intros Hcase. apply Hne.
    destruct (decide (squad st = [])) as [Hempty|Hfilled].
    + destruct Hcase as [?|(p & Hp & Hst & Hin & Hprice)]; [done|].
      simpl in Hin. apply elem_of_cons in Hin as [Heq|Hin].
      * left.
        eapply select_players_picks;
          [exact Hinv|exact Hempty|exact Hcount| |exact Hst1].
        exists p. split; [|done].
        apply (elem_of_sort_values argsort argsort_sorts), list_elem_of_filter.
        done.
      * right. eauto.
    + left. apply select_players_grows in Hst1 as (l & ->).
      destruct (squad st); [done|discriminate].
Qed.

(** C6 (as the code has it).  As soon as one available player of a
    formation position costs no more than the budget, the method does not
    raise: it returns the table of the players it selected, however many
    quotas they leave unfilled, and that table is all it returns. *)
Theorem build_optimal_squad_returns_partial_squad
    (df : DataFrame) (budget : Q) :
  0 <= budget ->
  has_columns df squad_labels ->
  affordable_candidate df budget ->
  exists st,
    foldM (fill_position argsort df) formation
          {| squad := []; remaining_budget := budget; team_counts := ∅ |} = Ok st
    /\ squad st <> []
    /\ build_optimal_squad to_float argsort df budget
       = Ok {| columns := columns df; rows := squad st |}.
Proof.
  intros Hb Hcs Hcand.
  destruct (fill_positions_picks df budget formation Hcs) with
    (st := {| squad := []; remaining_budget := budget; team_counts := ∅ |})
    as (st & Hst & Hne).
  { repeat constructor. }
  { by apply builder_inv_init. }
  exists st. split; [done|].
  assert (Hsq : squad st <> []) by (apply Hne; right; exact Hcand).
  split; [done|].
  unfold build_optimal_squad, ensure_scored.
  assert (Hvs : has_column df "value_score" = true).
  { apply getitem_Ok. apply (has_columns_getitem df squad_labels); [done|in_labels]. }
  rewrite Hvs. monad_step. rewrite Hst. monad_step.
  assert (Hframe : frame_of_rows df (squad st)
                   = {| columns := columns df; rows := squad st |}).
  { unfold frame_of_rows. destruct (squad st); [done|reflexivity]. }
  rewrite Hframe.
  assert (Hcs' : has_columns {| columns := columns df; rows := squad st |} squad_labels)
    by exact Hcs.
  rewrite (has_columns_getitem _ squad_labels) by (done || in_labels).
  monad_step. rewrite getitems_Ok; [reflexivity|].
  unfold display_cols.
  repeat (constructor;
          [apply getitem_Ok, (has_columns_getitem _ squad_labels);
           [exact Hcs'|in_labels]|]).
  constructor.
Qed.

End SquadBuilder.

(** ** The transfer recommender *)

Section Transfers.
Local Open Scope Q_scope.
Variable to_float : string -> option Q.
Variable argsort : list Q -> list nat.







Lemma slice_to_take {A : Type} (k : Z) (l : list A) :
  exists m, slice_to k l = take m l.
Proof. unfold slice_to. destruct (0 <=? k)%Z; eauto. Qed.

Lemma recommend_transfers_Ok (players_df : DataFrame) (ids : list Z)
    (transfers_available : Z) (recs : list Rec.t) :
  recommend_transfers to_float argsort players_df ids transfers_available = Ok recs ->
  exists df all_recommendations,
    ensure_scored to_float players_df = Ok df
    /\ foldM (recommend_position argsort df (value_counts (current_team_of df ids))
                (current_team_of df ids) (available_of df ids))
             ["GK"; "DEF"; "MID"; "FWD"] [] = Ok all_recommendations
    /\ recs = slice_to (transfers_available * 3)
                (sort_desc Rec.score_improvement all_recommendations).
Proof.
  unfold recommend_transfers. intros Hrun.
  apply bind_Ok in Hrun as (df & Hdf & Hrun).
  apply bind_Ok in Hrun as ([] & _ & Hrun).
  apply bind_Ok in Hrun as ([] & _ & Hrun).
  apply bind_Ok in Hrun as (all_recommendations & Hall & Hrun).
  exists df, all_recommendations. split; [done|]. split; [done|].
  destruct all_recommendations as [|r all_recommendations].
  - injection Hrun as <-. unfold slice_to. simpl.
    by destruct (0 <=? _)%Z; rewrite take_nil.
  - destruct (slice_to _ _); [discriminate|]. by injection Hrun as <-.
Qed.


Lemma filter_position_tagged (tag pos : string) (l : list Rec.t) :
  Forall (fun r => Rec.position r = tag) l ->
  (length (filter (fun r => Rec.position r = pos) l)
   <= if decide (tag = pos) then length l else 0)%nat.
Proof.
  intros Htag. destruct (decide (tag = pos)) as [->|Hne].
  - apply length_filter.
  - induction Htag as [|r l Hr _ IH]; [done|].
    rewrite filter_cons. destruct (decide _); [congruence|exact IH].
Qed.

(** The inner loop appends the candidates of its replacements, in
    order. *)
Lemma consider_replacements_candidates (df : DataFrame)
    (team_counts : gmap string nat) (pos : string) (current_player : Player)
    (replacements : list Player) :
  forall recs recs',
    foldM (consider_replacement df team_counts pos current_player)
          replacements recs = Ok recs' ->
    recs' = recs ++ omap (candidate team_counts pos current_player) replacements.
Proof.
  induction replacements as [|rep replacements IH]; intros recs recs' Hrun.
  - injection Hrun as <-. by rewrite app_nil_r.
  - rewrite foldM_cons in Hrun. apply bind_Ok in Hrun as (recs1 & Hstep & Hrun).
    apply IH in Hrun as ->. cbn [omap list_omap].
    assert (Happ : forall n,
              append_if_allowed df pos current_player rep n recs = Ok recs1 ->
              recs1 = recs ++ (if decide (n ≤ 3)%nat
                               then [mk_rec pos current_player rep n] else [])).
    { intros n Happ. unfold append_if_allowed in Happ.
      destruct (decide (n ≤ 3)%nat).
      - apply bind_Ok in Happ as ([] & _ & Happ). by injection Happ as <-.
      - injection Happ as <-. by rewrite app_nil_r. }
    unfold consider_replacement in Hstep.
    apply bind_Ok in Hstep as ([] & _ & Hstep). unfold candidate.
    destruct (team_counts !! team_short rep) as [n|].
    + destruct (decide (team_short rep = team_short current_player)).
      * apply Happ in Hstep as ->.
        destruct (decide (n ≤ 3)%nat); by rewrite <- app_assoc.
      * destruct (decide (3 ≤ n)%nat).
        -- injection Hstep as <-. by rewrite decide_False by lia.
        -- apply Happ in Hstep as ->.
           destruct (decide (n + 1 ≤ 3)%nat); by rewrite <- app_assoc.
    + apply Happ in Hstep as ->.
      destruct (decide (1 ≤ 3)%nat); by rewrite <- app_assoc.
Qed.

Lemma replace_players_candidates (df : DataFrame)
    (team_counts : gmap string nat) (pos : string)
    (available_pos current_pos : list Player) :
  forall recs recs',
    foldM (replace_player argsort df team_counts pos available_pos)
          current_pos recs = Ok recs' ->
    recs' = recs
            ++ concat
                 (map (fun current_player =>
                         omap (candidate team_counts pos current_player)
                           (nlargest argsort 100
                              (List.filter (is_replacement current_player)
                                 available_pos)))
                      current_pos).
Proof.
  induction current_pos as [|cur current_pos IH]; intros recs recs' Hrun.
  - injection Hrun as <-. by rewrite app_nil_r.
  - rewrite foldM_cons in Hrun. apply bind_Ok in Hrun as (recs1 & Hstep & Hrun).
    apply IH in Hrun as ->. unfold replace_player in Hstep.
    apply bind_Ok in Hstep as ([] & _ & Hstep).
    apply consider_replacements_candidates in Hstep as ->.
    cbn [map concat]. by rewrite <- !app_assoc.
Qed.

Lemma recommend_position_top3 (df : DataFrame) (ids : list Z) (pos : string)
    (all_recommendations all' : list Rec.t) :
  recommend_position argsort df (value_counts (current_team_of df ids))
    (current_team_of df ids) (available_of df ids) all_recommendations pos
  = Ok all' ->
  all' = all_recommendations ++ top3 (position_candidates argsort df ids pos).
Proof.
  unfold recommend_position. intros Hrun.
  apply bind_Ok in Hrun as ([] & _ & Hrun).
  apply bind_Ok in Hrun as (recs & Hrecs & Hrun).
  injection Hrun as <-.
  apply replace_players_candidates in Hrecs as ->. reflexivity.
Qed.

Lemma candidate_position (team_counts : gmap string nat) (pos : string)
    (current_player replacement : Player) (r : Rec.t) :
  candidate team_counts pos current_player replacement = Some r ->
  Rec.position r = pos.
Proof.
  unfold candidate. destruct (decide _); [|done]. by intros [= <-].
Qed.

Lemma position_candidates_position (df : DataFrame) (ids : list Z)
    (pos : string) (r : Rec.t) :
  r ∈ position_candidates argsort df ids pos -> Rec.position r = pos.
Proof.
  unfold position_candidates. rewrite list_elem_of_In, in_concat.
  intros (l & Hl & Hr). apply list_elem_of_In in Hr, Hl.
  apply list_elem_of_fmap in Hl as (cur & -> & _).
  apply list_elem_of_omap in Hr as (rep & _ & Hr).
  by eapply candidate_position.
Qed.

Lemma elem_of_top3 (l : list Rec.t) (r : Rec.t) : r ∈ top3 l -> r ∈ l.
Proof.
  unfold top3. intros Hr. apply subseteq_take in Hr.
  by apply elem_of_sort_desc in Hr.
Qed.

(** The three kept are the best three: as many as there are candidates
    up to three, and no candidate left out improves the score by more
    than a kept one. *)
Lemma top3_best (l : list Rec.t) :
  length (top3 l) = Nat.min 3 (length l)
  /\ exists rest,
       top3 l ++ rest ≡ₚ l
       /\ forall r c, r ∈ top3 l -> c ∈ rest ->
                      Rec.score_improvement c <= Rec.score_improvement r.
Proof.
  unfold top3. split.
  - by rewrite length_take, (Permutation_length (sort_desc_perm _ l)).
  - exists (drop 3 (sort_desc Rec.score_improvement l)). split.
    + rewrite take_drop. apply sort_desc_perm.
    + intros r c Hr Hc.
      pose proof (sort_desc_sorted Rec.score_improvement l) as Hs.
      rewrite <- (take_drop 3 (sort_desc _ l)) in Hs.
      exact (StronglySorted_app_1_elem_of _ _ _ _ _ Hs Hr Hc).
Qed.

Lemma elem_of_kept_candidates (df : DataFrame) (ids : list Z) (r : Rec.t) :
  r ∈ kept_candidates argsort df ids ->
  r ∈ top3 (position_candidates argsort df ids (Rec.position r)).
Proof.
  unfold kept_candidates. rewrite !elem_of_app.
  intros [Hr|[Hr|[Hr|Hr]]];
    pose proof (position_candidates_position _ _ _ _ (elem_of_top3 _ _ Hr))
      as Hpos;
    by rewrite Hpos.
Qed.

Lemma length_kept_candidates (df : DataFrame) (ids : list Z) :
  (length (kept_candidates argsort df ids) <= 12)%nat.
Proof.
  unfold kept_candidates, top3. rewrite !length_app, !length_take. lia.
Qed.

Lemma recommend_transfers_kept (players_df : DataFrame) (ids : list Z)
    (transfers_available : Z) (recs : list Rec.t) :
  recommend_transfers to_float argsort players_df ids transfers_available
  = Ok recs ->
  exists df,
    ensure_scored to_float players_df = Ok df
    /\ recs = slice_to (transfers_available * 3)
                (sort_desc Rec.score_improvement
                   (kept_candidates argsort df ids)).
Proof.
  intros Hrun.
  apply recommend_transfers_Ok in Hrun as (df & all_recs & Hdf & Hall & ->).
  exists df. split; [done|].
  rewrite !foldM_cons in Hall.
  apply bind_Ok in Hall as (l1 & H1 & Hall).
  apply bind_Ok in Hall as (l2 & H2 & Hall).
  apply bind_Ok in Hall as (l3 & H3 & Hall).
  apply bind_Ok in Hall as (l4 & H4 & Hall).
  injection Hall as <-.
  apply recommend_position_top3 in H1 as ->.
  apply recommend_position_top3 in H2 as ->.
  apply recommend_position_top3 in H3 as ->.
  apply recommend_position_top3 in H4 as ->.
  unfold kept_candidates. cbn [app]. by rewrite <- !app_assoc.
Qed.

(** C5 (as the code has it).  For each position the surviving candidates
    of all its outgoing players are ranked together by score
    improvement and the three best of them are kept; the candidates
    returned are the best [3 * transfers_available] of those kept over
    the four positions, in descending order of improvement.  So every
    candidate returned is one of the three best of its position, no
    surviving candidate of that position outside its three best
    improves the score by more, there are at most 3 candidates of a
    position, and with [transfers_available] at least 4 every kept
    candidate is returned. *)
Theorem recommend_transfers_top3_per_position (players_df : DataFrame)
    (ids : list Z) (transfers_available : Z) (recs : list Rec.t) :
  recommend_transfers to_float argsort players_df ids transfers_available
  = Ok recs ->
  sorted_desc Rec.score_improvement recs
  /\ (forall pos,
        (length (filter (fun r => Rec.position r = pos) recs) <= 3)%nat)
  /\ ((0 <= transfers_available)%Z ->
      (Z.of_nat (length recs) <= 3 * transfers_available)%Z)
  /\ exists df,
       ensure_scored to_float players_df = Ok df
       /\ recs = slice_to (transfers_available * 3)
                   (sort_desc Rec.score_improvement
                      (kept_candidates argsort df ids))
       /\ (forall r, r ∈ recs ->
             r ∈ top3 (position_candidates argsort df ids (Rec.position r)))
       /\ (forall r c,
             r ∈ recs ->
             c ∈ position_candidates argsort df ids (Rec.position r) ->
             c ∉ top3 (position_candidates argsort df ids (Rec.position r)) ->
             Rec.score_improvement c <= Rec.score_improvement r)
       /\ (forall pos,
             length (top3 (position_candidates argsort df ids pos))
             = Nat.min 3 (length (position_candidates argsort df ids pos)))
       /\ ((4 <= transfers_available)%Z ->
           recs ≡ₚ kept_candidates argsort df ids)
       /\ (forall r c,
             r ∈ recs -> c ∈ kept_candidates argsort df ids -> c ∉ recs ->
             Rec.score_improvement c <= Rec.score_improvement r).
Proof.
  intros Hrun.
  apply recommend_transfers_kept in Hrun as (df & Hdf & ->).
  set (kept := kept_candidates argsort df ids).
  destruct (slice_to_take (transfers_available * 3)
              (sort_desc Rec.score_improvement kept)) as (m & Hm).
  pose proof (sort_desc_sorted Rec.score_improvement kept) as Hsorted.
  rewrite <- (take_drop m (sort_desc _ kept)) in Hsorted.
  assert (Hin : forall r,
            r ∈ slice_to (transfers_available * 3)
                  (sort_desc Rec.score_improvement kept) -> r ∈ kept).
  { intros r Hr. rewrite Hm in Hr. apply subseteq_take in Hr.
    by apply elem_of_sort_desc in Hr. }
  split; [|split; [|split]].
  - rewrite Hm. by apply StronglySorted_app_1_l in Hsorted.
  - intros pos. rewrite Hm.
    assert (Hle : (length (filter (fun r => Rec.position r = pos)
                             (take m (sort_desc Rec.score_improvement kept)))
                   <= length (filter (fun r => Rec.position r = pos) kept))%nat).
    { rewrite <- (sort_desc_perm Rec.score_improvement kept) at 2.
      rewrite <- (take_drop m (sort_desc _ kept)) at 2.
      rewrite filter_app, length_app. lia. }
    etrans; [exact Hle|]. clear Hle. unfold kept, kept_candidates.
    rewrite !filter_app, !length_app.
    pose proof (filter_position_tagged "GK" pos
                  (top3 (position_candidates argsort df ids "GK"))) as F1.
    pose proof (filter_position_tagged "DEF" pos
                  (top3 (position_candidates argsort df ids "DEF"))) as F2.
    pose proof (filter_position_tagged "MID" pos
                  (top3 (position_candidates argsort df ids "MID"))) as F3.
    pose proof (filter_position_tagged "FWD" pos
                  (top3 (position_candidates argsort df ids "FWD"))) as F4.
    assert (Htag : forall tag,
              Forall (fun r => Rec.position r = tag)
                (top3 (position_candidates argsort df ids tag))).
    { intros tag. apply Forall_forall. intros r Hr.
      eapply position_candidates_position, elem_of_top3, Hr. }
    specialize (F1 (Htag _)). specialize (F2 (Htag _)).
    specialize (F3 (Htag _)). specialize (F4 (Htag _)).
    assert (Hthree : forall l : list Rec.t, (length (top3 l) <= 3)%nat)
      by (intros l; unfold top3; rewrite length_take; lia).
    pose proof (Hthree (position_candidates argsort df ids "GK")).
    pose proof (Hthree (position_candidates argsort df ids "DEF")).
    pose proof (Hthree (position_candidates argsort df ids "MID")).
    pose proof (Hthree (position_candidates argsort df ids "FWD")).
    repeat destruct (decide (_ = pos)); subst; try discriminate; lia.
  - intros Hn. unfold slice_to.
    destruct (0 <=? transfers_available * 3)%Z eqn:Hk; [|lia].
    rewrite length_take. lia.
  - exists df. split; [done|]. split; [reflexivity|].
    split; [|split; [|split; [|split]]].
    + intros r Hr. by apply elem_of_kept_candidates, Hin.
    + intros r c Hr Hc Hout.
      apply Hin, elem_of_kept_candidates in Hr.
      destruct (top3_best (position_candidates argsort df ids (Rec.position r)))
        as (_ & rest & Hperm & Hbest).
      apply (Hbest r c Hr).
      rewrite <- Hperm, elem_of_app in Hc. by destruct Hc.
    + intros pos. apply top3_best.
    + intros Hk. unfold slice_to.
      destruct (0 <=? transfers_available * 3)%Z eqn:Hpos; [|lia].
      rewrite take_ge.
      * apply sort_desc_perm.
      * rewrite (Permutation_length (sort_desc_perm _ kept)).
        pose proof (length_kept_candidates df ids). fold kept in H. lia.
    + intros r c Hr Hc Hout. rewrite Hm in Hr, Hout.
      apply (StronglySorted_app_1_elem_of _ _ _ _ _ Hsorted Hr).
      apply (elem_of_sort_desc Rec.score_improvement) in Hc.
      rewrite <- (take_drop m (sort_desc _ kept)), elem_of_app in Hc.
      by destruct Hc.
Qed.

End Transfers.

(** ** The squad builder and the recommender on the example tables *)





(** C6, as the specification states it, fails: with no player to select, every quota
    is unmet and the method raises, at the look-up of the price column of
    the empty squad table. *)
Lemma build_optimal_squad_raises_on_empty_squad :
  build_optimal_squad decimal argsort_stable injured_only 100 = Raise (KeyError "price").
Proof. vm_compute. reflexivity. Qed.

Lemma build_optimal_squad_returns_partial_squad_witness :
  build_optimal_squad decimal argsort_stable lone_keeper 100
  = Ok {| columns := scored_columns; rows := [keeper_a] |}.
Proof.
  destruct (build_optimal_squad_returns_partial_squad decimal argsort_stable
              argsort_stable_sorts lone_keeper 100)
    as (st & Hst & _ & Hrun).
  - apply Qle_bool_iff. reflexivity.
  - unfold has_columns, squad_labels.
    repeat (constructor; [vm_compute; reflexivity|]). constructor.
  - exists keeper_a. repeat split.
    + apply list_elem_of_here.
    + apply list_elem_of_here.
    + apply Qle_bool_iff. reflexivity.
  - vm_compute in Hst. injection Hst as <-. exact Hrun.
Defined.

(** C5, as the specification states it, fails: the second midfielder of the squad has
    a surviving candidate, but the three best candidates of the position
    all replace the first midfielder, and they are all that is returned
    for the position. *)
Lemma top3_is_per_position :
  (exists r,
     replace_player argsort_stable two_midfielders
       (value_counts (current_team_of two_midfielders [1; 2]%Z)) "MID"
       (filter (fun p => position p = "MID")
          (available_of two_midfielders [1; 2]%Z)) [] gomes = Ok [r]
     /\ Rec.out r = "Gomes" /\ Rec.in_ r = "Kudus")
  /\ exists recs,
       recommend_transfers decimal argsort_stable two_midfielders [1; 2]%Z 5 = Ok recs
       /\ map Rec.out recs = ["Rice"; "Rice"; "Rice"]
       /\ map Rec.in_ recs = ["Salah"; "Foden"; "Palmer"].
Proof.
  split.
  - eexists. split; [vm_compute; reflexivity|]. split; reflexivity.
  - eexists. split; [vm_compute; reflexivity|]. split; reflexivity.
Qed.

Lemma recommend_transfers_top3_per_position_witness :
  exists recs,
    recommend_transfers decimal argsort_stable two_midfielders [1; 2]%Z 5
    = Ok recs
    /\ sorted_desc Rec.score_improvement recs
    /\ (length (filter (fun r => Rec.position r = "MID") recs) <= 3)%nat
    /\ recs ≡ₚ kept_candidates argsort_stable two_midfielders [1; 2]%Z.
Proof.
  eexists. split; [vm_compute; reflexivity|].
  edestruct (recommend_transfers_top3_per_position decimal argsort_stable
               two_midfielders [1; 2]%Z 5)
    as (Hsorted & Hcount & _ & df & Hdf & _ & _ & _ & _ & Hall & _).
  - vm_compute. reflexivity.
  - injection Hdf as <-.
    split; [exact Hsorted|]. split; [exact (Hcount "MID")|].
    apply Hall. lia.
Defined.

(** C4, on a squad whose reserve goalkeeper has not played: scoring
    drops him from the table, the squad is then counted with two Arsenal
    players instead of three, and the one candidate returned brings in a
    fourth Arsenal player with a club count of 3 attached. *)
Theorem recommend_transfers_overfills_club :
  exists r,
    recommend_transfers decimal argsort_stable squad_with_unused_keeper fifteen_ids 1 = Ok [r]
    /\ Rec.out r = "Enzo" /\ Rec.in_ r = "Nwaneri" /\ Rec.in_team r = "ARS"
    /\ (Rec.out_score r < Rec.in_score r)%Q
    /\ Rec.team_count_after r = 3%nat
    /\ length (squad_rows squad_with_unused_keeper fifteen_ids) = 15%nat
    /\ club_count "ARS" (squad_rows squad_with_unused_keeper fifteen_ids) = 3%nat
    /\ club_count "ARS"
         (squad_after_swap squad_with_unused_keeper fifteen_ids 8 16) = 4%nat.
Proof.
  eexists. split; [vm_compute; reflexivity|].
  repeat split; vm_compute; reflexivity.
Qed.

(** ** The score model: missing columns *)

Section MissingColumns.
Local Open Scope Q_scope.
Variable to_float : string -> option Q.

Lemma first_missing_Some (df : DataFrame) (cs : list string) (c : string) :
  first_missing df cs = Some c -> c ∈ cs /\ has_column df c = false.
Proof.
  induction cs as [|c' cs IH]; simpl; [discriminate|].
  destruct (has_column df c') eqn:Hc'.
  - intros H. apply IH in H as [? ?]. split; [by apply list_elem_of_further|done].
  - intros [= <-]. split; [apply list_elem_of_here|done].
Qed.

Lemma first_missing_None (df : DataFrame) (cs : list string) :
  first_missing df cs = None <-> has_columns df cs.
Proof.
  unfold has_columns. induction cs as [|c cs IH]; simpl.
  - split; [constructor|done].
  - destruct (has_column df c) eqn:Hc.
    + rewrite IH. split; [by constructor|by inversion 1].
    + split; [discriminate|]. inversion 1; congruence.
Qed.

Lemma first_missing_only (df : DataFrame) (cs : list string) (c missing : string) :
  (forall c', c' ∈ cs -> c' <> c -> has_column df c' = true) ->
  first_missing df cs = Some missing -> missing = c.
Proof.
  intros Hothers Hfirst. apply first_missing_Some in Hfirst as [Hin Hmiss].
  destruct (decide (missing = c)) as [|Hne]; [done|].
  rewrite (Hothers missing Hin Hne) in Hmiss. discriminate.
Qed.

(** The look-ups of the loaded table happen in the order of
    [required_columns], each on a table with the columns of the loaded
    one: the first label that is missing is the one the exception names. *)
Lemma composite_score_missing (df : DataFrame) (c : string) :
  first_missing df required_columns = Some c ->
  composite_score to_float df = Raise (KeyError c).
Proof.
  unfold composite_score, to_numeric_column, getitem, has_column.
  unfold required_columns, first_missing, has_column.
  cbn [columns fillna].
  repeat (match goal with
          | |- context [bool_decide (?x ∈ columns df)] =>
              destruct (bool_decide (x ∈ columns df)); monad_step;
              cbn [columns fillna];
              [|intros [= <-]; reflexivity]
          end).
  discriminate.
Qed.

Lemma calculate_value_score_missing (df : DataFrame) (c : string) :
  first_missing df required_columns = Some c ->
  calculate_value_score to_float df = Raise (KeyError c).
Proof.
  intros Hc. unfold calculate_value_score.
  by rewrite (composite_score_missing df c Hc).
Qed.

(** C7 (as the code has it).  When a metric column is absent from the
    loaded table, [calculate_value_score] raises a [KeyError] that names a
    required column the table lacks, and names that very column when it is
    the only one lacking; nothing is substituted for the column. *)
Theorem missing_metric_raises_KeyError (df : DataFrame) (c : string) :
  c ∈ metric_columns ->
  has_column df c = false ->
  exists missing,
    calculate_value_score to_float df = Raise (KeyError missing)
    /\ missing ∈ required_columns
    /\ has_column df missing = false
    /\ ((forall c', c' ∈ required_columns -> c' <> c -> has_column df c' = true) ->
        missing = c).
Proof.
  intros Hc Hmiss.
  destruct (first_missing df required_columns) as [missing|] eqn:Hfirst.
  - exists missing. split; [by apply calculate_value_score_missing|].
    pose proof (first_missing_Some _ _ _ Hfirst) as [Hin Hlack].
    repeat split; try done.
    intros Hothers. by apply (first_missing_only df required_columns).
  - exfalso. apply first_missing_None in Hfirst.
    assert (Hreq : c ∈ required_columns).
    { unfold metric_columns in Hc. unfold required_columns.
      repeat (apply elem_of_cons in Hc as [->|Hc]; [in_labels|]).
      by apply elem_of_nil in Hc. }
    unfold has_columns in Hfirst. rewrite Forall_forall in Hfirst.
    rewrite (Hfirst c Hreq) in Hmiss. discriminate.
Qed.

End MissingColumns.

(** C7, as the specification states it, fails: without its [form] column the table
    makes [calculate_value_score] raise [KeyError('form')]; the class of
    the exception is not [ConfigurationError], which the program does not
    define. *)
Lemma missing_form_is_a_KeyError :
  has_column table_without_form "form" = false
  /\ exists e,
       calculate_value_score decimal table_without_form = Raise e
       /\ e = KeyError "form"
       /\ exn_class e <> "ConfigurationError".
Proof.
  split; [vm_compute; reflexivity|].
  eexists. split; [vm_compute; reflexivity|]. split; [reflexivity|].
  vm_compute. discriminate.
Qed.

Lemma missing_metric_raises_KeyError_witness :
  calculate_value_score decimal table_without_form = Raise (KeyError "form").
Proof.
  destruct (missing_metric_raises_KeyError decimal table_without_form "form")
    as (missing & Hrun & _ & _ & Honly).
  - in_labels.
  - vm_compute. reflexivity.
  - rewrite Hrun. f_equal. f_equal. apply Honly.
    intros c' Hin Hne. unfold required_columns in Hin.
    repeat (apply elem_of_cons in Hin as [->|Hin];
            [first [vm_compute; reflexivity | congruence]|]).
    by apply elem_of_nil in Hin.
Defined.

(** ** The score model: range of the score *)

Lemma has_column_assign (c c' : string) (f : Player -> Q) (df : DataFrame) :
  has_column (assign c f df) c' = true <-> c' = c \/ has_column df c' = true.
Proof.
  unfold has_column, assign, add_column, has_column. simpl.
  destruct (bool_decide (c ∈ columns df)) eqn:Hc.
  - apply bool_decide_eq_true in Hc. rewrite !bool_decide_eq_true.
    split; [by right|]. intros [->|?]; done.
  - rewrite !bool_decide_eq_true, elem_of_app, list_elem_of_singleton. tauto.
Qed.

Section ScoreRange.
Local Open Scope Q_scope.
Variable to_float : string -> option Q.

Lemma foldr_Qmin_le (init x : Q) (xs : list Q) :
  x ∈ xs -> foldr Qmin init xs <= x.
Proof.
  induction xs as [|y xs IH]; intros Hx; [by apply elem_of_nil in Hx|].
  simpl. apply elem_of_cons in Hx as [->|Hx].
  - apply Q.le_min_l.
  - eapply Qle_trans; [apply Q.le_min_r|by apply IH].
Qed.

Lemma foldr_Qmax_ge (init x : Q) (xs : list Q) :
  x ∈ xs -> x <= foldr Qmax init xs.
Proof.
  induction xs as [|y xs IH]; intros Hx; [by apply elem_of_nil in Hx|].
  simpl. apply elem_of_cons in Hx as [->|Hx].
  - apply Q.le_max_l.
  - eapply Qle_trans; [by apply IH|apply Q.le_max_r].
Qed.

(** Min-max scaling sends every value of the fitted column into the
    unit interval. *)
Lemma transform_unit (xs : list Q) (x : Q) :
  x ∈ xs -> 0 <= MinMaxScaler.transform xs x <= 1.
Proof.
  intros Hx.
  pose proof (foldr_Qmin_le (hd 0 xs) x xs Hx) as Hmin.
  pose proof (foldr_Qmax_ge (hd 0 xs) x xs Hx) as Hmax.
  unfold MinMaxScaler.transform, MinMaxScaler.min_, MinMaxScaler.scale_,
    MinMaxScaler.handle_zeros_in_scale.
  fold (MinMaxScaler.data_min xs) in *. fold (MinMaxScaler.data_max xs) in *.
  set (lo := MinMaxScaler.data_min xs) in *.
  set (hi := MinMaxScaler.data_max xs) in *.
  destruct (Qeq_bool (hi - lo) 0) eqn:Hrange.
  - apply Qeq_bool_iff in Hrange. change (1 / 1) with 1. lra.
  - apply Qeq_bool_neq in Hrange.
    assert (Hpos : 0 < hi - lo) by lra.
    pose proof (Qinv_lt_0_compat _ Hpos) as Hinv.
    pose proof (Qmult_inv_r _ Hrange) as Hone.
    unfold Qdiv. set (i := / (hi - lo)) in *.
    split; nra.
Qed.

Lemma getf_assigned (p : Player) (c c' : string) (v : Q) :
  getf (set_cols p (<[c := Num v]> (cols p))) c'
  = if decide (c = c') then v else getf p c'.
Proof.
  unfold getf. simpl. rewrite lookup_total_insert.
  by destruct (decide (c = c')).
Qed.

Lemma normalize_metric_Ok (df df' : DataFrame) (metric : string) :
  has_column df metric = true ->
  normalize_metric df metric = Ok df' ->
  df' = assign (normalized metric)
          (fun p => MinMaxScaler.transform
                      (map (fun q => getf q metric) (rows df)) (getf p metric))
          df.
Proof.
  unfold normalize_metric. intros ->.
  destruct (MinMaxScaler.fit_transform _); [|discriminate].
  monad_step. by intros [= <-].
Qed.

Lemma normalize_metric_unit (df df' : DataFrame) (metric : string) :
  has_column df metric = true ->
  normalize_metric df metric = Ok df' ->
  unit_column (normalized metric) df'
  /\ (forall c, unit_column c df -> unit_column c df')
  /\ (forall c, has_column df c = true -> has_column df' c = true).
Proof.
  intros Hcol Hrun. apply normalize_metric_Ok in Hrun as ->; [|done].
  split; [|split].
  - intros p' Hp'. simpl in Hp'. apply list_elem_of_fmap in Hp' as (p & -> & Hp).
    rewrite getf_assigned. destruct (decide _); [|done].
    apply transform_unit. apply list_elem_of_fmap. eauto.
  - intros c Hc p' Hp'. simpl in Hp'.
    apply list_elem_of_fmap in Hp' as (p & -> & Hp).
    rewrite getf_assigned. destruct (decide _) as [<-|]; [|by apply Hc].
    apply transform_unit. apply list_elem_of_fmap. eauto.
  - intros c Hc. apply has_column_assign. by right.
Qed.

Lemma normalize_metrics_unit (ms : list string) :
  forall df df',
    (forall m, m ∈ ms -> has_column df m = true) ->
    normalize_metrics ms df = Ok df' ->
    (forall m, m ∈ ms -> unit_column (normalized m) df')
    /\ (forall c, unit_column c df -> unit_column c df')
    /\ (forall c, has_column df c = true -> has_column df' c = true).
Proof.
  induction ms as [|m ms IH]; intros df df' Hcols Hrun; simpl in Hrun.
  - injection Hrun as <-. split; [|done]. intros m Hm. by apply elem_of_nil in Hm.
  - apply bind_Ok in Hrun as (df1 & Hstep & Hrun).
    apply normalize_metric_unit in Hstep as (Hm & Hkeep & Hmono);
      [|apply Hcols, list_elem_of_here].
    apply IH in Hrun as (Hms & Hkeep' & Hmono').
    + split; [|split]; [|by auto|by auto].
      intros m' Hm'. apply elem_of_cons in Hm' as [->|Hm']; auto.
    + intros m' Hm'. apply Hmono, Hcols. by apply list_elem_of_further.
Qed.

Lemma composite_score_has_columns (df dfc : DataFrame) :
  composite_score to_float df = Ok dfc -> has_columns df required_columns.
Proof.
  intros Hrun. apply first_missing_None.
  destruct (first_missing df required_columns) as [c|] eqn:Hc; [|done].
  rewrite (composite_score_missing to_float df c Hc) in Hrun. discriminate.
Qed.

(** With the required columns present, the method runs as far as the
    normalization of the derived table without looking at anything
    else. *)
Lemma composite_score_unfold (df : DataFrame) :
  has_columns df required_columns ->
  composite_score to_float df
  = (dfn ← normalize_metrics metrics (derived to_float df);
     _ ← getitems dfn (map fst weights);
     mret (assign "value_score" weighted_sum dfn)).
Proof.
  intros Hcols. unfold has_columns in Hcols. rewrite Forall_forall in Hcols.
  assert (Hn : forall c, has_column (fillna (numeric to_float df)) c = has_column df c)
    by reflexivity.
  unfold composite_score, to_numeric_column.
  rewrite (getitem_present df "minutes") by (apply Hcols; in_labels).
  monad_step.
  repeat (rewrite getitem_present by (apply (Hcols _); in_labels); monad_step).
  fold (numeric to_float df).
  rewrite !(getitem_present (fillna _)) by (rewrite Hn; apply Hcols; in_labels).
  monad_step.
  set (d1 := assign "points_per_million" _ _).
  assert (H1 : forall c, c ∈ required_columns -> has_column d1 c = true).
  { intros c Hin. apply has_column_assign. right. rewrite Hn. by apply Hcols. }
  rewrite !(getitem_present d1) by (apply H1; in_labels). monad_step.
  set (d2 := assign "form_per_million" _ _).
  assert (H2 : forall c, c ∈ required_columns -> has_column d2 c = true).
  { intros c Hin. apply has_column_assign. right. by apply H1. }
  rewrite !(getitem_present d2) by (apply H2; in_labels). monad_step.
  reflexivity.
Qed.

Lemma derived_has_metrics (df : DataFrame) :
  has_columns df required_columns ->
  forall m, m ∈ metrics -> has_column (derived to_float df) m = true.
Proof.
  intros Hcols m Hm. unfold has_columns in Hcols. rewrite Forall_forall in Hcols.
  unfold derived. rewrite !has_column_assign.
  assert (Hn : forall c, has_column (fillna (numeric to_float df)) c = has_column df c)
    by reflexivity.
  rewrite Hn. unfold metrics in Hm.
  repeat (apply elem_of_cons in Hm as [->|Hm];
          [first [by left | by right; left | by right; right; left
                 | right; right; right; apply Hcols; in_labels]|]).
  by apply elem_of_nil in Hm.
Qed.

Lemma weights_sum_to_one : foldr (fun cw acc => snd cw + acc) 0 weights == 1.
Proof. reflexivity. Qed.

(** The composite score is in the unit interval. *)
Lemma composite_score_unit (df dfc : DataFrame) :
  composite_score to_float df = Ok dfc ->
  unit_column "value_score" dfc.
Proof.
  intros Hrun. pose proof (composite_score_has_columns _ _ Hrun) as Hcols.
  rewrite composite_score_unfold in Hrun by done.
  apply bind_Ok in Hrun as (dfn & Hnorm & Hrun).
  apply bind_Ok in Hrun as ([] & _ & Hrun). injection Hrun as <-.
  apply normalize_metrics_unit in Hnorm as (Hunit & _ & _);
    [|by apply derived_has_metrics].
  intros p' Hp'. simpl in Hp'. apply list_elem_of_fmap in Hp' as (p & -> & Hp).
  rewrite getf_assigned. rewrite decide_True by done.
  pose proof (Hunit "points_per_game" ltac:(in_labels) p Hp) as H1.
  pose proof (Hunit "form" ltac:(in_labels) p Hp) as H2.
  pose proof (Hunit "points_per_million" ltac:(in_labels) p Hp) as H3.
  pose proof (Hunit "ict_index" ltac:(in_labels) p Hp) as H4.
  pose proof (Hunit "expected_involvement" ltac:(in_labels) p Hp) as H5.
  unfold weighted_sum, weights. cbn [fold_left fst snd].
  unfold normalized in H1, H2, H3, H4, H5.
  cbv [String.append] in H1, H2, H3, H4, H5.
  lra.
Qed.

Lemma penalise_Ok (dfc scored : DataFrame) :
  penalise dfc = Ok scored ->
  scored = scale_where not_available 0.3 (scale_where chance_below_100 0.5 dfc).
Proof.
  unfold penalise. intros Hrun.
  repeat apply bind_Ok in Hrun as ([] & _ & Hrun). by injection Hrun as <-.
Qed.

Lemma value_score_set (p : Player) (v : Q) :
  value_score (set_cols p (<["value_score" := Num v]> (cols p))) = v.
Proof. unfold value_score. rewrite getf_assigned. by rewrite decide_True. Qed.


End ScoreRange.

(** ** The score model: running it twice *)

Section Idempotence.
Local Open Scope Q_scope.
Variable to_float : string -> option Q.

Lemma set_cols_id (p : Player) : set_cols p (cols p) = p.
Proof. by destruct p. Qed.

Lemma updates_assign (c : string) (f : Player -> Q) :
  updates c (fun p => set_cols p (<[c := Num (f p)]> (cols p))).
Proof. intros p. right. eauto. Qed.

Lemma updates_scale (mask : Player -> bool) (factor : Q) :
  updates "value_score"
    (fun p => if mask p
              then set_cols p (<["value_score" := Num (value_score p * factor)]> (cols p))
              else p).
Proof. intros p. destruct (mask p); [right; eauto | by left]. Qed.

Lemma updates_lookup (c k : string) (h : Player -> Player) (p : Player) :
  updates c h -> k <> c -> cols (h p) !! k = cols p !! k.
Proof.
  intros Hh Hk. destruct (Hh p) as [->|[v ->]]; [done|].
  simpl. by rewrite lookup_insert_ne.
Qed.

Lemma updates_getf (c k : string) (h : Player -> Player) (p : Player) :
  updates c h -> k <> c -> getf (h p) k = getf p k.
Proof.
  intros Hh Hk. unfold getf. rewrite !lookup_total_alt.
  by rewrite (updates_lookup c k h p Hh Hk).
Qed.

Lemma updates_fields (c : string) (h : Player -> Player) (p : Player) :
  updates c h ->
  minutes (h p) = minutes p /\ total_points (h p) = total_points p
  /\ price (h p) = price p /\ status (h p) = status p
  /\ chance_of_playing_next_round (h p) = chance_of_playing_next_round p.
Proof. intros Hh. by destruct (Hh p) as [->|[v ->]]. Qed.

Lemma ignores_points_per_million (c : string) : ignores F_points_per_million c.
Proof.
  intros h Hh L p. unfold F_points_per_million.
  destruct (updates_fields c h p Hh) as (_ & -> & -> & _). done.
Qed.

Lemma ignores_form_per_million (c : string) :
  c <> "form" -> ignores F_form_per_million c.
Proof.
  intros Hc h Hh L p. unfold F_form_per_million.
  destruct (updates_fields c h p Hh) as (_ & _ & -> & _).
  by rewrite (updates_getf c) by done.
Qed.

Lemma ignores_expected_involvement (c : string) :
  c <> "expected_goals" -> c <> "expected_assists" ->
  ignores F_expected_involvement c.
Proof.
  intros Hg Ha h Hh L p. unfold F_expected_involvement.
  by rewrite !(updates_getf c) by done.
Qed.

Lemma ignores_normalized (m c : string) : c <> m -> ignores (F_normalized m) c.
Proof.
  intros Hc h Hh L p. unfold F_normalized.
  rewrite (updates_getf c) by done. f_equal.
  rewrite map_map. apply map_ext. intros q. by apply (updates_getf c).
Qed.

Lemma ignores_weighted_sum (c : string) :
  c ∉ map fst weights -> ignores F_weighted_sum c.
Proof.
  intros Hc h Hh L p. unfold F_weighted_sum, weighted_sum.
  assert (Hw : forall cw, cw ∈ weights -> getf (h p) (fst cw) = getf p (fst cw)).
  { intros cw Hcw. apply (updates_getf c); [done|].
    intros Heq. apply Hc. rewrite <- Heq. apply list_elem_of_fmap. eauto. }
  revert Hw. generalize 0. generalize weights.
  induction l as [|cw l IH]; intros acc Hw; simpl; [done|].
  rewrite (Hw cw) by apply list_elem_of_here.
  apply IH. intros cw' Hcw'. apply Hw. by apply list_elem_of_further.
Qed.

(** A write at another label keeps a column fixed, if its value does not
    look at that label. *)
Lemma fixed_updates (c c' : string) (F : list Player -> Player -> Q)
    (h : Player -> Player) (L : list Player) :
  c' <> c -> ignores F c' -> updates c' h ->
  fixed c F L -> fixed c F (map h L).
Proof.
  intros Hne Hign Hh Hfix p' Hp'.
  apply list_elem_of_fmap in Hp' as (p & -> & Hp).
  rewrite (updates_lookup c' c h p Hh) by done.
  rewrite Hign by done. by apply Hfix.
Qed.

(** Assigning a column makes it fixed, if its value does not look at the
    column itself. *)
Lemma fixed_assign (c : string) (F : list Player -> Player -> Q)
    (L : list Player) :
  ignores F c ->
  fixed c F (map (fun p => set_cols p (<[c := Num (F L p)]> (cols p))) L).
Proof.
  intros Hign p' Hp'. apply list_elem_of_fmap in Hp' as (p & -> & Hp).
  simpl. rewrite lookup_insert_eq. do 2 f_equal.
  symmetry. apply (Hign (fun p => set_cols p (<[c := Num (F L p)]> (cols p)))).
  apply updates_assign.
Qed.

(** On a fixed column the assignment changes nothing. *)
Lemma assign_fixed (c : string) (F : list Player -> Player -> Q)
    (df : DataFrame) :
  has_column df c = true -> fixed c F (rows df) ->
  assign c (F (rows df)) df = df.
Proof.
  intros Hc Hfix. unfold assign, add_column. rewrite Hc.
  destruct df as [cs L]. simpl in *. f_equal.
  rewrite <- (map_id L) at 2. apply map_ext_in. intros p Hp.
  apply list_elem_of_In in Hp. rewrite insert_id by by apply Hfix.
  apply set_cols_id.
Qed.

Lemma no_text_updates (c c' : string) (h : Player -> Player) (L : list Player) :
  updates c' h -> no_text c L -> no_text c (map h L).
Proof.
  intros Hh Hno p' s Hp'. apply list_elem_of_fmap in Hp' as (p & -> & Hp).
  destruct (Hh p) as [->|[v ->]]; [by apply Hno|].
  simpl. rewrite lookup_insert. destruct (decide (c' = c)); [done|by apply Hno].
Qed.

Lemma filled_updates (c' : string) (h : Player -> Player) (L : list Player) :
  updates c' h -> filled L -> filled (map h L).
Proof.
  intros Hh Hfill p' Hp'. apply list_elem_of_fmap in Hp' as (p & -> & Hp).
  destruct (Hfill p Hp) as [Hnan Hch].
  destruct (Hh p) as [->|[v ->]]; [done|]. simpl. split; [|done].
  intros k. rewrite lookup_insert. destruct (decide (c' = k)); [done|apply Hnan].
Qed.

Lemma minutes_updates (c' : string) (h : Player -> Player) (L : list Player) :
  updates c' h ->
  (forall p, p ∈ L -> (0 < minutes p)%Z) ->
  forall p, p ∈ map h L -> (0 < minutes p)%Z.
Proof.
  intros Hh Hmin p' Hp'. apply list_elem_of_fmap in Hp' as (p & -> & Hp).
  destruct (updates_fields c' h p Hh) as (-> & _). by apply Hmin.
Qed.

Lemma settled_updates (done : list (string * (list Player -> Player -> Q)))
    (c : string) (h : Player -> Player) (L : list Player) :
  updates c h -> apart c done -> settled_for done L -> settled_for done (map h L).
Proof.
  intros Hh Hapart (Hmin & Htext & Hfill & Hfix).
  split; [by apply (minutes_updates c)|].
  split; [intros c' Hc'; by apply (no_text_updates c' c), Htext|].
  split; [by apply (filled_updates c)|].
  unfold apart in Hapart. rewrite Forall_forall in *.
  intros cF HcF. destruct (Hapart cF HcF) as [Hne Hign].
  apply (fixed_updates _ c); try done. by apply Hfix.
Qed.

Lemma settled_step (done : list (string * (list Player -> Player -> Q)))
    (c : string) (F : list Player -> Player -> Q) (L : list Player) :
  apart c done -> ignores F c -> settled_for done L ->
  settled_for (done ++ [(c, F)])
    (map (fun p => set_cols p (<[c := Num (F L p)]> (cols p))) L).
Proof.
  intros Hapart Hign Hs.
  pose proof (settled_updates done c _ L (updates_assign c (F L)) Hapart Hs)
    as (Hmin & Htext & Hfill & Hfix).
  split; [done|]. split; [done|]. split; [done|].
  apply Forall_app. split; [done|]. constructor; [|constructor].
  by apply fixed_assign.
Qed.

Lemma to_numeric_not_text (c : cell) (s : string) : to_numeric to_float c <> Str s.
Proof. destruct c as [q|s'|]; simpl; [done| |done]. by destruct (to_float s'). Qed.

Lemma fillna0_not_text (c : cell) (s : string) : c <> Str s -> fillna0 c <> Str s.
Proof. by destruct c. Qed.

(** After the reading of text and [fillna], nothing is left to read or
    to fill. *)
Lemma prepared_settled (df : DataFrame) :
  settled_for [] (rows (fillna (numeric to_float df))).
Proof.
  unfold numeric, fillna. cbn [rows columns].
  split; [|split; [|split; [|constructor]]].
  - intros p' Hp'.
    repeat (apply list_elem_of_fmap in Hp' as (? & -> & Hp')).
    by apply list_elem_of_filter in Hp' as [Hmin _].
  - intros c Hc p' s Hp'.
    repeat (apply list_elem_of_fmap in Hp' as (? & -> & Hp')).
    cbn [cols set_cols set_chance]. rewrite lookup_fmap.
    match goal with
    | |- fillna0 <$> ?m !! c <> _ =>
        assert (Hm : m !! c <> Some (Str s)); [|by destruct (m !! c) as [[]|]]
    end.
    unfold text_columns in Hc.
    repeat (apply elem_of_cons in Hc as [->|Hc];
            [repeat (first [rewrite lookup_alter_eq | rewrite lookup_alter_ne by done]);
             match goal with
             | |- to_numeric to_float <$> ?o <> _ =>
                 destruct o as [v|]; [|done]; simpl;
                 intros [= Hv]; by apply to_numeric_not_text in Hv
             end|]).
    by apply elem_of_nil in Hc.
  - intros p' Hp'.
    repeat (apply list_elem_of_fmap in Hp' as (? & -> & Hp')).
    cbn [cols set_cols set_chance chance_of_playing_next_round]. split; [|by eexists].
    intros k. rewrite lookup_fmap.
    match goal with |- fillna0 <$> ?o <> _ => by destruct o as [[]|] end.
Qed.

Ltac solve_ignores :=
  first [ apply ignores_points_per_million
        | apply ignores_form_per_million; discriminate
        | apply ignores_expected_involvement; discriminate
        | apply ignores_normalized; discriminate ].

Ltac solve_apart :=
  unfold apart; cbn [app];
  repeat (constructor;
          [cbn [fst snd]; unfold normalized; cbv [String.append];
           split; [discriminate | solve_ignores]|]);
  constructor.

Lemma normalize_step (done : list (string * (list Player -> Player -> Q)))
    (d d' : DataFrame) (m : string) :
  has_column d m = true ->
  normalize_metric d m = Ok d' ->
  apart (normalized m) done -> normalized m <> m ->
  settled_for done (rows d) ->
  settled_for (done ++ [(normalized m, F_normalized m)]) (rows d')
  /\ (rows d <> [] /\ rows d' <> [])
  /\ (forall c, has_column d c = true -> has_column d' c = true)
  /\ has_column d' (normalized m) = true.
Proof.
  intros Hm Hrun Hapart Hne Hs.
  assert (Hrows : rows d <> []).
  { unfold normalize_metric in Hrun. rewrite Hm in Hrun.
    destruct (rows d); [discriminate|done]. }
  apply normalize_metric_Ok in Hrun as ->; [|done].
  split; [|split; [|split]].
  - apply (settled_step done (normalized m) (F_normalized m) (rows d));
      [done| |done].
    apply ignores_normalized. done.
  - split; [done|]. simpl. by destruct (rows d).
  - intros c Hc. apply has_column_assign. by right.
  - apply has_column_assign. by left.
Qed.

(** The table the first run normalizes has nothing left to change. *)
Lemma normalized_table_settled (df dfn : DataFrame) :
  has_columns df required_columns ->
  normalize_metrics metrics (derived to_float df) = Ok dfn ->
  settled (rows dfn) /\ rows dfn <> [] /\ has_columns dfn settled_columns.
Proof.
  intros Hcols Hrun.
  assert (Hreq : forall c, c ∈ required_columns ->
            has_column (fillna (numeric to_float df)) c = true).
  { unfold has_columns in Hcols. rewrite Forall_forall in Hcols. exact Hcols. }
  pose proof (prepared_settled df) as S0.
  set (B := fillna (numeric to_float df)) in *.
  pose proof (settled_step [] "points_per_million" F_points_per_million (rows B)
                ltac:(solve_apart) ltac:(solve_ignores) S0) as S1.
  cbn [app] in S1.
  pose proof (settled_step [("points_per_million", F_points_per_million)]
                "form_per_million" F_form_per_million _
                ltac:(solve_apart) ltac:(solve_ignores) S1) as S2.
  cbn [app] in S2.
  pose proof (settled_step [("points_per_million", F_points_per_million);
                            ("form_per_million", F_form_per_million)]
                "expected_involvement" F_expected_involvement _
                ltac:(solve_apart) ltac:(solve_ignores) S2) as S3.
  cbn [app] in S3. clear S0 S1 S2.
  unfold derived in Hrun. fold B in Hrun.
  set (d1 := assign "points_per_million" _ B) in *.
  set (d2 := assign "form_per_million" _ d1) in *.
  set (d3 := assign "expected_involvement" _ d2) in *.
  change (settled_for _ _) with
    (settled_for [("points_per_million", F_points_per_million);
                  ("form_per_million", F_form_per_million);
                  ("expected_involvement", F_expected_involvement)] (rows d3)) in S3.
  assert (H3 : forall c, c ∈ required_columns
                         \/ c ∈ ["points_per_million"; "form_per_million";
                                  "expected_involvement"] ->
                 has_column d3 c = true).
  { intros c Hc. unfold d3, d2, d1. rewrite !has_column_assign.
    destruct Hc as [Hc|Hc]; [by right; right; right; apply Hreq|].
    repeat (apply elem_of_cons in Hc as [->|Hc]; [tauto|]).
    by apply elem_of_nil in Hc. }
  clearbody d3. clear d1 d2.
  unfold metrics in Hrun. cbn [normalize_metrics] in Hrun.
  apply bind_Ok in Hrun as (n1 & Hn1 & Hrun).
  eapply normalize_step in Hn1 as (S4 & [Hne _] & M1 & C1);
    [|apply H3; left; in_labels| |discriminate|exact S3]; [|solve_apart].
  cbn [app] in S4.
  apply bind_Ok in Hrun as (n2 & Hn2 & Hrun).
  eapply normalize_step in Hn2 as (S5 & _ & M2 & C2);
    [|apply M1, H3; left; in_labels| |discriminate|exact S4]; [|solve_apart].
  cbn [app] in S5.
  apply bind_Ok in Hrun as (n3 & Hn3 & Hrun).
  eapply normalize_step in Hn3 as (S6 & _ & M3 & C3);
    [|apply M2, M1, H3; right; in_labels| |discriminate|exact S5]; [|solve_apart].
  cbn [app] in S6.
  apply bind_Ok in Hrun as (n4 & Hn4 & Hrun).
  eapply normalize_step in Hn4 as (S7 & _ & M4 & C4);
    [|apply M3, M2, M1, H3; left; in_labels| |discriminate|exact S6]; [|solve_apart].
  cbn [app] in S7.
  apply bind_Ok in Hrun as (n5 & Hn5 & Hrun).
  eapply normalize_step in Hn5 as (S8 & [_ Hrows] & M5 & C5);
    [|apply M4, M3, M2, M1, H3; right; in_labels| |discriminate|exact S7];
    [|solve_apart].
  cbn [app] in S8.
  injection Hrun as <-.
  split; [exact S8|]. split; [exact Hrows|].
  unfold has_columns, settled_columns, required_columns, column_values.
  cbn [map fst app].
  repeat (constructor;
          [first [ exact C5 | apply M5; exact C4 | apply M5, M4; exact C3
                 | apply M5, M4, M3; exact C2 | apply M5, M4, M3, M2; exact C1
                 | apply M5, M4, M3, M2, M1, H3; first [left; in_labels | right; in_labels] ]|]).
  constructor.
Qed.

Lemma filter_all {A : Type} (P : A -> Prop) `{forall x, Decision (P x)}
    (l : list A) :
  (forall x, x ∈ l -> P x) -> filter P l = l.
Proof.
  induction l as [|x l IH]; intros Hall; [done|].
  rewrite filter_cons, decide_True by apply Hall, list_elem_of_here.
  f_equal. apply IH. intros y Hy. by apply Hall, list_elem_of_further.
Qed.

Lemma map_fixed {A : Type} (f : A -> A) (l : list A) :
  (forall x, x ∈ l -> f x = x) -> map f l = l.
Proof.
  intros Hf. rewrite <- (map_id l) at 2. apply map_ext_in.
  intros x Hx. by apply Hf, list_elem_of_In.
Qed.

Lemma to_numeric_rows_fixed (c : string) (L : list Player) :
  no_text c L ->
  map (fun p => set_cols p (alter (to_numeric to_float) c (cols p))) L = L.
Proof.
  intros Hno. apply map_fixed. intros p Hp.
  transitivity (set_cols p (cols p)); [|apply set_cols_id]. f_equal.
  apply map_eq. intros k. rewrite lookup_alter.
  destruct (decide (c = k)) as [<-|]; [|done].
  specialize (Hno p). destruct (cols p !! c) as [[q|s|]|]; simpl; try done.
  by destruct (Hno s Hp).
Qed.

Lemma fillna_rows_fixed (L : list Player) :
  filled L ->
  map (fun p => set_chance (set_cols p (fillna0 <$> cols p))
                  (Some (default 0 (chance_of_playing_next_round p)))) L = L.
Proof.
  intros Hfill. apply map_fixed. intros p Hp.
  destruct (Hfill p Hp) as [Hnan [ch Hch]].
  assert (Hcols : fillna0 <$> cols p = cols p).
  { apply map_eq. intros k. rewrite lookup_fmap. specialize (Hnan k).
    by destruct (cols p !! k) as [[]|]. }
  rewrite Hcols, Hch. destruct p. simpl in *. by subst.
Qed.

Lemma derived_settled (df : DataFrame) :
  has_columns df settled_columns -> settled (rows df) ->
  derived to_float df = df.
Proof.
  intros Hcols (Hmin & Htext & Hfill & Hfix).
  unfold has_columns in Hcols. rewrite Forall_forall in Hcols.
  unfold column_values in Hfix. rewrite Forall_forall in Hfix.
  assert (Hnum : numeric to_float df = df).
  { unfold numeric. cbv zeta. cbn [rows columns].
    rewrite (filter_all _ _ Hmin).
    rewrite (to_numeric_rows_fixed "selected_by_percent" (rows df))
      by (apply Htext; in_labels).
    rewrite (to_numeric_rows_fixed "form" (rows df)) by (apply Htext; in_labels).
    rewrite (to_numeric_rows_fixed "points_per_game" (rows df))
      by (apply Htext; in_labels).
    rewrite (to_numeric_rows_fixed "ict_index" (rows df))
      by (apply Htext; in_labels).
    rewrite (to_numeric_rows_fixed "expected_goals" (rows df))
      by (apply Htext; in_labels).
    rewrite (to_numeric_rows_fixed "expected_assists" (rows df))
      by (apply Htext; in_labels).
    by destruct df. }
  assert (Hfilled : fillna df = df).
  { unfold fillna. rewrite fillna_rows_fixed by done. by destruct df. }
  unfold derived. rewrite Hnum, Hfilled.
  match goal with
  | |- assign ?c3 ?f3 (assign ?c2 ?f2 (assign ?c1 ?f1 df)) = df =>
      assert (E1 : assign c1 f1 df = df);
      [|rewrite E1; assert (E2 : assign c2 f2 df = df); [|rewrite E2]]
  end.
  - apply (assign_fixed "points_per_million" F_points_per_million df);
      [apply Hcols; in_labels
      |apply (Hfix ("points_per_million", F_points_per_million)); in_list].
  - apply (assign_fixed "form_per_million" F_form_per_million df);
      [apply Hcols; in_labels
      |apply (Hfix ("form_per_million", F_form_per_million)); in_list].
  - apply (assign_fixed "expected_involvement" F_expected_involvement df);
      [apply Hcols; in_labels
      |apply (Hfix ("expected_involvement", F_expected_involvement)); in_list].
Qed.

Lemma normalize_metric_settled (df : DataFrame) (m : string) :
  has_column df m = true -> has_column df (normalized m) = true ->
  rows df <> [] -> fixed (normalized m) (F_normalized m) (rows df) ->
  normalize_metric df m = Ok df.
Proof.
  intros Hm Hn Hrows Hfix. unfold normalize_metric. rewrite Hm.
  unfold MinMaxScaler.fit_transform.
  destruct (map _ (rows df)) eqn:Hxs.
  { destruct (rows df); [done|discriminate]. }
  monad_step. rewrite <- Hxs. f_equal.
  exact (assign_fixed (normalized m) (F_normalized m) df Hn Hfix).
Qed.

(** On a table that is settled, the method changes nothing up to the
    assignment of the score. *)
Lemma composite_score_settled (df : DataFrame) :
  has_columns df settled_columns -> settled (rows df) -> rows df <> [] ->
  composite_score to_float df = Ok (assign "value_score" weighted_sum df).
Proof.
  intros Hcols Hs Hrows.
  pose proof Hcols as Hc. unfold has_columns in Hc. rewrite Forall_forall in Hc.
  rewrite composite_score_unfold.
  2:{ unfold has_columns. rewrite Forall_forall. intros c Hin. apply Hc.
      unfold settled_columns. apply elem_of_app. by left. }
  rewrite derived_settled by done.
  destruct Hs as (_ & _ & _ & Hfix).
  unfold column_values in Hfix. rewrite Forall_forall in Hfix.
  unfold metrics. cbn [normalize_metrics].
  rewrite (normalize_metric_settled df "points_per_game");
    [|apply Hc; in_labels|apply Hc; in_labels|done
     |apply (Hfix (_, F_normalized "points_per_game")); in_list].
  monad_step.
  rewrite (normalize_metric_settled df "form");
    [|apply Hc; in_labels|apply Hc; in_labels|done
     |apply (Hfix (_, F_normalized "form")); in_list].
  monad_step.
  rewrite (normalize_metric_settled df "points_per_million");
    [|apply Hc; in_labels|apply Hc; in_labels|done
     |apply (Hfix (_, F_normalized "points_per_million")); in_list].
  monad_step.
  rewrite (normalize_metric_settled df "ict_index");
    [|apply Hc; in_labels|apply Hc; in_labels|done
     |apply (Hfix (_, F_normalized "ict_index")); in_list].
  monad_step.
  rewrite (normalize_metric_settled df "expected_involvement");
    [|apply Hc; in_labels|apply Hc; in_labels|done
     |apply (Hfix (_, F_normalized "expected_involvement")); in_list].
  monad_step.
  rewrite getitems_Ok; [done|].
  unfold has_columns. rewrite Forall_forall. intros c Hin. apply Hc.
  unfold settled_columns. apply elem_of_app. right.
  unfold weights in Hin. cbn [map fst] in Hin.
  repeat (apply elem_of_cons in Hin as [->|Hin]; [in_labels|]).
  by apply elem_of_nil in Hin.
Qed.

Lemma weighted_sum_updates (h : Player -> Player) (p : Player) :
  updates "value_score" h -> weighted_sum (h p) = weighted_sum p.
Proof.
  intros Hh.
  assert (Hign : ignores F_weighted_sum "value_score").
  { apply ignores_weighted_sum. intros Hin. cbn [map fst weights] in Hin.
    repeat (apply elem_of_cons in Hin as [[=]|Hin]).
    by apply elem_of_nil in Hin. }
  exact (Hign h Hh [] p).
Qed.

(** The assignment of the score does not see a score written before. *)
Lemma assign_score_absorbs (h : Player -> Player) (df : DataFrame) :
  updates "value_score" h ->
  assign "value_score" weighted_sum
    {| columns := columns df; rows := map h (rows df) |}
  = assign "value_score" weighted_sum df.
Proof.
  intros Hh. unfold assign, add_column, has_column. cbn [columns rows].
  f_equal. rewrite map_map. apply map_ext. intros p.
  rewrite weighted_sum_updates by done.
  destruct (Hh p) as [->|[v ->]]; [done|].
  unfold set_cols. cbn [id web_name team_short position status price minutes
    total_points clean_sheets goals_conceded chance_of_playing_next_round cols].
  by rewrite insert_insert_eq.
Qed.

Lemma assign_score_twice (df : DataFrame) :
  assign "value_score" weighted_sum (assign "value_score" weighted_sum df)
  = assign "value_score" weighted_sum df.
Proof.
  transitivity (assign "value_score" weighted_sum
                  {| columns := add_column df "value_score"; rows := rows df |}).
  - exact (assign_score_absorbs
             (fun p => set_cols p (<["value_score" := Num (weighted_sum p)]> (cols p)))
             {| columns := add_column df "value_score"; rows := rows df |}
             (updates_assign "value_score" weighted_sum)).
  - unfold assign. cbn [rows]. f_equal.
    unfold add_column at 1. unfold has_column at 1. cbn [columns].
    rewrite bool_decide_eq_true_2; [done|].
    unfold add_column, has_column.
    destruct (bool_decide _) eqn:Hc.
    + by apply bool_decide_eq_true in Hc.
    + apply elem_of_app. right. apply list_elem_of_here.
Qed.

(** C9.  A second run of [calculate_value_score], on the table the first
    run left in [self.players_df], returns that table again: every row is
    retained and keeps its score (and every other cell). *)
Theorem calculate_value_score_twice (players_df scored : DataFrame) :
  calculate_value_score to_float players_df = Ok scored ->
  calculate_value_score to_float scored = Ok scored.
Proof.
  intros Hrun. unfold calculate_value_score in Hrun.
  apply bind_Ok in Hrun as (dfc & Hcomp & Hpen).
  pose proof (composite_score_has_columns _ _ _ Hcomp) as Hcols0.
  rewrite composite_score_unfold in Hcomp by done.
  apply bind_Ok in Hcomp as (dfn & Hnorm & Hcomp).
  apply bind_Ok in Hcomp as ([] & _ & Hcomp). injection Hcomp as <-.
  apply normalized_table_settled in Hnorm as (Hs & Hrows & Hcn); [|done].
  pose proof (penalise_Ok _ _ Hpen) as Hscored.
  set (dfc := assign "value_score" weighted_sum dfn) in *.
  assert (Hcs : has_columns scored settled_columns).
  { subst scored. unfold has_columns in *. rewrite Forall_forall in *.
    intros c Hc. unfold scale_where, has_column. cbn [columns].
    apply (proj2 (has_column_assign "value_score" c weighted_sum dfn)).
    right. by apply Hcn. }
  assert (Hss : settled (rows scored)).
  { subst scored. unfold scale_where, dfc, assign. cbn [rows].
    apply (settled_updates _ "value_score"); [apply updates_scale|solve_apart|].
    apply (settled_updates _ "value_score"); [apply updates_scale|solve_apart|].
    apply (settled_updates _ "value_score"); [apply updates_assign|solve_apart|].
    exact Hs. }
  assert (Hsr : rows scored <> []).
  { subst scored. unfold scale_where, dfc, assign. cbn [rows].
    by destruct (rows dfn). }
  unfold calculate_value_score.
  rewrite (composite_score_settled scored Hcs Hss Hsr). monad_step.
  assert (Hback : assign "value_score" weighted_sum scored = dfc).
  { rewrite Hscored. unfold scale_where.
    rewrite (assign_score_absorbs _
               {| columns := columns dfc;
                  rows := map _ (rows dfc) |}) by apply updates_scale.
    rewrite (assign_score_absorbs _ dfc) by apply updates_scale.
    apply assign_score_twice. }
  rewrite Hback. exact Hpen.
Qed.

End Idempotence.

(** ** The score model on the example table *)


(** The injured midfielder of the example is under both penalties. *)
Example injured_player_is_penalised_twice :
  exists p, p ∈ rows scored_squad /\ web_name p = "Eze"
            /\ chance_below_100 p = true /\ not_available p = true
            /\ (0 <= value_score p <= 0.15)%Q.
Proof.
  eexists. split; [do 10 apply list_elem_of_further; apply list_elem_of_here|].
  repeat split; vm_compute; congruence.
Qed.

Lemma calculate_value_score_twice_witness :
  calculate_value_score decimal scored_squad = Ok scored_squad.
Proof.
  apply (calculate_value_score_twice decimal squad_with_unused_keeper scored_squad).
  vm_compute. reflexivity.
Defined.

(** * Further properties *)

(** ** The fixture predictor: ranges of the predictions *)

Section PredictionRanges.
Local Open Scope Q_scope.
Variable py_float : string -> option Q.

Lemma clamp_cases (lo hi x : Q) :
  lo <= hi ->
  (lo <= x <= hi /\ clamp lo hi x == x)
  \/ (x < lo /\ clamp lo hi x == lo)
  \/ (hi < x /\ clamp lo hi x == hi).
Proof.
  intros Hlh. unfold clamp.
  destruct (Qlt_le_dec x lo) as [Hlo|Hlo].
  - right; left. split; [done|].
    rewrite (Q.min_r hi x) by lra. apply Q.max_l. lra.
  - destruct (Qlt_le_dec hi x) as [Hhi|Hhi].
    + right; right. split; [done|].
      rewrite (Q.min_l hi x) by lra. apply Q.max_r. lra.
    + left. split; [done|]. by apply clamp_inside.
Qed.

Lemma clamp_monotone (lo hi x y : Q) :
  lo <= hi -> x <= y -> clamp lo hi x <= clamp lo hi y.
Proof.
  intros Hlh Hxy.
  destruct (clamp_cases lo hi x Hlh) as [[? ->]|[[? ->]|[? ->]]];
    destruct (clamp_cases lo hi y Hlh) as [[? ->]|[[? ->]|[? ->]]]; lra.
Qed.

Lemma predict_match_outcome_Ok (self : AdvancedFixturePredictor)
    (home_team away_team : string) (o : Outcome) :
  predict_match_outcome py_float self home_team away_team = Ok o ->
  exists home_stats away_stats, o = match_outcome home_stats away_stats.
Proof.
  unfold predict_match_outcome. intros Hrun.
  apply bind_Ok in Hrun as (ts & _ & Hrun). injection Hrun as <-. eauto.
Qed.



Lemma match_outcome_draw (home_stats away_stats : TeamStats) :
  draw (match_outcome home_stats away_stats) == 0.25
  \/ draw (match_outcome home_stats away_stats) == 0.30.
Proof.
  unfold match_outcome, raw_outcome. cbn [draw].
  repeat destruct (Qlt_le_dec _ _); cbn [draw];
    first [left; apply clamp_inside; lra | right; apply clamp_inside; lra].
Qed.



Lemma round_half_even_ge (n : Z) (x : Q) :
  inject_Z n <= x -> (n <= round_half_even x)%Z.
Proof.
  intros Hx. apply Qfloor_resp_le in Hx. rewrite Qfloor_Z in Hx.
  unfold round_half_even. repeat destruct (Qlt_le_dec _ _); try lia.
  destruct (Z.even _); lia.
Qed.

Lemma round_half_even_le (n : Z) (x : Q) :
  x <= inject_Z n -> (round_half_even x <= n)%Z.
Proof.
  intros Hx. pose proof (Qfloor_resp_le _ _ Hx) as Hf. rewrite Qfloor_Z in Hf.
  pose proof (Qfloor_le x) as Hlow.
  destruct (decide (Qfloor x = n)) as [Heq|Hne].
  - unfold round_half_even. rewrite Heq in *.
    repeat destruct (Qlt_le_dec _ _); try lia; lra.
  - unfold round_half_even. repeat destruct (Qlt_le_dec _ _); try lia.
    destruct (Z.even _); lia.
Qed.





Lemma predict_clean_sheet_Ok (self : AdvancedFixturePredictor)
    (team opponent : string) (is_home : bool) (c : Q) :
  predict_clean_sheet py_float self team opponent is_home = Ok c ->
  exists ts,
    strengths py_float self = Ok ts
    /\ c = clean_sheet (default default_defense_stats (ts !! team))
           (default default_attack_stats (ts !! opponent)) is_home.
Proof.
  unfold predict_clean_sheet. intros Hrun.
  apply bind_Ok in Hrun as (ts & Hts & Hrun). injection Hrun as <-. eauto.
Qed.

(** X4.  A clean-sheet probability is always between 0.05 and 0.65, and
    for the same two clubs it is never lower at home than away. *)
Theorem predict_clean_sheet_ranges (self : AdvancedFixturePredictor)
    (team opponent : string) (at_home away : Q) :
  predict_clean_sheet py_float self team opponent true = Ok at_home ->
  predict_clean_sheet py_float self team opponent false = Ok away ->
  0.05 <= away /\ away <= at_home /\ at_home <= 0.65.
Proof.
  intros Hh Ha.
  apply predict_clean_sheet_Ok in Hh as (ts & Hts & ->).
  apply predict_clean_sheet_Ok in Ha as (ts' & Hts' & ->).
  rewrite Hts in Hts'. injection Hts' as <-.
  unfold clean_sheet.
  set (cs := (defense _ / 100 + (1 - attack _ / 100)) / 2). clearbody cs.
  split; [apply clamp_bounds; lra|]. split; [|apply clamp_bounds; lra].
  destruct (Qlt_le_dec cs 0) as [Hneg|Hpos].
  - rewrite !clamp_below by lra. lra.
  - apply clamp_monotone; lra.
Qed.

End PredictionRanges.




Lemma predict_clean_sheet_ranges_witness :
  let at_home := clean_sheet (stats_of (team_strength strong_and_weak) "MCI")
                   (stats_of (team_strength strong_and_weak) "BUR") true in
  let away := clean_sheet (stats_of (team_strength strong_and_weak) "MCI")
                (stats_of (team_strength strong_and_weak) "BUR") false in
  (0.05 <= away)%Q /\ (away <= at_home)%Q /\ (at_home <= 0.65)%Q.
Proof.
  apply (predict_clean_sheet_ranges (fun _ => None) strong_and_weak "MCI" "BUR").
  - vm_compute. reflexivity.
  - vm_compute. reflexivity.
Defined.

(** ** The fixture predictor: the table of strengths *)

Section TeamStrength.
Local Open Scope Q_scope.
Variable py_float : string -> option Q.

Lemma team_entry_Ok (df : DataFrame) (ts ts' : gmap string TeamStats)
    (t : string) :
  team_entry py_float df ts t = Ok ts' ->
  exists s, ts' = <[t := s]> ts /\ overall s = attack s + defense s.
Proof.
  unfold team_entry. intros Hrun.
  repeat (apply bind_Ok in Hrun as (? & _ & Hrun)).
  injection Hrun as <-. eexists. split; reflexivity.
Qed.

Lemma team_entries_Ok (df : DataFrame) (l : list string) :
  forall ts0 ts,
    foldM (team_entry py_float df) l ts0 = Ok ts ->
    (forall t, is_Some (ts !! t) <-> t ∈ l \/ is_Some (ts0 !! t))
    /\ (forall t s, ts !! t = Some s ->
          ts0 !! t = Some s \/ overall s = attack s + defense s).
Proof.
  induction l as [|t0 l IH]; intros ts0 ts Hrun.
  - injection Hrun as <-. split.
    + intros t. rewrite elem_of_nil. tauto.
    + intros t s Hs. by left.
  - rewrite foldM_cons in Hrun. apply bind_Ok in Hrun as (ts1 & Hstep & Hrun).
    apply team_entry_Ok in Hstep as (s0 & -> & Hs0).
    apply IH in Hrun as [Hdom Hval]. split.
    + intros t. rewrite Hdom, elem_of_cons.
      destruct (decide (t = t0)) as [->|Hne].
      * rewrite lookup_insert_eq. split; [by left; left|by right].
      * rewrite lookup_insert_ne by done. tauto.
    + intros t s Hs. apply Hval in Hs as [Hs|Hs]; [|by right].
      destruct (decide (t = t0)) as [->|Hne].
      * rewrite lookup_insert_eq in Hs. injection Hs as <-. by right.
      * rewrite lookup_insert_ne in Hs by done. by left.
Qed.

(** X5.  The table [calculate_team_strength] computes has an entry for
    exactly the clubs that have a row in the table of players, and in
    every entry the overall strength is the attack strength plus the
    defense strength. *)
Theorem calculate_team_strength_table (players_df : DataFrame)
    (ts : gmap string TeamStats) :
  calculate_team_strength py_float players_df = Ok ts ->
  (forall t, is_Some (ts !! t)
             <-> exists p, p ∈ rows players_df /\ team_short p = t)
  /\ (forall t s, ts !! t = Some s -> overall s = attack s + defense s).
Proof.
  unfold calculate_team_strength. intros Hrun.
  apply bind_Ok in Hrun as ([] & _ & Hrun).
  apply team_entries_Ok in Hrun as [Hdom Hval]. split.
  - intros t. rewrite Hdom. unfold unique_teams.
    rewrite elem_of_remove_dups, list_elem_of_fmap, lookup_empty.
    split.
    + intros [(p & -> & Hp)|[? ?]]; [eauto|done].
    + intros (p & Hp & <-). left. eauto.
  - intros t s Hs. apply Hval in Hs as [Hs|Hs]; [|done].
    by rewrite lookup_empty in Hs.
Qed.

End TeamStrength.

Lemma calculate_team_strength_table_witness :
  (forall t, is_Some (squad_strengths !! t)
             <-> exists p, p ∈ rows squad_with_unused_keeper /\ team_short p = t)
  /\ (forall t s, squad_strengths !! t = Some s ->
        overall s = (attack s + defense s)%Q).
Proof.
  apply (calculate_team_strength_table decimal squad_with_unused_keeper).
  vm_compute. reflexivity.
Defined.

(** ** The fixture predictor: the table of fixture difficulties *)

Section FixtureAnalysis.
Local Open Scope Q_scope.
Variable py_float : string -> option Q.
Variable exp : Q -> Q.

Lemma round1_ge (lo : Z) (x : Q) :
  inject_Z lo / 10 <= x -> inject_Z lo / 10 <= round1 x.
Proof.
  intros Hlo. unfold round1. rewrite ?Qdiv_literal in *.
  assert (H1 : (lo <= round_half_even (x * 10))%Z)
    by (apply round_half_even_ge; lra).
  rewrite Zle_Qle in H1. lra.
Qed.

Lemma round1_le (hi : Z) (x : Q) :
  x <= inject_Z hi / 10 -> round1 x <= inject_Z hi / 10.
Proof.
  intros Hhi. unfold round1. rewrite ?Qdiv_literal in *.
  assert (H2 : (round_half_even (x * 10) <= hi)%Z)
    by (apply round_half_even_le; lra).
  rewrite Zle_Qle in H2. lra.
Qed.

Lemma round1_low (lo : Z) (x b : Q) :
  b == inject_Z lo / 10 -> b <= x -> b <= round1 x.
Proof. intros Hb Hx. rewrite Hb in *. by apply round1_ge. Qed.

Lemma round1_high (hi : Z) (x b : Q) :
  b == inject_Z hi / 10 -> x <= b -> round1 x <= b.
Proof. intros Hb Hx. rewrite Hb in *. by apply round1_le. Qed.

Lemma clean_sheet_range (team_stats opp_stats : TeamStats) (is_home : bool) :
  0.05 <= clean_sheet team_stats opp_stats is_home <= 0.65.
Proof. unfold clean_sheet. apply clamp_bounds. lra. Qed.

Lemma analyse_fixture_in_range (self : AdvancedFixturePredictor)
    (team : string) (fixture : Fixture) (a : Analysis.t) :
  analyse_fixture py_float exp self team fixture = Ok a ->
  analysis_in_range a.
Proof.
  unfold analyse_fixture. intros Hrun.
  apply bind_Ok in Hrun as (o & Ho & Hrun).
  apply bind_Ok in Hrun as (g & _ & Hrun).
  apply bind_Ok in Hrun as (cs & Hcs & Hrun).
  apply bind_Ok in Hrun as (cs' & Hcs' & Hrun).
  injection Hrun as <-.
  apply predict_clean_sheet_Ok in Hcs as (ts & _ & ->).
  apply predict_clean_sheet_Ok in Hcs' as (ts' & _ & ->).
  pose proof (clean_sheet_range
                (default default_defense_stats (ts !! team))
                (default default_attack_stats
                   (ts !! (if bool_decide (home_team fixture = team)
                           then away_team fixture else home_team fixture)))
                (bool_decide (home_team fixture = team))) as Hc.
  pose proof (clean_sheet_range
                (default default_defense_stats
                   (ts' !! (if bool_decide (home_team fixture = team)
                            then away_team fixture else home_team fixture)))
                (default default_attack_stats (ts' !! team))
                (negb (bool_decide (home_team fixture = team)))) as Hc'.
  set (c := clean_sheet _ _ (bool_decide _)) in *.
  set (c' := clean_sheet _ _ (negb _)) in *.
  clearbody c c'.
  assert (Hout : exists hs aws, o = match_outcome hs aws).
  { destruct (bool_decide _);
      apply predict_match_outcome_Ok in Ho as (hs & aws & ->); eauto. }
  destruct Hout as (hs & aws & ->).
  pose proof (match_outcome_within_bounds hs aws) as (Hh & _ & Ha).
  pose proof (match_outcome_draw hs aws) as Hd.
  set (o := match_outcome hs aws) in *. clearbody o.
  set (w := if bool_decide (home_team fixture = team)
            then home_win o else away_win o).
  set (l := if bool_decide (home_team fixture = team)
            then away_win o else home_win o).
  assert (Hw : 0.05 <= w <= 0.85) by (unfold w; by destruct (bool_decide _)).
  assert (Hl : 0.05 <= l <= 0.85) by (unfold l; by destruct (bool_decide _)).
  clearbody w l.
  unfold analysis_in_range.
  cbn [Analysis.fdr Analysis.win_prob Analysis.draw_prob Analysis.loss_prob
       Analysis.clean_sheet_prob Analysis.btts_prob].
  assert (Hprod : 0.0025 <= c * c' <= 0.4225) by nra.
  split; [repeat destruct (Qlt_le_dec _ _); lia|].
  split.
  { destruct (Qlt_le_dec 0.55 w);
      [|repeat destruct (Qlt_le_dec _ _); discriminate].
    intros _. apply (round1_low 550); [reflexivity|lra]. }
  split.
  { destruct (Qlt_le_dec 0.55 w); [discriminate|].
    destruct (Qlt_le_dec 0.40 w); [|repeat destruct (Qlt_le_dec _ _); discriminate].
    intros _. split; [apply (round1_low 400)|apply (round1_high 550)];
      first [reflexivity|lra]. }
  split.
  { destruct (Qlt_le_dec 0.55 w); [discriminate|].
    destruct (Qlt_le_dec 0.40 w); [discriminate|].
    destruct (Qlt_le_dec 0.25 w); [|discriminate].
    intros _. split; [apply (round1_low 250)|apply (round1_high 400)];
      first [reflexivity|lra]. }
  split.
  { destruct (Qlt_le_dec 0.55 w); [discriminate|].
    destruct (Qlt_le_dec 0.40 w); [discriminate|].
    destruct (Qlt_le_dec 0.25 w); [discriminate|].
    intros _. apply (round1_high 250); [reflexivity|lra]. }
  split.
  { split; [apply (round1_low 50)|apply (round1_high 850)];
      first [reflexivity|lra]. }
  split.
  { destruct Hd as [Hd|Hd]; [left|right].
    - apply Qle_antisym;
        [apply (round1_high 250)|apply (round1_low 250)];
        first [reflexivity|lra].
    - apply Qle_antisym;
        [apply (round1_high 300)|apply (round1_low 300)];
        first [reflexivity|lra]. }
  split.
  { split; [apply (round1_low 50)|apply (round1_high 850)];
      first [reflexivity|lra]. }
  split.
  { split; [apply (round1_low 50)|apply (round1_high 650)];
      first [reflexivity|lra]. }
  split; [apply (round1_low 577)|apply (round1_high 998)];
    first [reflexivity|lra].
Qed.

(** X7.  [calculate_advanced_fdr] returns one row for each upcoming
    fixture of the club.  In every row the rating is 2, 3, 4 or 5, never
    1, and agrees with the win percentage of the row; the win and loss
    percentages are between 5 and 85, the draw percentage is 25 or 30,
    the clean-sheet percentage is between 5 and 65 and the
    both-teams-to-score percentage is at least 57.7. *)
Theorem calculate_advanced_fdr_rows (self : AdvancedFixturePredictor)
    (fixtures_df : list Fixture) (team : string) (next_n_fixtures : Z)
    (table : list Analysis.t) :
  calculate_advanced_fdr py_float exp self fixtures_df team next_n_fixtures
  = Ok table ->
  length table = length (upcoming_fixtures fixtures_df team next_n_fixtures)
  /\ Forall analysis_in_range table.
Proof.
  unfold calculate_advanced_fdr.
  set (upcoming := upcoming_fixtures fixtures_df team next_n_fixtures).
  clearbody upcoming.
  assert (Hgen : forall acc,
            Forall analysis_in_range acc ->
            foldM (fun fixture_analysis fixture =>
                     a ← analyse_fixture py_float exp self team fixture;
                     mret (fixture_analysis ++ [a])) upcoming acc = Ok table ->
            length table = (length acc + length upcoming)%nat
            /\ Forall analysis_in_range table).
  { induction upcoming as [|f upcoming IH]; intros acc Hacc Hrun.
    - injection Hrun as <-. simpl. split; [lia|done].
    - rewrite foldM_cons in Hrun. apply bind_Ok in Hrun as (acc' & Hstep & Hrun).
      apply bind_Ok in Hstep as (a & Ha & Hstep). injection Hstep as <-.
      apply IH in Hrun as [Hlen Hall].
      + split; [|done]. rewrite Hlen, length_app. simpl. lia.
      + apply Forall_app. split; [done|]. constructor; [|constructor].
        by apply analyse_fixture_in_range in Ha. }
  intros Hrun. apply Hgen in Hrun as [Hlen Hall]; [|constructor].
  split; [exact Hlen|exact Hall].
Qed.


End FixtureAnalysis.

Lemma calculate_advanced_fdr_rows_witness :
  length mci_analysis = length (upcoming_fixtures example_fixtures "MCI" 5)
  /\ Forall analysis_in_range mci_analysis.
Proof.
  apply (calculate_advanced_fdr_rows (fun _ => None) exp_approx strong_and_weak).
  vm_compute. reflexivity.
Defined.


(** ** The score model: the rows it keeps and the penalties *)

Section ScoredRows.
Local Open Scope Q_scope.
Variable to_float : string -> option Q.

Lemma filter_none {A : Type} (P : A -> Prop) `{forall x, Decision (P x)}
    (l : list A) :
  (forall x, x ∈ l -> ~ P x) -> filter P l = [].
Proof.
  induction l as [|x l IH]; intros Hl; [done|].
  rewrite filter_cons. destruct (decide (P x)) as [HP|_].
  - exfalso. apply (Hl x); [apply list_elem_of_here|done].
  - apply IH. intros y Hy. apply Hl. by apply list_elem_of_further.
Qed.

(** X9.  On a table that has the columns the method reads but no player
    with minutes above 0 (an empty table, or the table before the first
    gameweek), [calculate_value_score] raises the [ValueError] of the
    scaler, which is given no sample. *)
Theorem calculate_value_score_without_minutes (players_df : DataFrame) :
  has_columns players_df required_columns ->
  (forall p, p ∈ rows players_df -> (minutes p <= 0)%Z) ->
  calculate_value_score to_float players_df = Raise MinMaxScaler.no_samples.
Proof.
  intros Hcols Hmin. unfold calculate_value_score.
  rewrite composite_score_unfold by done.
  assert (Hrows : rows (derived to_float players_df) = []).
  { unfold derived, assign, fillna, numeric. cbn [rows].
    rewrite (filter_none _ (rows players_df)); [reflexivity|].
    intros p Hp. specialize (Hmin p Hp). lia. }
  unfold metrics. cbn [normalize_metrics]. unfold normalize_metric.
  rewrite (derived_has_metrics to_float players_df Hcols "points_per_game")
    by in_labels.
  rewrite Hrows. reflexivity.
Qed.

Lemma same_fields_refl (p : Player) : same_fields p p.
Proof. by destruct p. Qed.

Lemma same_fields_trans (p q r : Player) :
  same_fields p q -> same_fields q r -> same_fields p r.
Proof. unfold same_fields. intros -> ->. reflexivity. Qed.

Lemma scored_from_same_fields (p q r : Player) :
  scored_from p q -> same_fields q r -> scored_from p r.
Proof. unfold scored_from, same_fields. intros -> ->. reflexivity. Qed.

Lemma Forall2_map_same {A : Type} (R : A -> A -> Prop) (h : A -> A)
    (l : list A) :
  (forall x, R x (h x)) -> Forall2 R l (map h l).
Proof. intros Hh. induction l; constructor; auto. Qed.

Lemma Forall2_compose {A B C : Type} (R : A -> B -> Prop) (R' : B -> C -> Prop)
    (R'' : A -> C -> Prop) (l : list A) (k : list B) (m : list C) :
  (forall x y z, R x y -> R' y z -> R'' x z) ->
  Forall2 R l k -> Forall2 R' k m -> Forall2 R'' l m.
Proof.
  intros Hcomp Hlk. revert m.
  induction Hlk as [|x y l k Hxy _ IH]; intros m Hkm.
  - inversion Hkm. constructor.
  - inversion Hkm as [|? z ? m' Hyz Hrest]; subst. constructor; eauto.
Qed.

Lemma Forall2_and_r {A B : Type} (R : A -> B -> Prop) (Q : B -> Prop)
    (l : list A) (k : list B) :
  Forall2 R l k -> (forall y, y ∈ k -> Q y) ->
  Forall2 (fun x y => R x y /\ Q y) l k.
Proof.
  induction 1 as [|x y l k Hxy _ IH]; intros HQ; constructor.
  - split; [done|]. apply HQ, list_elem_of_here.
  - apply IH. intros z Hz. by apply HQ, list_elem_of_further.
Qed.

Lemma assign_same_fields (c : string) (f : Player -> Q) (df : DataFrame) :
  Forall2 same_fields (rows df) (rows (assign c f df)).
Proof. apply Forall2_map_same. intros p. reflexivity. Qed.

Lemma normalize_metric_rows (df df' : DataFrame) (metric : string) :
  normalize_metric df metric = Ok df' ->
  Forall2 same_fields (rows df) (rows df').
Proof.
  unfold normalize_metric. destruct (has_column df metric).
  - intros Hrun. apply bind_Ok in Hrun as (? & _ & Hrun).
    injection Hrun as <-. apply assign_same_fields.
  - intros [= <-]. apply Forall_Forall2_diag, Forall_forall.
    intros p _. apply same_fields_refl.
Qed.

Lemma normalize_metrics_rows (ms : list string) :
  forall df df',
    normalize_metrics ms df = Ok df' ->
    Forall2 same_fields (rows df) (rows df').
Proof.
  induction ms as [|m ms IH]; intros df df' Hrun; simpl in Hrun.
  - injection Hrun as <-. apply Forall_Forall2_diag, Forall_forall.
    intros p _. apply same_fields_refl.
  - apply bind_Ok in Hrun as (df1 & Hstep & Hrun).
    apply normalize_metric_rows in Hstep. apply IH in Hrun.
    eapply Forall2_compose; [|exact Hstep|exact Hrun].
    intros x y z. apply same_fields_trans.
Qed.

Lemma derived_rows (df : DataFrame) :
  Forall2 scored_from (with_minutes (rows df)) (rows (derived to_float df)).
Proof.
  unfold derived, assign, fillna, numeric, with_minutes. cbn [rows].
  rewrite !map_map. apply Forall2_map_same. intros p. reflexivity.
Qed.

(** The rows of the composite table come from the rows with minutes, in
    order, and their scores are in the unit interval. *)
Lemma composite_score_rows (df dfc : DataFrame) :
  composite_score to_float df = Ok dfc ->
  Forall2 (fun p q => scored_from p q /\ 0 <= value_score q <= 1)
    (with_minutes (rows df)) (rows dfc).
Proof.
  intros Hrun. pose proof (composite_score_unit _ _ _ Hrun) as Hunit.
  pose proof (composite_score_has_columns _ _ _ Hrun) as Hcols.
  rewrite composite_score_unfold in Hrun by done.
  apply bind_Ok in Hrun as (dfn & Hnorm & Hrun).
  apply bind_Ok in Hrun as ([] & _ & Hrun). injection Hrun as <-.
  apply normalize_metrics_rows in Hnorm.
  assert (Hrel : Forall2 scored_from (with_minutes (rows df))
                   (rows (assign "value_score" weighted_sum dfn))).
  { eapply Forall2_compose;
      [|apply derived_rows
       |eapply Forall2_compose;
          [|exact Hnorm|apply (assign_same_fields "value_score")]].
    - intros x y z. apply scored_from_same_fields.
    - intros x y z. apply same_fields_trans. }
  apply Forall2_and_r; [exact Hrel|]. intros q Hq. exact (Hunit q Hq).
Qed.

Lemma penalise_rows (dfc scored : DataFrame) :
  penalise dfc = Ok scored ->
  Forall2 (fun b a => same_fields b a
                      /\ value_score a == value_score b * penalty b)
    (rows dfc) (rows scored).
Proof.
  intros Hpen. apply penalise_Ok in Hpen as ->. unfold scale_where.
  cbn [rows]. rewrite map_map. apply Forall2_map_same. intros p.
  unfold penalty. destruct (chance_below_100 p) eqn:Hchance.
  - assert (Hst : not_available
                    (set_cols p (<["value_score" := Num (value_score p * 0.5)]> (cols p)))
                  = not_available p) by reflexivity.
    rewrite Hst.
    destruct (not_available p); rewrite ?value_score_set;
      (split; [by destruct p|ring]).
  - destruct (not_available p); rewrite ?value_score_set;
      (split; [by destruct p|ring]).
Qed.

Lemma calculate_value_score_rows (players_df scored : DataFrame) :
  calculate_value_score to_float players_df = Ok scored ->
  Forall2 (fun p q =>
             scored_from p q
             /\ exists b, scored_from p b /\ 0 <= value_score b <= 1
                          /\ value_score q == value_score b * penalty b)
    (with_minutes (rows players_df)) (rows scored).
Proof.
  unfold calculate_value_score. intros Hrun.
  apply bind_Ok in Hrun as (dfc & Hcomp & Hpen).
  apply composite_score_rows in Hcomp. apply penalise_rows in Hpen.
  eapply Forall2_compose; [|exact Hcomp|exact Hpen].
  intros p b q [Hpb Hunit] [Hbq Hval]. split.
  - by eapply scored_from_same_fields.
  - exists b. done.
Qed.

(** X10.  The table [calculate_value_score] returns has one row for each
    player with minutes above 0, in the order of the loaded table, and
    no other row; a row keeps the identifier, name, club, position,
    status, price and counts of its player. *)
Theorem calculate_value_score_keeps_players_with_minutes
    (players_df scored : DataFrame) :
  calculate_value_score to_float players_df = Ok scored ->
  Forall2 scored_from (with_minutes (rows players_df)) (rows scored)
  /\ map id (rows scored) = map id (with_minutes (rows players_df))
  /\ rows scored <> [].
Proof.
  intros Hrun. apply calculate_value_score_rows in Hrun as Hrows.
  assert (Hfrom : Forall2 scored_from (with_minutes (rows players_df))
                    (rows scored)).
  { eapply Forall2_impl; [exact Hrows|]. by intros p q [? _]. }
  split; [exact Hfrom|]. split.
  - clear Hrows. induction Hfrom as [|p q l k Hpq _ IH]; [done|].
    simpl. rewrite IH. f_equal. unfold scored_from in Hpq. by rewrite Hpq.
  - unfold calculate_value_score in Hrun.
    apply bind_Ok in Hrun as (dfc & Hcomp & Hpen).
    pose proof (composite_score_has_columns _ _ _ Hcomp) as Hcols.
    rewrite composite_score_unfold in Hcomp by done.
    apply bind_Ok in Hcomp as (dfn & Hnorm & Hcomp).
    apply bind_Ok in Hcomp as ([] & _ & Hcomp). injection Hcomp as <-.
    apply normalized_table_settled in Hnorm as (_ & Hne & _); [|done].
    apply penalise_Ok in Hpen as ->. unfold scale_where, assign. cbn [rows].
    by destruct (rows dfn).
Qed.


End ScoredRows.

Lemma calculate_value_score_without_minutes_witness :
  calculate_value_score decimal preseason_table = Raise MinMaxScaler.no_samples.
Proof.
  apply (calculate_value_score_without_minutes decimal preseason_table).
  - unfold has_columns, required_columns.
    repeat (constructor; [vm_compute; reflexivity|]). constructor.
  - intros p Hp. unfold preseason_table in Hp. cbn [rows] in Hp.
    repeat (apply elem_of_cons in Hp as [->|Hp]; [simpl; lia|]).
    by apply elem_of_nil in Hp.
Defined.

Lemma calculate_value_score_keeps_players_with_minutes_witness :
  Forall2 scored_from (with_minutes (rows three_players))
    (rows three_players_scored)
  /\ map id (rows three_players_scored)
     = map id (with_minutes (rows three_players))
  /\ rows three_players_scored <> [].
Proof.
  apply (calculate_value_score_keeps_players_with_minutes decimal
           three_players three_players_scored).
  vm_compute. reflexivity.
Defined.


(** ** The analyzer: fixture difficulty and the best players *)

Section FixtureDifficulty.
Local Open Scope Q_scope.

Lemma sum_bounds (lo hi : Q) (xs : list Q) :
  Forall (fun x => lo <= x <= hi) xs ->
  lo * inject_Z (Z.of_nat (length xs)) <= foldr Qplus 0 xs
  /\ foldr Qplus 0 xs <= hi * inject_Z (Z.of_nat (length xs)).
Proof.
  induction 1 as [|x xs [Hl Hh] _ [IHl IHh]].
  - cbn [length foldr]. change (inject_Z (Z.of_nat 0)) with 0. lra.
  - cbn [length foldr]. rewrite Nat2Z.inj_succ. unfold Z.succ.
    rewrite inject_Z_plus. change (inject_Z 1) with 1. lra.
Qed.

Lemma mean_bounds (lo hi : Q) (xs : list Q) :
  xs <> [] -> Forall (fun x => lo <= x <= hi) xs ->
  exists m, mean xs = Some m /\ lo <= m <= hi.
Proof.
  intros Hne Hall. destruct (sum_bounds lo hi xs Hall) as [Hl Hh].
  destruct xs as [|x xs]; [done|]. eexists. split; [reflexivity|].
  assert (Hpos : 0 < inject_Z (Z.of_nat (length (x :: xs)))).
  { rewrite <- (Zlt_Qlt 0). simpl. lia. }
  split; [by apply Qle_shift_div_l | by apply Qle_shift_div_r].
Qed.

Lemma mean_nil_iff (xs : list Q) : mean xs = None <-> xs = [].
Proof. destruct xs; split; intros; done. Qed.

(** X12.  With no upcoming fixture of the club [get_fixture_difficulty]
    returns the neutral 3; otherwise it returns an average that lies
    between the lowest and the highest difficulty of the fixtures table,
    and the second fallback to 3 is never taken. *)
Theorem get_fixture_difficulty_range (fixtures_df : list Fixture)
    (team_name : string) (next_n_games lo hi : Z) :
  (forall f, f ∈ fixtures_df ->
     (lo <= team_h_difficulty f <= hi)%Z /\ (lo <= team_a_difficulty f <= hi)%Z) ->
  (upcoming_fixtures fixtures_df team_name next_n_games = [] ->
   get_fixture_difficulty fixtures_df team_name next_n_games = 3)
  /\ (upcoming_fixtures fixtures_df team_name next_n_games <> [] ->
      inject_Z lo <= get_fixture_difficulty fixtures_df team_name next_n_games
      <= inject_Z hi).
Proof.
  intros Hrange. unfold get_fixture_difficulty.
  set (upcoming := upcoming_fixtures fixtures_df team_name next_n_games).
  assert (Hup : forall f, f ∈ upcoming ->
            f ∈ fixtures_df /\ (home_team f = team_name \/ away_team f = team_name)).
  { intros f Hf. unfold upcoming, upcoming_fixtures in Hf.
    destruct (slice_to_take next_n_games
                (filter (fun f => finished f = false
                                  /\ (home_team f = team_name \/ away_team f = team_name))
                        fixtures_df)) as (m & Hm).
    rewrite Hm in Hf. apply subseteq_take, list_elem_of_filter in Hf.
    tauto. }
  clearbody upcoming. split; [by intros ->|]. intros Hne.
  destruct upcoming as [|f0 upcoming]; [done|]. clear Hne.
  set (U := f0 :: upcoming) in *.
  set (hs := map (fun f => inject_Z (team_h_difficulty f))
               (filter (fun f => home_team f = team_name) U)).
  set (aws := map (fun f => inject_Z (team_a_difficulty f))
                (filter (fun f => away_team f = team_name) U)).
  assert (Hhs : Forall (fun x => inject_Z lo <= x <= inject_Z hi) hs).
  { apply Forall_forall. intros x Hx. unfold hs in Hx.
    apply list_elem_of_fmap in Hx as (f & -> & Hf).
    apply list_elem_of_filter in Hf as [_ Hf].
    destruct (Hrange f (proj1 (Hup f Hf))) as [[? ?] _].
    rewrite <- !Zle_Qle. done. }
  assert (Haws : Forall (fun x => inject_Z lo <= x <= inject_Z hi) aws).
  { apply Forall_forall. intros x Hx. unfold aws in Hx.
    apply list_elem_of_fmap in Hx as (f & -> & Hf).
    apply list_elem_of_filter in Hf as [_ Hf].
    destruct (Hrange f (proj1 (Hup f Hf))) as [_ [? ?]].
    rewrite <- !Zle_Qle. done. }
  assert (Hsome : hs <> [] \/ aws <> []).
  { destruct (Hup f0) as [_ [Hh|Ha]]; [apply list_elem_of_here| |].
    - left. unfold hs, U. rewrite filter_cons, decide_True by done. done.
    - right. unfold aws, U. rewrite filter_cons, decide_True by done. done. }
  clearbody hs aws. unfold nanmean.
  destruct (decide (hs = [])) as [->|Hh]; destruct (decide (aws = [])) as [->|Ha].
  - by destruct Hsome.
  - destruct (mean_bounds _ _ aws Ha Haws) as (a & -> & Hb).
    simpl. change (inject_Z (Z.of_nat 1)) with 1. rewrite ?Qdiv_literal. lra.
  - destruct (mean_bounds _ _ hs Hh Hhs) as (h & -> & Hb).
    simpl. change (inject_Z (Z.of_nat 1)) with 1. rewrite ?Qdiv_literal. lra.
  - destruct (mean_bounds _ _ hs Hh Hhs) as (h & -> & Hb).
    destruct (mean_bounds _ _ aws Ha Haws) as (a & -> & Hb').
    simpl. change (inject_Z (Z.of_nat 2)) with 2. rewrite ?Qdiv_literal. lra.
Qed.

End FixtureDifficulty.

Lemma get_fixture_difficulty_range_witness :
  (inject_Z 2 <= get_fixture_difficulty example_fixtures "MCI" 5 <= inject_Z 5)%Q.
Proof.
  apply (get_fixture_difficulty_range example_fixtures "MCI" 5 2 5).
  - intros f Hf. unfold example_fixtures in Hf.
    repeat (apply elem_of_cons in Hf as [->|Hf]; [simpl; lia|]).
    by apply elem_of_nil in Hf.
  - vm_compute. discriminate.
Defined.

Section BestPlayers.
Local Open Scope Q_scope.
Variable to_float : string -> option Q.
Variable argsort : list Q -> list nat.
Hypothesis argsort_sorts : sorts argsort.

Lemma position_filter_Ok (df df' : DataFrame) (pos : option string) :
  position_filter df pos = Ok df' ->
  columns df' = columns df /\ rows df' = candidates_for pos (rows df).
Proof.
  unfold position_filter, candidates_for. destruct pos as [s|].
  - destruct (decide (s = "")).
    + by intros [= <-].
    + intros Hrun. apply bind_Ok in Hrun as ([] & _ & Hrun).
      by injection Hrun as <-.
  - by intros [= <-].
Qed.

(** X13.  [recommend_best_players] returns, under the display labels,
    the [top_n] candidates of highest score (all of them if there are
    fewer), best first: no candidate left out has a higher score than a
    returned one.  The candidates are the rows of the position asked
    for, whatever their status. *)
Theorem recommend_best_players_top_n (players_df df best : DataFrame)
    (pos : option string) (top_n : Z) :
  ensure_scored to_float players_df = Ok df ->
  recommend_best_players to_float argsort players_df pos top_n = Ok best ->
  columns best = best_display_cols
  /\ length (rows best)
     = Nat.min (Z.to_nat top_n) (length (candidates_for pos (rows df)))
  /\ sorted_desc value_score (rows best)
  /\ exists rest,
       rows best ++ rest ≡ₚ candidates_for pos (rows df)
       /\ forall p q, p ∈ rows best -> q ∈ rest ->
                      value_score q <= value_score p.
Proof.
  intros Hdf Hrun. unfold recommend_best_players in Hrun.
  rewrite Hdf in Hrun. cbn [mbind result_bind] in Hrun.
  apply bind_Ok in Hrun as (df' & Hpos & Hrun).
  apply bind_Ok in Hrun as ([] & _ & Hrun).
  apply bind_Ok in Hrun as ([] & _ & Hrun).
  injection Hrun as <-. cbn [columns rows].
  apply position_filter_Ok in Hpos as [_ ->].
  destruct (nlargest_top argsort argsort_sorts top_n
              (candidates_for pos (rows df)))
    as (Hlen & Hsorted & rest & Hperm & Htop).
  split; [reflexivity|]. split; [exact Hlen|]. split; [exact Hsorted|].
  exists rest. split; [exact Hperm|exact Htop].
Qed.

End BestPlayers.

Lemma recommend_best_players_top_n_witness :
  columns best_midfielders = best_display_cols
  /\ length (rows best_midfielders)
     = Nat.min (Z.to_nat 3) (length (candidates_for (Some "MID") (rows two_midfielders)))
  /\ sorted_desc value_score (rows best_midfielders)
  /\ exists rest,
       rows best_midfielders ++ rest
         ≡ₚ candidates_for (Some "MID") (rows two_midfielders)
       /\ forall p q, p ∈ rows best_midfielders -> q ∈ rest ->
                      (value_score q <= value_score p)%Q.
Proof.
  apply (recommend_best_players_top_n decimal argsort_stable
           argsort_stable_sorts two_midfielders two_midfielders
           best_midfielders (Some "MID") 3).
  - vm_compute. reflexivity.
  - vm_compute. reflexivity.
Defined.

(** ** The squad builder: composition of the squad *)

Section SquadStructure.
Local Open Scope Q_scope.
Variable to_float : string -> option Q.
Variable argsort : list Q -> list nat.
Hypothesis argsort_sorts : sorts argsort.

Lemma select_players_sub (df : DataFrame) (count : nat) (players : list Player) :
  forall selected st st',
    select_players df count players selected st = Ok st' ->
    exists l, squad st' = squad st ++ l /\ l `sublist_of` players
              /\ (length l + selected <= Nat.max count selected)%nat.
Proof.
  induction players as [|player rest IH]; intros selected st st' Hrun;
    simpl in Hrun.
  - injection Hrun as <-. exists []. rewrite app_nil_r.
    split; [done|]. split; [constructor|simpl; lia].
  - destruct (decide (count ≤ selected)%nat) as [Hfull|Hroom].
    { injection Hrun as <-. exists []. rewrite app_nil_r.
      split; [done|]. split; [apply sublist_nil_l|simpl; lia]. }
    apply bind_Ok in Hrun as ([] & _ & Hrun).
    destruct (decide _) as [Hcap|Hcap].
    { apply IH in Hrun as (l & Hl & Hsub & Hlen). exists l.
      split; [done|]. split; [by apply sublist_cons|done]. }
    apply bind_Ok in Hrun as ([] & _ & Hrun).
    destruct (Qle_bool _ _).
    + apply IH in Hrun as (l & Hl & Hsub & Hlen). simpl in Hl.
      exists (player :: l). split; [by rewrite Hl, <- app_assoc|].
      split; [by apply sublist_skip|simpl; lia].
    + apply IH in Hrun as (l & Hl & Hsub & Hlen). exists l.
      split; [done|]. split; [by apply sublist_cons|done].
Qed.

Lemma fill_position_sub (df : DataFrame) (st st' : Builder) (pos : string)
    (count : nat) :
  fill_position argsort df st (pos, count) = Ok st' ->
  exists l, squad st' = squad st ++ l /\ l ⊆+ available_at df pos
            /\ (length l <= count)%nat.
Proof.
  unfold fill_position. cbn [fst snd]. intros Hrun.
  apply bind_Ok in Hrun as (players & Hplayers & Hrun).
  unfold position_players in Hplayers.
  apply bind_Ok in Hplayers as ([] & _ & Hplayers).
  apply bind_Ok in Hplayers as ([] & _ & Hplayers).
  apply bind_Ok in Hplayers as ([] & _ & Hplayers).
  injection Hplayers as <-.
  apply select_players_sub in Hrun as (l & Hl & Hsub & Hlen).
  exists l. split; [done|]. split; [|lia].
  apply sublist_submseteq in Hsub.
  by rewrite (sort_values_perm argsort argsort_sorts) in Hsub.
Qed.

Lemma filter_app_disjoint {A : Type} (P Q : A -> Prop)
    `{forall x, Decision (P x)} `{forall x, Decision (Q x)} (l : list A) :
  (forall x, P x -> Q x -> False) ->
  filter P l ++ filter Q l ≡ₚ filter (fun x => P x \/ Q x) l.
Proof.
  intros Hdis. induction l as [|x l IH]; [done|].
  rewrite !filter_cons.
  destruct (decide (P x)) as [HP|HP]; destruct (decide (Q x)) as [HQ|HQ].
  - destruct (Hdis x HP HQ).
  - rewrite decide_True by tauto. simpl. by rewrite IH.
  - rewrite decide_True by tauto. rewrite <- Permutation_middle. by rewrite IH.
  - rewrite decide_False by tauto. exact IH.
Qed.

Lemma available_positions_apart (df : DataFrame) :
  available_at df "GK" ++ available_at df "DEF" ++ available_at df "MID"
    ++ available_at df "FWD" ⊆+ rows df.
Proof.
  unfold available_at.
  rewrite (filter_app_disjoint
             (fun p => position p = "MID" /\ status p = "a")
             (fun p => position p = "FWD" /\ status p = "a"))
    by (intros p [H1 _] [H2 _]; congruence).
  rewrite (filter_app_disjoint
             (fun p => position p = "DEF" /\ status p = "a") _)
    by (intros p [H1 _] [[H2 _]|[H2 _]]; congruence).
  rewrite (filter_app_disjoint
             (fun p => position p = "GK" /\ status p = "a") _)
    by (intros p [H1 _] [[H2 _]|[[H2 _]|[H2 _]]]; congruence).
  apply sublist_submseteq, sublist_filter.
Qed.

Lemma filter_position_of (tag pos : string) (l : list Player) :
  Forall (fun p => position p = tag) l ->
  (length (filter (fun p => position p = pos) l)
   <= if decide (tag = pos) then length l else 0)%nat.
Proof.
  intros Htag. destruct (decide (tag = pos)) as [->|Hne].
  - apply length_filter.
  - induction Htag as [|p l Hp _ IH]; [done|].
    rewrite filter_cons. destruct (decide _); [congruence|exact IH].
Qed.

Lemma available_at_position (df : DataFrame) (pos : string) (l : list Player) :
  l ⊆+ available_at df pos -> Forall (fun p => position p = pos) l.
Proof.
  intros Hsub. apply Forall_forall. intros p Hp.
  apply (elem_of_submseteq _ _ _ Hp) in Hsub.
  apply list_elem_of_filter in Hsub. tauto.
Qed.

(** X14.  The squad [build_optimal_squad] returns is made of rows of the
    scored table, none taken twice, all of them available players of a
    formation position; it holds at most 2 goalkeepers, 5 defenders, 5
    midfielders and 3 forwards, so at most 15 players. *)
Theorem build_optimal_squad_composition (players_df df squad_df : DataFrame)
    (budget : Q) :
  ensure_scored to_float players_df = Ok df ->
  build_optimal_squad to_float argsort players_df budget = Ok squad_df ->
  rows squad_df ⊆+ rows df
  /\ Forall (fun p => status p = "a" /\ position p ∈ map fst formation)
       (rows squad_df)
  /\ (forall pos,
        (length (filter (fun p => position p = pos) (rows squad_df))
         <= quota pos)%nat)
  /\ (length (rows squad_df) <= 15)%nat.
Proof.
  intros Hdf Hrun.
  apply build_optimal_squad_Ok in Hrun as (df' & st & Hdf' & Hst & ->).
  rewrite Hdf in Hdf'. injection Hdf' as <-.
  unfold frame_of_rows. cbn [rows].
  unfold formation in Hst. rewrite !foldM_cons in Hst.
  apply bind_Ok in Hst as (st1 & H1 & Hst).
  apply bind_Ok in Hst as (st2 & H2 & Hst).
  apply bind_Ok in Hst as (st3 & H3 & Hst).
  apply bind_Ok in Hst as (st4 & H4 & Hst).
  injection Hst as <-.
  apply fill_position_sub in H1 as (l1 & E1 & S1 & N1).
  apply fill_position_sub in H2 as (l2 & E2 & S2 & N2).
  apply fill_position_sub in H3 as (l3 & E3 & S3 & N3).
  apply fill_position_sub in H4 as (l4 & E4 & S4 & N4).
  cbn [squad] in E1. rewrite E4, E3, E2, E1. cbn [app].
  rewrite <- !app_assoc.
  assert (Hbig : l1 ++ l2 ++ l3 ++ l4
                 ⊆+ available_at df "GK" ++ available_at df "DEF"
                    ++ available_at df "MID" ++ available_at df "FWD")
    by (repeat apply submseteq_app; done).
  split; [|split; [|split]].
  - etrans; [exact Hbig|apply available_positions_apart].
  - apply Forall_forall. intros p Hp.
    apply (elem_of_submseteq _ _ _ Hp) in Hbig.
    rewrite !elem_of_app in Hbig. unfold available_at in Hbig.
    rewrite !list_elem_of_filter in Hbig.
    destruct Hbig as [[[-> ?] _]|[[[-> ?] _]|[[[-> ?] _]|[[-> ?] _]]]];
      (split; [done|in_labels]).
  - intros pos. rewrite !filter_app, !length_app.
    pose proof (filter_position_of "GK" pos l1
                  (available_at_position df _ _ S1)) as F1.
    pose proof (filter_position_of "DEF" pos l2
                  (available_at_position df _ _ S2)) as F2.
    pose proof (filter_position_of "MID" pos l3
                  (available_at_position df _ _ S3)) as F3.
    pose proof (filter_position_of "FWD" pos l4
                  (available_at_position df _ _ S4)) as F4.
    unfold quota, formation. rewrite !filter_cons, filter_nil. cbn [fst].
    repeat destruct (decide (_ = pos)); subst; try discriminate;
      cbn [map snd sum_list sum_list_with] in *; unfold Datatypes.id in *;
      lia.
  - rewrite !length_app. lia.
Qed.

End SquadStructure.

Lemma build_optimal_squad_composition_witness :
  [keeper_a] ⊆+ rows tied_keepers
  /\ Forall (fun p => status p = "a" /\ position p ∈ map fst formation)
       [keeper_a]
  /\ (forall pos,
        (length (filter (fun p => position p = pos) [keeper_a])
         <= quota pos)%nat)
  /\ (length [keeper_a] <= 15)%nat.
Proof.
  apply (build_optimal_squad_composition decimal argsort_stable
           argsort_stable_sorts tied_keepers tied_keepers
           {| columns := scored_columns; rows := [keeper_a] |} 6).
  - vm_compute. reflexivity.
  - vm_compute. reflexivity.
Defined.

(** ** The transfer recommender: what a recommendation is *)

Section TransferFacts.
Local Open Scope Q_scope.
Variable to_float : string -> option Q.
Variable argsort : list Q -> list nat.


(** X16.  With [transfers_available] 0 the method cannot return a
    recommendation: whenever it would return at least one for some
    number of transfers, it raises a [KeyError] at the removal of the
    column [team_count_after] from a table without rows. *)
Theorem recommend_transfers_without_transfers (players_df : DataFrame)
    (ids : list Z) (transfers_available : Z) (r : Rec.t) (recs : list Rec.t) :
  recommend_transfers to_float argsort players_df ids transfers_available
  = Ok (r :: recs) ->
  recommend_transfers to_float argsort players_df ids 0
  = Raise (KeyError "['team_count_after'] not found in axis").
Proof.
  unfold recommend_transfers. intros Hrun.
  apply bind_Ok in Hrun as (df & -> & Hrun). cbn [mbind result_bind].
  apply bind_Ok in Hrun as ([] & -> & Hrun). cbn [mbind result_bind].
  apply bind_Ok in Hrun as ([] & -> & Hrun). cbn [mbind result_bind].
  apply bind_Ok in Hrun as (all_recommendations & -> & Hrun).
  cbn [mbind result_bind].
  destruct all_recommendations as [|r0 all_recommendations]; [discriminate|].
  reflexivity.
Qed.

End TransferFacts.


Lemma recommend_transfers_without_transfers_witness :
  recommend_transfers decimal argsort_stable two_midfielders [1; 2]%Z 0
  = Raise (KeyError "['team_count_after'] not found in axis").
Proof.
  eapply (recommend_transfers_without_transfers decimal argsort_stable
            two_midfielders [1; 2]%Z 1).
  vm_compute. reflexivity.
Defined.
